(** * A model of the weather tool server (statelesss-MCP)

    The server exposes one tool, [get_weather], behind a line-delimited
    JSON endpoint.  The development below embeds the TypeScript source
    function by function and proves the properties its specification
    states.

    Conventions of the embedding.

    - A JavaScript number is an IEEE-754 binary64 value: Rocq's primitive
      [float].  Arithmetic is the kernel's; conversion to and from decimal
      text ([Number_toString], [number_value]) is written out over [Z].
    - A JavaScript string is held as the bytes of its UTF-8 encoding
      ([string]); a lone surrogate, which only a JSON escape can produce,
      is held as the three bytes of its generalised encoding.
    - A JavaScript value read from JSON is a [value]; an object keeps its
      properties in the order JavaScript enumerates them.
    - Code that can throw returns in the monad [M], which threads the trace
      of observable events (outbound requests, console output).
    - What the JavaScript host decides and the source does not (the reply of
      the upstream service, the wording of built-in error messages) is a
      field of the record [Host].
    - [server.request], the entry point of the protocol library, is a
      parameter of the route [POST /mcp]; [Server.server_request] is what
      the library does for this module, whose server has no transport.

    The routes [/health] and [/test-weather] are embedded in [Routes].
    The CORS middleware and the [OPTIONS] route depend on the routing of
    the web framework alone and are not embedded. *)

From Stdlib Require Import ZArith List String Ascii Bool Lia Floats DecimalString.
Import ListNotations.

Local Open Scope string_scope.
Local Open Scope Z_scope.

(* ================================================================== *)
(** * Strings *)

Module Str.

Definition code (c : ascii) : Z := Z.of_N (N_of_ascii c).
Definition chr (n : Z) : ascii := ascii_of_N (Z.to_N n).
Definition str1 (n : Z) : string := String (chr n) EmptyString.

(** The double quote and the line feed. *)
Definition dquote : string := str1 34.
Definition newline : string := str1 10.

(** [dq s] is [s] with every apostrophe turned into a double quote, so
    that JSON text can be written with apostrophes around its strings. *)
Fixpoint dq (s : string) : string :=
  match s with
  | EmptyString => EmptyString
  | String c r => String (if Ascii.eqb c "'"%char then chr 34 else c) (dq r)
  end.

(** [String.prototype.split] with a one-character separator. *)
Fixpoint split (sep : ascii) (s : string) : list string :=
  match s with
  | EmptyString => [EmptyString]
  | String c r =>
    if Ascii.eqb c sep then EmptyString :: split sep r
    else match split sep r with
         | [] => [String c EmptyString]
         | w :: ws => String c w :: ws
         end
  end.

(** [Array.prototype.join]. *)
Definition join (sep : string) (l : list string) : string := String.concat sep l.

(** ECMAScript white space and line terminators, as UTF-8 byte sequences:
    TAB LF VT FF CR SP; U+00A0; U+1680, U+2000..U+200A, U+2028, U+2029,
    U+202F, U+205F, U+3000, U+FEFF. *)
Definition is_ws1 (c : ascii) : bool :=
  let n := code c in ((9 <=? n) && (n <=? 13)) || (n =? 32).

Definition is_ws2 (c1 c2 : ascii) : bool :=
  (code c1 =? 194) && (code c2 =? 160).

Definition is_ws3 (c1 c2 c3 : ascii) : bool :=
  let a := code c1 in let b := code c2 in let c := code c3 in
  ((a =? 225) && (b =? 154) && (c =? 128))
  || ((a =? 226) && (b =? 128)
      && (((128 <=? c) && (c <=? 138)) || (c =? 168) || (c =? 169) || (c =? 175)))
  || ((a =? 226) && (b =? 129) && (c =? 159))
  || ((a =? 227) && (b =? 128) && (c =? 128))
  || ((a =? 239) && (b =? 187) && (c =? 191)).

Fixpoint all_whitespace (s : string) : bool :=
  match s with
  | EmptyString => true
  | String c1 r1 =>
    if is_ws1 c1 then all_whitespace r1 else
    match r1 with
    | String c2 r2 =>
      if is_ws2 c1 c2 then all_whitespace r2 else
      match r2 with
      | String c3 r3 => if is_ws3 c1 c2 c3 then all_whitespace r3 else false
      | EmptyString => false
      end
    | EmptyString => false
    end
  end.

Fixpoint trim_start (s : string) : string :=
  match s with
  | EmptyString => EmptyString
  | String c1 r1 =>
    if is_ws1 c1 then trim_start r1 else
    match r1 with
    | String c2 r2 =>
      if is_ws2 c1 c2 then trim_start r2 else
      match r2 with
      | String c3 r3 => if is_ws3 c1 c2 c3 then trim_start r3 else s
      | EmptyString => s
      end
    | EmptyString => s
    end
  end.

Fixpoint trim_end (s : string) : string :=
  if all_whitespace s then EmptyString
  else match s with
       | EmptyString => EmptyString
       | String c r => String c (trim_end r)
       end.

(** [String.prototype.trim]. *)
Definition trim (s : string) : string := trim_end (trim_start s).

(** [contains sub s]: [sub] occurs in [s] ([String.prototype.includes]). *)
Fixpoint contains (sub s : string) : bool :=
  String.prefix sub s ||
  match s with
  | EmptyString => false
  | String _ r => contains sub r
  end.

Definition is_digit (c : ascii) : bool := (48 <=? code c) && (code c <=? 57).
Definition digit_val (c : ascii) : Z := code c - 48.

Fixpoint all_digits (s : string) : bool :=
  match s with
  | EmptyString => true
  | String c r => is_digit c && all_digits r
  end.

(** The number a string of decimal digits denotes, most significant first. *)
Fixpoint digits_value (acc : Z) (s : string) : Z :=
  match s with
  | EmptyString => acc
  | String c r => digits_value (10 * acc + digit_val c) r
  end.

(** Decimal digits of a natural number, with no leading zero. *)
Definition of_N (n : N) : string := NilEmpty.string_of_uint (N.to_uint n).
Definition of_nonneg (n : Z) : string := of_N (Z.to_N n).

Fixpoint repeat0 (n : nat) : string :=
  match n with
  | O => EmptyString
  | S k => String "0"%char (repeat0 k)
  end.
Definition zeros (n : Z) : string := repeat0 (Z.to_nat n).

Fixpoint take (n : nat) (s : string) : string :=
  match n, s with
  | S k, String c r => String c (take k r)
  | _, _ => EmptyString
  end.

Fixpoint drop (n : nat) (s : string) : string :=
  match n, s with
  | S k, String _ r => drop k r
  | _, _ => s
  end.

End Str.

(* ================================================================== *)
(** * Numbers *)

Module Num.

(** The Number value for the decimal [m * 10^q] with [0 <= m]: the nearest
    binary64, ties to even, overflowing to infinity.  A negative exponent
    divides with enough extra bits and a sticky bit, so that the single
    rounding of [binary_normalize] is the correct one. *)
Definition number_value (m q : Z) : float :=
  if m <=? 0 then zero
  else if 0 <=? q then SF2Prim (binary_normalize prec emax (m * 10 ^ q) 0 false)
  else
    let den := 10 ^ (- q) in
    let p := Z.max 0 (64 + Z.log2 den - Z.log2 m) in
    let quo := (m * 2 ^ p) / den in
    let sticky := if (m * 2 ^ p) mod den =? 0 then 0 else 1 in
    SF2Prim (binary_normalize prec emax (2 * quo + sticky) (- p - 1) false).

(** An integer of magnitude below 2^53 as a Number. *)
Definition of_Z (n : Z) : float := SF2Prim (binary_normalize prec emax n 0 false).

(** [Math.round]: the nearest integer, a tie going up; computed exactly on
    the mantissa and exponent of the argument. *)
Definition Math_round (x : float) : float :=
  match Prim2SF x with
  | S754_finite s m e =>
    if 0 <=? e then x
    else
      let d := 2 ^ (- e) in
      let n := ((if s then - (2 * Zpos m) else 2 * Zpos m) + d) / (2 * d) in
      if n =? 0 then (if s then neg_zero else zero) else of_Z n
  | _ => x
  end.

(** ** Number::toString (radix 10) *)

(** [m * 2^e] divided by [10^q], as a fraction of two positive integers. *)
Definition scaled (m e q : Z) : Z * Z :=
  (m * 2 ^ (Z.max e 0) * 10 ^ (Z.max (- q) 0),
   2 ^ (Z.max (- e) 0) * 10 ^ (Z.max q 0)).

Definition below_pow10 (m e k : Z) : bool :=
  let (num, den) := scaled m e k in num <? den.

Fixpoint first_above (fuel : nat) (m e k : Z) : Z :=
  match fuel with
  | O => k
  | S f => if below_pow10 m e k then k else first_above f m e (k + 1)
  end.

(** The least [k] with [m * 2^e < 10^k]; every finite binary64 lies in
    [10^-324, 10^309). *)
Definition decimal_exponent (m e : Z) : Z := first_above 640 m e (-324).

Definition roundtrips (x : float) (s q : Z) : bool :=
  PrimFloat.eqb (number_value s q) x.

(** The [n]-digit decimal nearest to [x = m * 2^e] that reads back as [x],
    if there is one: its digits [s] and the exponent [k] of the standard
    ([s * 10^(k-n)]). *)
Definition candidate (x : float) (m e k0 n : Z) : option (Z * Z) :=
  let q := k0 - n in
  let (num, den) := scaled m e q in
  let lo := num / den in
  let r := num mod den in
  let hi := lo + 1 in
  let pick_lo := Some (lo, k0) in
  let pick_hi := if hi =? 10 ^ n then Some (10 ^ (n - 1), k0 + 1) else Some (hi, k0) in
  match roundtrips x lo q, roundtrips x hi q with
  | true, true =>
    if 2 * r <? den then pick_lo
    else if den <? 2 * r then pick_hi
    else if Z.even lo then pick_lo else pick_hi
  | true, false => pick_lo
  | false, true => pick_hi
  | false, false => None
  end.

Fixpoint shortest (fuel : nat) (x : float) (m e k0 n : Z) : Z * Z * Z :=
  match fuel with
  | O => (m, n, k0)
  | S f =>
    match candidate x m e k0 n with
    | Some (s, k) => (s, n, k)
    | None => shortest f x m e k0 (n + 1)
    end
  end.

(** The text of a positive finite Number from its digits [s] (there are
    [n] of them) and exponent [k]. *)
Definition layout (s n k : Z) : string :=
  let ds := Str.of_nonneg s in
  if (n <=? k) && (k <=? 21) then ds ++ Str.zeros (k - n)
  else if (0 <? k) && (k <=? 21) then
    Str.take (Z.to_nat k) ds ++ "." ++ Str.drop (Z.to_nat k) ds
  else if (-6 <? k) && (k <=? 0) then "0." ++ Str.zeros (- k) ++ ds
  else
    let ex := k - 1 in
    let sign := if ex <? 0 then "-" else "+" in
    let mant := if n =? 1 then ds else Str.take 1 ds ++ "." ++ Str.drop 1 ds in
    mant ++ "e" ++ sign ++ Str.of_nonneg (Z.abs ex).

Definition Number_toString (x : float) : string :=
  match Prim2SF x with
  | S754_nan => "NaN"
  | S754_zero _ => "0"
  | S754_infinity s => if s then "-Infinity" else "Infinity"
  | S754_finite sg m e =>
    let ax := PrimFloat.abs x in
    let k0 := decimal_exponent (Zpos m) e in
    let '(s, n, k) := shortest 17 ax (Zpos m) e k0 1 in
    (if sg then "-" else "") ++ layout s n k
  end.

End Num.

(* ================================================================== *)
(** * JavaScript values *)

Module JS.

(** The induction principle this nested type needs is [value_ind'], stated
    where it is used. *)
#[local] Unset Elimination Schemes.
Inductive value : Type :=
| VUndefined
| VNull
| VBool (b : bool)
| VNum (x : float)
| VStr (s : string)
| VArr (items : list value)
| VObj (props : list (string * value)).
#[local] Set Elimination Schemes.

(** ToBoolean. *)
Definition truthy (v : value) : bool :=
  match v with
  | VUndefined | VNull => false
  | VBool b => b
  | VNum x => negb (is_nan x || is_zero x)
  | VStr s => negb (String.eqb s "")
  | VArr _ | VObj _ => true
  end.

Definition nullish (v : value) : bool :=
  match v with
  | VUndefined | VNull => true
  | _ => false
  end.

(** The own property [k] of an object read from JSON, if it has one. *)
Fixpoint lookup (k : string) (ps : list (string * value)) : option value :=
  match ps with
  | [] => None
  | (k', v) :: r => if String.eqb k' k then Some v else lookup k r
  end.

(** ToString, as a template literal applies it; [None] is the TypeError
    of a value that cannot be converted to a primitive.  An object is
    converted by its method [toString].  An object read from JSON inherits
    the one of [Object.prototype], unless it has a member [toString] of its
    own: no JSON value can be called, so the conversion then falls back on
    [valueOf], which returns the object itself, and fails.  An array is
    joined by [Array.prototype.join], which converts each element that is
    neither [undefined] nor [null]. *)
Fixpoint ToString (v : value) : option string :=
  match v with
  | VUndefined => Some "undefined"
  | VNull => Some "null"
  | VBool b => Some (if b then "true" else "false")
  | VNum x => Some (Num.Number_toString x)
  | VStr s => Some s
  | VArr l =>
    option_map (Str.join ",")
      ((fix elements (l : list value) : option (list string) :=
          match l with
          | [] => Some []
          | e :: r =>
            match (if nullish e then Some "" else ToString e) with
            | Some x =>
              match elements r with
              | Some xs => Some (x :: xs)
              | None => None
              end
            | None => None
            end
          end) l)
  | VObj ps =>
    match lookup "toString" ps with
    | Some _ => None
    | None => Some "[object Object]"
    end
  end.

(** ** Numeric literals in strings *)

Fixpoint span_digits (s : string) : string * string :=
  match s with
  | EmptyString => (EmptyString, EmptyString)
  | String c r =>
    if Str.is_digit c then let (d, t) := span_digits r in (String c d, t)
    else (EmptyString, s)
  end.

(** What follows the [e] of an exponent: an optional sign and digits. *)
Definition parse_exponent (s : string) : option Z :=
  let (neg, t) :=
    match s with
    | String "-" r => (true, r)
    | String "+" r => (false, r)
    | _ => (false, s)
    end in
  if negb (String.eqb t "") && Str.all_digits t
  then Some (if neg then - Str.digits_value 0 t else Str.digits_value 0 t)
  else None.

(** Integer digits, whether a point follows, fraction digits, exponent;
    the whole of [s] must be read. *)
Definition parse_decimal (s : string) : option (string * bool * string * Z) :=
  let (i, t1) := span_digits s in
  let '(dot, f, t2) :=
    match t1 with
    | String "." r => let (f, t) := span_digits r in (true, f, t)
    | _ => (false, EmptyString, t1)
    end in
  match t2 with
  | EmptyString => Some (i, dot, f, 0)
  | String c r =>
    if Ascii.eqb c "e" || Ascii.eqb c "E"
    then match parse_exponent r with
         | Some x => Some (i, dot, f, x)
         | None => None
         end
    else None
  end.

Definition decimal_value (i f : string) (ex : Z) : float :=
  Num.number_value (Str.digits_value 0 (i ++ f)) (ex - Z.of_nat (String.length f)).

Definition radix_digit (c : ascii) : option Z :=
  let n := Str.code c in
  if (48 <=? n) && (n <=? 57) then Some (n - 48)
  else if (97 <=? n) && (n <=? 102) then Some (n - 87)
  else if (65 <=? n) && (n <=? 70) then Some (n - 55)
  else None.

Fixpoint radix_value (radix acc : Z) (s : string) : option Z :=
  match s with
  | EmptyString => Some acc
  | String c r =>
    match radix_digit c with
    | Some d => if d <? radix then radix_value radix (radix * acc + d) r else None
    | None => None
    end
  end.

Definition radix_literal (radix : Z) (s : string) : float :=
  if String.eqb s "" then nan
  else match radix_value radix 0 s with
       | Some n => Num.number_value n 0
       | None => nan
       end.

(** StringToNumber: white space is trimmed; the empty string is 0; then a
    signed decimal literal or [Infinity], or an unsigned [0x], [0o] or [0b]
    literal; anything else is NaN. *)
Definition StringToNumber (s : string) : float :=
  let t := Str.trim s in
  match t with
  | EmptyString => zero
  | String "0" (String p r) =>
    if Ascii.eqb p "x" || Ascii.eqb p "X" then radix_literal 16 r
    else if Ascii.eqb p "o" || Ascii.eqb p "O" then radix_literal 8 r
    else if Ascii.eqb p "b" || Ascii.eqb p "B" then radix_literal 2 r
    else match parse_decimal t with
         | Some (i, _, f, ex) => decimal_value i f ex
         | None => nan
         end
  | _ =>
    let (neg, u) :=
      match t with
      | String "-" r => (true, r)
      | String "+" r => (false, r)
      | _ => (false, t)
      end in
    let x :=
      if String.eqb u "Infinity" then infinity
      else match parse_decimal u with
           | Some (i, _, f, ex) =>
             if String.eqb i "" && String.eqb f "" then nan else decimal_value i f ex
           | None => nan
           end in
    if neg then PrimFloat.opp x else x
  end.

(** ToNumber, as the operator [*] applies it; [None] is the TypeError of
    a value that cannot be converted to a primitive.  An object or array
    is converted to a primitive first: [valueOf] returns the value itself,
    so the conversion goes on to [toString], as above. *)
Definition ToNumber (v : value) : option float :=
  match v with
  | VUndefined => Some nan
  | VNull => Some zero
  | VBool b => Some (if b then one else zero)
  | VNum x => Some x
  | VStr s => Some (StringToNumber s)
  | VArr _ | VObj _ => option_map StringToNumber (ToString v)
  end.

(** ** Property access *)

(** An own property of an object, [undefined] when there is none. *)
Definition prop (ps : list (string * value)) (k : string) : value :=
  match lookup k ps with
  | Some v => v
  | None => VUndefined
  end.

(** The first UTF-16 code unit of a string, as a string: the whole first
    character, or the high surrogate of one outside the basic plane. *)
Definition first_unit (s : string) : value :=
  match s with
  | EmptyString => VUndefined
  | String c1 r1 =>
    let a := Str.code c1 in
    if a <? 192 then VStr (Str.take 1 s)
    else if a <? 224 then VStr (Str.take 2 s)
    else if a <? 240 then VStr (Str.take 3 s)
    else
      match r1 with
      | String c2 (String c3 _) =>
        let cp := (a - 240) * 262144 + (Str.code c2 - 128) * 4096
                  + (Str.code c3 - 128) * 64 in
        let hi := 55296 + (cp - 65536) / 1024 in
        VStr (String (Str.chr 237)
               (String (Str.chr (128 + (hi / 64) mod 64))
                 (String (Str.chr (128 + hi mod 64)) EmptyString)))
      | _ => VStr s
      end
  end.

(** [base.key] for the property names this program reads ([method], [id],
    [params], [name], [arguments], [latitude], [longitude], [current],
    [weather], [description], [temp], [humidity], [wind_speed]): an own
    property of an object, [undefined] on any other value that has
    properties, and no result ([None]: a TypeError) on [undefined] and
    [null].  None of these names is a built-in property. *)
Definition get (base : value) (k : string) : option value :=
  match base with
  | VUndefined | VNull => None
  | VObj ps => Some (prop ps k)
  | _ => Some VUndefined
  end.

(** [base[0]]. *)
Definition get0 (base : value) : option value :=
  match base with
  | VUndefined | VNull => None
  | VArr l => Some (match l with v :: _ => v | [] => VUndefined end)
  | VObj ps => Some (prop ps "0")
  | VStr s => Some (first_unit s)
  | _ => Some VUndefined
  end.

(** Strict equality with a string constant. *)
Definition is_string (v : value) (s : string) : bool :=
  match v with
  | VStr t => String.eqb t s
  | _ => false
  end.

End JS.

(* ================================================================== *)
(** * JSON text *)

Module JSON.
Import JS.

(** ** JSON.stringify *)

Definition hex_digit (n : Z) : string :=
  match String.get (Z.to_nat n) "0123456789abcdef" with
  | Some c => String c EmptyString
  | None => EmptyString
  end.

Definition hex4 (n : Z) : string :=
  hex_digit ((n / 4096) mod 16) ++ hex_digit ((n / 256) mod 16)
  ++ hex_digit ((n / 16) mod 16) ++ hex_digit (n mod 16).

Definition backslash : string := Str.str1 92.
Definition unicode_escape (n : Z) : string := backslash ++ "u" ++ hex4 n.

(** QuoteJSONString without the surrounding quotes.  A control character,
    the quote and the backslash are escaped; so is a lone surrogate (the
    bytes ED A0..BF xx); every other byte is copied. *)
Fixpoint quote_body (s : string) : string :=
  match s with
  | EmptyString => EmptyString
  | String c r =>
    let n := Str.code c in
    if n =? 8 then backslash ++ "b" ++ quote_body r
    else if n =? 9 then backslash ++ "t" ++ quote_body r
    else if n =? 10 then backslash ++ "n" ++ quote_body r
    else if n =? 12 then backslash ++ "f" ++ quote_body r
    else if n =? 13 then backslash ++ "r" ++ quote_body r
    else if n =? 34 then backslash ++ Str.dquote ++ quote_body r
    else if n =? 92 then backslash ++ backslash ++ quote_body r
    else if n <? 32 then unicode_escape n ++ quote_body r
    else
      match r with
      | String c2 (String c3 r3) =>
        if (n =? 237) && (160 <=? Str.code c2)
        then unicode_escape (53248 + (Str.code c2 - 128) * 64 + (Str.code c3 - 128))
             ++ quote_body r3
        else String c (quote_body r)
      | _ => String c (quote_body r)
      end
  end.

Definition quote (s : string) : string := Str.dquote ++ quote_body s ++ Str.dquote.

(** SerializeJSONProperty with no replacer and no indentation: [None] is
    JavaScript's [undefined] (the property is left out of an object). *)
Fixpoint serialize (v : value) : option string :=
  match v with
  | VUndefined => None
  | VNull => Some "null"
  | VBool b => Some (if b then "true" else "false")
  | VNum x => Some (if is_finite x then Num.Number_toString x else "null")
  | VStr s => Some (quote s)
  | VArr l =>
    Some ("[" ++ Str.join ","
            (map (fun e => match serialize e with Some t => t | None => "null" end) l)
          ++ "]")
  | VObj ps =>
    Some ("{" ++ Str.join ","
            ((fix members (ps : list (string * value)) : list string :=
                match ps with
                | [] => []
                | (k, e) :: r =>
                  match serialize e with
                  | Some t => (quote k ++ ":" ++ t) :: members r
                  | None => members r
                  end
                end) ps)
          ++ "}")
  end.

(** [JSON.stringify] of an object or array, which is always a string. *)
Definition stringify (v : value) : string :=
  match serialize v with
  | Some t => t
  | None => "undefined"
  end.

(** ** JSON.parse: the lexer *)

Inductive token : Type :=
| TLBrace | TRBrace | TLBrack | TRBrack | TColon | TComma
| TScalar (v : value).

(** UTF-8 of a code point; a surrogate gets the three-byte form. *)
Definition utf8 (cp : Z) : string :=
  if cp <? 128 then Str.str1 cp
  else if cp <? 2048 then Str.str1 (192 + cp / 64) ++ Str.str1 (128 + cp mod 64)
  else if cp <? 65536 then
    Str.str1 (224 + cp / 4096) ++ Str.str1 (128 + (cp / 64) mod 64)
    ++ Str.str1 (128 + cp mod 64)
  else
    Str.str1 (240 + cp / 262144) ++ Str.str1 (128 + (cp / 4096) mod 64)
    ++ Str.str1 (128 + (cp / 64) mod 64) ++ Str.str1 (128 + cp mod 64).

(** The text of a string literal read so far, and the high surrogate of an
    escape that may still find its low half. *)
Record partial := { text : string; pending : option Z }.

Definition flush (p : partial) : string :=
  match pending p with
  | Some h => text p ++ utf8 h
  | None => text p
  end.

Definition add_bytes (p : partial) (s : string) : partial :=
  {| text := flush p ++ s; pending := None |}.

(** A [\uXXXX] escape denotes one UTF-16 code unit. *)
Definition add_unit (p : partial) (u : Z) : partial :=
  if (55296 <=? u) && (u <? 56320) then {| text := flush p; pending := Some u |}
  else if (56320 <=? u) && (u <? 57344) then
    match pending p with
    | Some h =>
      {| text := text p ++ utf8 (65536 + (h - 55296) * 1024 + (u - 56320));
         pending := None |}
    | None => add_bytes p (utf8 u)
    end
  else add_bytes p (utf8 u).

Inductive lex_state : Type :=
| LIdle
| LWord (acc : string)
| LNumber (acc : string)
| LString (p : partial)
| LEscape (p : partial)
| LUnicode (p : partial) (hex : list Z).

Definition is_letter (c : ascii) : bool :=
  let n := Str.code c in (97 <=? n) && (n <=? 122).

Definition is_number_char (c : ascii) : bool :=
  Str.is_digit c
  || Ascii.eqb c "-" || Ascii.eqb c "+" || Ascii.eqb c "."
  || Ascii.eqb c "e" || Ascii.eqb c "E".

Definition is_json_ws (c : ascii) : bool :=
  let n := Str.code c in (n =? 32) || (n =? 9) || (n =? 10) || (n =? 13).

Definition close_word (w : string) : option token :=
  if String.eqb w "true" then Some (TScalar (VBool true))
  else if String.eqb w "false" then Some (TScalar (VBool false))
  else if String.eqb w "null" then Some (TScalar VNull)
  else None.

(** The JSON number grammar: an optional minus; [0] or a digit run without
    a leading zero; an optional fraction with at least one digit; an
    optional exponent. *)
Definition close_number (w : string) : option token :=
  let (neg, u) :=
    match w with
    | String "-" r => (true, r)
    | _ => (false, w)
    end in
  match parse_decimal u with
  | Some (i, dot, f, ex) =>
    let int_ok :=
      match i with
      | EmptyString => false
      | String "0" r => String.eqb r ""
      | _ => true
      end in
    let frac_ok := negb dot || negb (String.eqb f "") in
    if int_ok && frac_ok
    then let x := decimal_value i f ex in
         Some (TScalar (VNum (if neg then PrimFloat.opp x else x)))
    else None
  | None => None
  end.

(** One character read outside any token. *)
Definition idle_step (c : ascii) : option (lex_state * list token) :=
  if is_json_ws c then Some (LIdle, [])
  else if Ascii.eqb c "{" then Some (LIdle, [TLBrace])
  else if Ascii.eqb c "}" then Some (LIdle, [TRBrace])
  else if Ascii.eqb c "[" then Some (LIdle, [TLBrack])
  else if Ascii.eqb c "]" then Some (LIdle, [TRBrack])
  else if Ascii.eqb c ":" then Some (LIdle, [TColon])
  else if Ascii.eqb c "," then Some (LIdle, [TComma])
  else if Str.code c =? 34 then Some (LString {| text := ""; pending := None |}, [])
  else if Str.is_digit c || Ascii.eqb c "-" then Some (LNumber (String c ""), [])
  else if is_letter c then Some (LWord (String c ""), [])
  else None.

Definition escape_char (c : ascii) : option Z :=
  let n := Str.code c in
  if (n =? 34) || (n =? 92) || (n =? 47) then Some n
  else if Ascii.eqb c "b" then Some 8
  else if Ascii.eqb c "f" then Some 12
  else if Ascii.eqb c "n" then Some 10
  else if Ascii.eqb c "r" then Some 13
  else if Ascii.eqb c "t" then Some 9
  else None.

(** The lexer reads one character at a time; [out] holds the tokens read so
    far, the last one first. *)
Fixpoint lex (st : lex_state) (out : list token) (s : string) : option (list token) :=
  match s with
  | EmptyString =>
    match st with
    | LIdle => Some (rev out)
    | LWord w => option_map (fun t => rev (t :: out)) (close_word w)
    | LNumber w => option_map (fun t => rev (t :: out)) (close_number w)
    | LString _ | LEscape _ | LUnicode _ _ => None
    end
  | String c r =>
    match st with
    | LIdle =>
      match idle_step c with
      | Some (st', ts) => lex st' (ts ++ out)%list r
      | None => None
      end
    | LWord w =>
      if is_letter c then lex (LWord (w ++ String c "")) out r
      else match close_word w, idle_step c with
           | Some t, Some (st', ts) => lex st' (ts ++ t :: out)%list r
           | _, _ => None
           end
    | LNumber w =>
      if is_number_char c then lex (LNumber (w ++ String c "")) out r
      else match close_number w, idle_step c with
           | Some t, Some (st', ts) => lex st' (ts ++ t :: out)%list r
           | _, _ => None
           end
    | LString p =>
      let n := Str.code c in
      if n =? 34 then lex LIdle (TScalar (VStr (flush p)) :: out) r
      else if n =? 92 then lex (LEscape p) out r
      else if n <? 32 then None
      else lex (LString (add_bytes p (String c ""))) out r
    | LEscape p =>
      if Ascii.eqb c "u" then lex (LUnicode p []) out r
      else match escape_char c with
           | Some n => lex (LString (add_bytes p (Str.str1 n))) out r
           | None => None
           end
    | LUnicode p hex =>
      match radix_digit c with
      | Some d =>
        match hex with
        | [a; b; e] => lex (LString (add_unit p (((a * 16 + b) * 16 + e) * 16 + d))) out r
        | _ => lex (LUnicode p (hex ++ [d])%list) out r
        end
      | None => None
      end
    end
  end.

(** ** JSON.parse: the parser *)

(** An array index: the canonical decimal of an integer below 2^32 - 1. *)
Definition array_index (k : string) : option Z :=
  let canonical :=
    match k with
    | EmptyString => false
    | String "0" r => String.eqb r ""
    | _ => Str.all_digits k
    end in
  if canonical && (Str.digits_value 0 k <? 4294967295)
  then Some (Str.digits_value 0 k) else None.

Definition goes_before (k k' : string) : bool :=
  match array_index k, array_index k' with
  | Some i, Some j => i <? j
  | Some _, None => true
  | None, _ => false
  end.

(** CreateDataProperty on the properties in enumeration order: array
    indices ascending, then the other names in order of creation; an
    existing name keeps its place and takes the new value. *)
Fixpoint obj_set (ps : list (string * value)) (k : string) (v : value)
  : list (string * value) :=
  match ps with
  | [] => [(k, v)]
  | (k', v') :: r =>
    if String.eqb k' k then (k, v) :: r
    else if goes_before k k' then (k, v) :: ps
    else (k', v') :: obj_set r k v
  end.

(** An open array with its elements so far, or an open object with its
    properties so far and the name whose value is being read. *)
Inductive frame : Type :=
| FArr (items : list value)
| FObj (props : list (string * value)) (key : string).

Inductive expect : Type :=
| XValue            (** a value *)
| XFirstItem        (** after [[]: a value or the closing bracket *)
| XFirstKey         (** after [{]: a name or the closing brace *)
| XKey              (** after a comma in an object: a name *)
| XColon            (** after a name: the colon *)
| XItemEnd          (** after an element: a comma or the closing bracket *)
| XMemberEnd        (** after a member: a comma or the closing brace *)
| XEnd (v : value). (** the whole value is read *)

(** A complete value [v] goes to the innermost open container. *)
Definition reduce (stack : list frame) (v : value) : list frame * expect :=
  match stack with
  | [] => ([], XEnd v)
  | FArr items :: st => (FArr (items ++ [v])%list :: st, XItemEnd)
  | FObj props key :: st => (FObj (obj_set props key v) key :: st, XMemberEnd)
  end.

Definition open_value (stack : list frame) (t : token) : option (list frame * expect) :=
  match t with
  | TScalar v => Some (reduce stack v)
  | TLBrack => Some (FArr [] :: stack, XFirstItem)
  | TLBrace => Some (FObj [] "" :: stack, XFirstKey)
  | _ => None
  end.

Definition open_key (stack : list frame) (t : token) : option (list frame * expect) :=
  match t, stack with
  | TScalar (VStr k), FObj props _ :: st => Some (FObj props k :: st, XColon)
  | _, _ => None
  end.

Definition close_array (stack : list frame) : option (list frame * expect) :=
  match stack with
  | FArr items :: st => Some (reduce st (VArr items))
  | _ => None
  end.

Definition close_object (stack : list frame) : option (list frame * expect) :=
  match stack with
  | FObj props _ :: st => Some (reduce st (VObj props))
  | _ => None
  end.

Definition parse_step (stack : list frame) (x : expect) (t : token)
  : option (list frame * expect) :=
  match x with
  | XValue => open_value stack t
  | XFirstItem =>
    match t with
    | TRBrack => close_array stack
    | _ => open_value stack t
    end
  | XFirstKey =>
    match t with
    | TRBrace => close_object stack
    | _ => open_key stack t
    end
  | XKey => open_key stack t
  | XColon =>
    match t with
    | TColon => Some (stack, XValue)
    | _ => None
    end
  | XItemEnd =>
    match t with
    | TComma => Some (stack, XValue)
    | TRBrack => close_array stack
    | _ => None
    end
  | XMemberEnd =>
    match t with
    | TComma => Some (stack, XKey)
    | TRBrace => close_object stack
    | _ => None
    end
  | XEnd _ => None
  end.

Fixpoint parse_tokens (stack : list frame) (x : expect) (ts : list token) : option value :=
  match ts with
  | [] =>
    match x, stack with
    | XEnd v, [] => Some v
    | _, _ => None
    end
  | t :: r =>
    match parse_step stack x t with
    | Some (stack', x') => parse_tokens stack' x' r
    | None => None
    end
  end.

(** [JSON.parse]: [None] is a SyntaxError. *)
Definition parse (s : string) : option value :=
  match lex LIdle [] s with
  | Some ts => parse_tokens [] XValue ts
  | None => None
  end.

End JSON.

(* ================================================================== *)
(** * The validation library: [z.number().min().max()] and [z.object] *)

Module Zod.
Import JS.

Inductive ParsedType : Type :=
| ty_undefined | ty_null | ty_boolean | ty_number | ty_nan | ty_string
| ty_array | ty_object.

Definition getParsedType (v : value) : ParsedType :=
  match v with
  | VUndefined => ty_undefined
  | VNull => ty_null
  | VBool _ => ty_boolean
  | VNum x => if is_nan x then ty_nan else ty_number
  | VStr _ => ty_string
  | VArr _ => ty_array
  | VObj _ => ty_object
  end.

Inductive IssueCode : Type :=
| invalid_type (expected received : ParsedType)
| too_small (minimum : float)
| too_big (maximum : float).

Record ZodIssue : Type := { code : IssueCode; path : list string }.

Inductive check : Type :=
| check_min (bound : float)
| check_max (bound : float).

(** A number schema is its list of checks, in the order they were added. *)
Definition ZodNumber : Type := list check.
Definition z_number : ZodNumber := [].
Definition min (bound : float) (s : ZodNumber) : ZodNumber := (s ++ [check_min bound])%list.
Definition max (bound : float) (s : ZodNumber) : ZodNumber := (s ++ [check_max bound])%list.

(** An inclusive bound is violated when the input is strictly beyond it. *)
Definition run_check (p : list string) (x : float) (c : check) : list ZodIssue :=
  match c with
  | check_min b => if PrimFloat.ltb x b then [{| code := too_small b; path := p |}] else []
  | check_max b => if PrimFloat.ltb b x then [{| code := too_big b; path := p |}] else []
  end.

(** A number schema accepts a Number that is not NaN, then runs every
    check and reports all that fail. *)
Definition parse_number (s : ZodNumber) (p : list string) (v : value)
  : list ZodIssue + float :=
  match getParsedType v, v with
  | ty_number, VNum x =>
    match flat_map (run_check p x) s with
    | [] => inr x
    | issues => inl issues
    end
  | t, _ => inl [{| code := invalid_type ty_number t; path := p |}]
  end.

End Zod.

(* ================================================================== *)
(** * Exceptions, events and the monad of the handlers *)

Module Eff.
Import JS.

(** The protocol library's error codes (JSON-RPC). *)
Inductive ErrorCode : Type := MethodNotFound | InvalidParams | InternalError.

(** What can be thrown.  [McpError code message] holds the two arguments of
    its constructor (the source never reads the message of one back).
    [Thrown] is a value that is no [Error]. *)
Inductive exn : Type :=
| ZodError (issues : list Zod.ZodIssue)
| McpError (code : ErrorCode) (message : string)
| Error (message : string)
| TypeError (message : string)
| SyntaxError (message : string)
| Thrown (v : value).

Inductive event : Type :=
| Fetch (url : string)
| ConsoleError (label : string) (e : exn).

(** A reply of the upstream service. *)
Record Response : Type := { status : N; statusText : string; body : string }.

(** [response.ok]: the status is in the range 200-299. *)
Definition ok (r : Response) : bool := ((200 <=? status r) && (status r <=? 299))%N.

Inductive fetch_result : Type :=
| Rejected (e : exn)
| Resolved (r : Response).

(** What the host decides: the outcome of an outbound request (it may
    depend on what happened before), and the text of the messages of
    built-in and library errors. *)
Record Host : Type := {
  fetch : list event -> string -> fetch_result;
  zod_message : list Zod.ZodIssue -> string;
  cannot_read : value -> string -> string;
  cannot_convert : value -> string;
  bad_json : string -> string
}.

Inductive outcome (A : Type) : Type :=
| Return (a : A)
| Throw (e : exn).
Arguments Return {A} a.
Arguments Throw {A} e.

(** A computation reads the events so far and returns its outcome with the
    events extended. *)
Definition M (A : Type) : Type := list event -> outcome A * list event.

Definition ret {A} (a : A) : M A := fun t => (Return a, t).
Definition throw {A} (e : exn) : M A := fun t => (Throw e, t).
Definition emit (ev : event) : M unit := fun t => (Return tt, (t ++ [ev])%list).

Definition bind {A B} (m : M A) (k : A -> M B) : M B :=
  fun t =>
    match m t with
    | (Return a, t') => k a t'
    | (Throw e, t') => (Throw e, t')
    end.

Definition try_catch {A} (m : M A) (handler : exn -> M A) : M A :=
  fun t =>
    match m t with
    | (Return a, t') => (Return a, t')
    | (Throw e, t') => handler e t'
    end.

Definition console_error (label : string) (e : exn) : M unit :=
  emit (ConsoleError label e).

(** [error instanceof Error] and [error.message]. *)
Definition instanceof_Error (e : exn) : bool :=
  match e with
  | Thrown _ => false
  | _ => true
  end.

Definition message_of (h : Host) (e : exn) : string :=
  match e with
  | ZodError issues => zod_message h issues
  | McpError _ m | Error m | TypeError m | SyntaxError m => m
  | Thrown _ => ""
  end.

(** The outbound requests of a trace. *)
Definition fetches (t : list event) : list string :=
  flat_map (fun ev => match ev with Fetch u => [u] | _ => [] end) t.

End Eff.

Declare Scope eff_scope.
Delimit Scope eff_scope with eff.
Notation "x <- m ;; k" := (Eff.bind m (fun x => k))
  (at level 61, m at next level, right associativity) : eff_scope.
Notation "m ;;; k" := (Eff.bind m (fun _ => k))
  (at level 61, right associativity) : eff_scope.

(* ================================================================== *)
(** * The server: tool handlers *)

Module Server.
Import JS Eff.
Local Open Scope eff_scope.

Definition nl : string := Str.newline.

(** [z.infer<typeof weatherToolSchema>] *)
Record WeatherToolInput : Type := { latitude : float; longitude : float }.

Definition latitude_schema : Zod.ZodNumber := Zod.max 90 (Zod.min (-90) Zod.z_number).
Definition longitude_schema : Zod.ZodNumber := Zod.max 180 (Zod.min (-180) Zod.z_number).

(** [weatherToolSchema.parse]: the input must be an object; each key of
    the shape is parsed in turn (a missing key reads as [undefined]) and
    the issues of all keys are reported together; keys outside the shape
    are dropped. *)
Definition weatherToolSchema_parse (args : value) : list Zod.ZodIssue + WeatherToolInput :=
  match args with
  | VObj ps =>
    match Zod.parse_number latitude_schema ["latitude"] (prop ps "latitude"),
          Zod.parse_number longitude_schema ["longitude"] (prop ps "longitude") with
    | inr la, inr lo => inr {| latitude := la; longitude := lo |}
    | inl i, inr _ => inl i
    | inr _, inl j => inl j
    | inl i, inl j => inl (i ++ j)%list
    end
  | _ =>
    inl [{| Zod.code := Zod.invalid_type Zod.ty_object (Zod.getParsedType args);
            Zod.path := [] |}]
  end.

(** The object literal [weather] of the handler. *)
Record WeatherReport : Type := {
  description : value;
  temperature : float;
  humidity : value;
  windSpeed : float;
  location : string
}.

(** The handler of [ListToolsRequestSchema]. *)
Definition number_property (lo hi : float) (text : string) : value :=
  VObj [("type", VStr "number"); ("minimum", VNum lo); ("maximum", VNum hi);
        ("description", VStr text)].

Definition tool_list : value :=
  VObj [("tools", VArr [
    VObj [("name", VStr "get_weather");
          ("description", VStr "Get current weather for a location using coordinates");
          ("inputSchema", VObj [
             ("type", VStr "object");
             ("properties", VObj [
                ("latitude", number_property (-90) 90 "Latitude coordinate");
                ("longitude", number_property (-180) 180 "Longitude coordinate")]);
             ("required", VArr [VStr "latitude"; VStr "longitude"])])]])].

Definition list_tools_handler : M value := ret tool_list.

Section Handlers.

Variable host : Host.

(** [process.env.OPENWEATHER_API_KEY], read when the module is loaded. *)
Variable OPENWEATHER_API_KEY : string.

(** [base.key], which throws a TypeError on [undefined] and [null]. *)
Definition read (base : value) (k : string) : M value :=
  match get base k with
  | Some v => ret v
  | None => throw (TypeError (cannot_read host base k))
  end.

Definition read0 (base : value) : M value :=
  match get0 base with
  | Some v => ret v
  | None => throw (TypeError (cannot_read host base "0"))
  end.

Definition parse_args (args : value) : M WeatherToolInput :=
  match weatherToolSchema_parse args with
  | inr input => ret input
  | inl issues => throw (ZodError issues)
  end.

Definition weather_url (c : WeatherToolInput) : string :=
  "https://api.openweathermap.org/data/3.0/onecall?lat="
  ++ Num.Number_toString (latitude c) ++ "&lon=" ++ Num.Number_toString (longitude c)
  ++ "&exclude=minutely,hourly,daily,alerts&appid=" ++ OPENWEATHER_API_KEY
  ++ "&units=metric".

(** [await fetch(url)]: the request is recorded, then the host answers. *)
Definition do_fetch (url : string) : M Response :=
  fun t =>
    match fetch host t url with
    | Resolved r => (Return r, (t ++ [Fetch url])%list)
    | Rejected e => (Throw e, (t ++ [Fetch url])%list)
    end.

(** [await response.json()] *)
Definition response_json (r : Response) : M value :=
  match JSON.parse (body r) with
  | Some v => ret v
  | None => throw (SyntaxError (bad_json host (body r)))
  end.

(** The conversions a template literal and the operator [*] apply to a
    value, which throw a TypeError when the value has no primitive. *)
Definition to_string (v : value) : M string :=
  match ToString v with
  | Some s => ret s
  | None => throw (TypeError (cannot_convert host v))
  end.

Definition to_number (v : value) : M float :=
  match ToNumber v with
  | Some x => ret x
  | None => throw (TypeError (cannot_convert host v))
  end.

(** [Math.round(x * 10) / 10], on the Number the operand converts to. *)
Definition round1 (x : float) : float :=
  (Num.Math_round (x * 10) / 10)%float.

(** The object literal [weather]: the fields are evaluated in order.  The
    first throws on a payload without [current], or without
    [current.weather]; the multiplications throw on a temperature or wind
    speed that cannot be converted to a Number. *)
Definition build_report (data : value) (c : WeatherToolInput) : M WeatherReport :=
  current <- read data "current" ;;
  weather <- read current "weather" ;;
  first <- read0 weather ;;
  d <- (if nullish first then ret VUndefined else read first "description") ;;
  temp <- read current "temp" ;;
  x <- to_number temp ;;
  hum <- read current "humidity" ;;
  wind <- read current "wind_speed" ;;
  y <- to_number wind ;;
  ret {| description := if truthy d then d else VStr "Unknown";
         temperature := round1 x;
         humidity := hum;
         windSpeed := round1 y;
         location := Num.Number_toString (latitude c) ++ ", "
                     ++ Num.Number_toString (longitude c) |}.

(** The text template of the result: its substitutions are converted in
    order, and the description and the humidity, which are values of the
    payload, may have no string. *)
Definition render (w : WeatherReport) : M string :=
  d <- to_string (description w) ;;
  h <- to_string (humidity w) ;;
  ret ("Weather at coordinates " ++ location w ++ ":" ++ nl
       ++ "• Conditions: " ++ d ++ nl
       ++ "• Temperature: " ++ Num.Number_toString (temperature w) ++ "°C" ++ nl
       ++ "• Humidity: " ++ h ++ "%" ++ nl
       ++ "• Wind Speed: " ++ Num.Number_toString (windSpeed w) ++ " m/s").

Definition text_content (text : string) : value :=
  VObj [("content", VArr [VObj [("type", VStr "text"); ("text", VStr text)]])].

(** The body of the [try] block. *)
Definition get_weather (args : value) : M value :=
  c <- parse_args args ;;
  response <- do_fetch (weather_url c) ;;
  (if negb (ok response)
   then throw (Error ("Weather API returned " ++ Str.of_N (status response) ++ ": "
                      ++ statusText response))
   else ret tt) ;;;
  data <- response_json response ;;
  weather <- build_report data c ;;
  text <- render weather ;;
  ret (text_content text).

(** The [catch] block. *)
Definition on_error (error : exn) : M value :=
  match error with
  | ZodError _ =>
    throw (McpError InvalidParams ("Invalid parameters: " ++ message_of host error))
  | _ =>
    console_error "Weather API Error:" error ;;;
    throw (McpError InternalError
             ("Error fetching weather data: "
              ++ (if instanceof_Error error then message_of host error
                  else "Unknown error occurred")))
  end.

(** The handler of [CallToolRequestSchema]. *)
Definition call_tool_handler (request : value) : M value :=
  params <- read request "params" ;;
  name <- read params "name" ;;
  args <- read params "arguments" ;;
  if negb (is_string name "get_weather")
  then
    shown <- to_string name ;;
    throw (McpError MethodNotFound ("Unknown tool: " ++ shown))
  else try_catch (get_weather args) on_error.

End Handlers.

(** ** The endpoint [POST /mcp] *)

Inductive Schema : Type := ListToolsRequestSchema | CallToolRequestSchema.

(** What the route returns: [c.json(value, status)], or the [Response]
    built from the joined lines. *)
Inductive HttpResponse : Type :=
| json_response (v : value) (status : N)
| ndjson_response (text : string).

Definition method_not_found (id : value) : value :=
  VObj [("jsonrpc", VStr "2.0"); ("id", id);
        ("error", VObj [("code", VNum (-32601)); ("message", VStr "Method not found")])].

Definition responseData (id response : value) : value :=
  VObj [("jsonrpc", VStr "2.0"); ("id", id); ("result", response)].

(** The request the route sends for [tools/list]. *)
Definition list_request : value :=
  VObj [("method", VStr "tools/list"); ("params", VObj [])].

Definition errorResponse : value :=
  VObj [("jsonrpc", VStr "2.0"); ("id", VNull);
        ("error", VObj [("code", VNum (-32700)); ("message", VStr "Parse error")])].

Section Endpoint.

Variable host : Host.

(** [server.request]: the protocol library's entry point, which the route
    calls with the request and the schema of its method. *)
Variable server_request : value -> Schema -> M value.

Definition JSON_parse (line : string) : M value :=
  match JSON.parse line with
  | Some v => ret v
  | None => throw (SyntaxError (bad_json host line))
  end.

(** The [try] block of the loop: the string pushed for one line. *)
Definition dispatch_line (line : string) : M string :=
  request <- JSON_parse line ;;
  method <- read host request "method" ;;
  response <-
    (if is_string method "tools/list" then
       server_request list_request ListToolsRequestSchema
     else if is_string method "tools/call" then
       server_request request CallToolRequestSchema
     else
       id <- read host request "id" ;;
       ret (method_not_found id)) ;;
  id <- read host request "id" ;;
  ret (JSON.stringify (responseData id response)).

(** One turn of the loop, with its [catch] block. *)
Definition process_line (line : string) : M string :=
  try_catch (dispatch_line line)
    (fun parseError =>
       console_error "Parse error:" parseError ;;;
       ret (JSON.stringify errorResponse)).

Fixpoint process_lines (lines : list string) (responses : list string) : M (list string) :=
  match lines with
  | [] => ret responses
  | line :: rest =>
    r <- process_line line ;;
    process_lines rest (responses ++ [r])%list
  end.

(** [body.split('\n').filter(line => line.trim())] *)
Definition request_lines (body : string) : list string :=
  filter (fun line => truthy (VStr (Str.trim line))) (Str.split (Str.chr 10) body).

Definition post_mcp (body : string) : M HttpResponse :=
  try_catch
    (if negb (truthy (VStr body))
     then ret (json_response (VObj [("error", VStr "No request body")]) 400)
     else
       responses <- process_lines (request_lines body) [] ;;
       ret (ndjson_response (Str.join nl responses)))
    (fun error =>
       console_error "Request processing error:" error ;;;
       ret (json_response (VObj [("error", VStr "Internal server error")]) 500)).

End Endpoint.

(** [server.request] as the module uses it.  The library's [request] sends
    the request to the peer on the other side of the transport the server
    is connected to; it does not run the handlers registered with
    [setRequestHandler], which answer requests that come in.  The module
    makes the server and never connects it to a transport (there is no
    call of [server.connect]), and the library then rejects with the Error
    [Not connected] before anything is sent. *)
Definition server_request (request : value) (s : Schema) : M value :=
  throw (Error "Not connected").

(** ** The process *)

(** The module's top level: the key is read from the environment, and a
    missing (or empty) one throws before any route is registered. *)
Definition load_module (env : string -> option string) : outcome string :=
  match env "OPENWEATHER_API_KEY" with
  | Some key =>
    if truthy (VStr key) then Return key
    else Throw (Error "OPENWEATHER_API_KEY environment variable is required")
  | None => Throw (Error "OPENWEATHER_API_KEY environment variable is required")
  end.

(** A process either failed to load, or serves with the key it loaded. *)
Inductive process : Type :=
| Failed (e : exn)
| Serving (key : string).

Definition start (env : string -> option string) : process :=
  match load_module env with
  | Return key => Serving key
  | Throw e => Failed e
  end.

End Server.

(* ================================================================== *)
(** * The auxiliary routes: [GET /health] and [GET /test-weather] *)

Module Routes.
Import JS Eff Server.
Local Open Scope eff_scope.

(** [parseFloat]: leading white space is skipped, then the longest prefix
    that is a signed decimal literal (or [Infinity]) is read; what follows
    it is ignored, and a string with no such prefix gives NaN.  An
    exponent counts only when at least one digit follows its sign. *)
Definition exponent_prefix (s : string) : Z :=
  match s with
  | String c r =>
    if Ascii.eqb c "e" || Ascii.eqb c "E" then
      let (neg, u) :=
        match r with
        | String "-" v => (true, v)
        | String "+" v => (false, v)
        | _ => (false, r)
        end in
      let (d, _) := span_digits u in
      if String.eqb d "" then 0
      else if neg then - Str.digits_value 0 d else Str.digits_value 0 d
    else 0
  | EmptyString => 0
  end.

Definition parseFloat (s : string) : float :=
  let t := Str.trim_start s in
  let (neg, u) :=
    match t with
    | String "-" r => (true, r)
    | String "+" r => (false, r)
    | _ => (false, t)
    end in
  let x :=
    if String.prefix "Infinity" u then infinity
    else
      let (i, t1) := span_digits u in
      let (f, t2) :=
        match t1 with
        | String "." r => span_digits r
        | _ => (EmptyString, t1)
        end in
      if String.eqb i "" && String.eqb f "" then nan
      else decimal_value i f (exponent_prefix t2) in
  if neg then PrimFloat.opp x else x.

(** [c.req.query(name) || fallback]: a missing parameter reads as
    [undefined], and an empty one is falsy too. *)
Definition query_or (q : option string) (fallback : string) : string :=
  match q with
  | Some s => if truthy (VStr s) then s else fallback
  | None => fallback
  end.

(** The handler of [GET /health].  [now] is the text of
    [new Date().toISOString()], which the host's clock decides. *)
Definition get_health (OPENWEATHER_API_KEY now : string) : HttpResponse :=
  json_response
    (VObj [("status", VStr "healthy");
           ("timestamp", VStr now);
           ("service", VStr "mcp-weather-server");
           ("version", VStr "1.0.0");
           ("hasApiKey", VBool (truthy (VStr OPENWEATHER_API_KEY)))])
    200.

Section TestWeather.

Variable host : Host.
Variable OPENWEATHER_API_KEY : string.

Definition test_url (lat lon : string) : string :=
  "https://api.openweathermap.org/data/2.5/weather?lat=" ++ lat ++ "&lon=" ++ lon
  ++ "&appid=" ++ OPENWEATHER_API_KEY ++ "&units=metric".

(** The object of the successful reply; its fields are evaluated in the
    order of the literal, and reading through a missing [weather], [main]
    or [wind] throws.  The names read here ([main], [wind], [speed]) are
    no built-in properties either. *)
Definition test_summary (data : value) (lat lon : string) : M value :=
  weather <- read host data "weather" ;;
  first <- read0 host weather ;;
  d <- (if nullish first then ret VUndefined else read host first "description") ;;
  main <- read host data "main" ;;
  temp <- read host main "temp" ;;
  hum <- read host main "humidity" ;;
  wind <- read host data "wind" ;;
  speed <- read host wind "speed" ;;
  ret (VObj [("success", VBool true);
             ("location", VObj [("latitude", VNum (parseFloat lat));
                                ("longitude", VNum (parseFloat lon))]);
             ("weather", VObj [("description", d);
                               ("temperature", temp);
                               ("humidity", hum);
                               ("windSpeed", speed)])]).

(** The [try] block of the route. *)
Definition test_weather_try (lat lon : string) : M HttpResponse :=
  response <- do_fetch host (test_url lat lon) ;;
  (if negb (ok response)
   then throw (Error ("Weather API returned " ++ Str.of_N (status response)))
   else ret tt) ;;;
  data <- response_json host response ;;
  summary <- test_summary data lat lon ;;
  ret (json_response summary 200).

(** The handler of [GET /test-weather]; [qlat] and [qlon] are the query
    parameters [lat] and [lon] of the request. *)
Definition get_test_weather (qlat qlon : option string) : M HttpResponse :=
  let lat := query_or qlat "37.7749" in
  let lon := query_or qlon "-122.4194" in
  try_catch (test_weather_try lat lon)
    (fun error =>
       ret (json_response
              (VObj [("success", VBool false);
                     ("error", VStr (if instanceof_Error error then message_of host error
                                     else "Unknown error"))])
              500)).

End TestWeather.

End Routes.

(* ================================================================== *)
(** * The module as a whole *)

Module Program.
Import JS Eff Server Routes.

(** A request to one of the three routes above; [GET /health] comes with
    the reading of the clock when it is handled. *)
Inductive Request : Type :=
| POST_mcp (body : string)
| GET_health (now : string)
| GET_test_weather (lat lon : option string).

(** The routes of [app], which refer to the constant
    [OPENWEATHER_API_KEY] of the module. *)
Definition app (host : Host) (OPENWEATHER_API_KEY : string) (request : Request)
  : M HttpResponse :=
  match request with
  | POST_mcp body => post_mcp host server_request body
  | GET_health now => ret (get_health OPENWEATHER_API_KEY now)
  | GET_test_weather lat lon => get_test_weather host OPENWEATHER_API_KEY lat lon
  end.

(** The export [handler] of the module.  The module is evaluated from top
    to bottom, once: the statements that register the routes and export
    [handler] come after the check of the key, and are not reached when
    it throws. *)
Definition handler (host : Host) (env : string -> option string)
  : outcome (Request -> M HttpResponse) :=
  match load_module env with
  | Return key => Return (app host key)
  | Throw e => Throw e
  end.

End Program.

(* ================================================================== *)
(** * The vocabulary of the specification *)

Module Spec.
Import JS Eff Server.

(** [request] calls the tool [get_weather] with the arguments [args]. *)
Definition calls_get_weather (request args : value) : Prop :=
  exists params,
    get request "params" = Some params
    /\ get params "name" = Some (VStr "get_weather")
    /\ get params "arguments" = Some args.

(** The upstream answers the request for [c] with a success status and a
    body that is the JSON text of [data]. *)
Definition upstream_replies (host : Host) (key : string) (t : list event)
           (c : WeatherToolInput) (data : value) : Prop :=
  exists r,
    fetch host t (weather_url key c) = Resolved r
    /\ ok r = true
    /\ JSON.parse (body r) = Some data.

(** The closed interval [[lo, hi]] of Numbers. *)
Definition within (lo hi x : float) : Prop :=
  PrimFloat.leb lo x = true /\ PrimFloat.leb x hi = true.

Definition is_number (v : value) : Prop := exists x, v = VNum x.

(** The ways the arguments can break the contract of the tool, each with
    the issue that describes it: a coordinate below or above its range, a
    coordinate that is missing or no number, arguments that are no object. *)
Inductive violation : value -> Zod.ZodIssue -> Prop :=
| latitude_too_small ps x :
    prop ps "latitude" = VNum x -> PrimFloat.ltb x (-90) = true ->
    violation (VObj ps) {| Zod.code := Zod.too_small (-90); Zod.path := ["latitude"] |}
| latitude_too_big ps x :
    prop ps "latitude" = VNum x -> PrimFloat.ltb 90 x = true ->
    violation (VObj ps) {| Zod.code := Zod.too_big 90; Zod.path := ["latitude"] |}
| longitude_too_small ps x :
    prop ps "longitude" = VNum x -> PrimFloat.ltb x (-180) = true ->
    violation (VObj ps) {| Zod.code := Zod.too_small (-180); Zod.path := ["longitude"] |}
| longitude_too_big ps x :
    prop ps "longitude" = VNum x -> PrimFloat.ltb 180 x = true ->
    violation (VObj ps) {| Zod.code := Zod.too_big 180; Zod.path := ["longitude"] |}
| not_a_number ps k :
    k = "latitude" \/ k = "longitude" -> ~ is_number (prop ps k) ->
    violation (VObj ps)
      {| Zod.code := Zod.invalid_type Zod.ty_number (Zod.getParsedType (prop ps k));
         Zod.path := [k] |}
| not_an_object args :
    (forall ps, args <> VObj ps) ->
    violation args
      {| Zod.code := Zod.invalid_type Zod.ty_object (Zod.getParsedType args);
         Zod.path := [] |}.

(** The request the line holds goes to [server.request] when its method is
    one of the two the route knows. *)
Definition routed (request : value) : option (value * Schema) :=
  match get request "method" with
  | Some m =>
    if is_string m "tools/list" then Some (list_request, ListToolsRequestSchema)
    else if is_string m "tools/call" then Some (request, CallToolRequestSchema)
    else None
  | None => None
  end.

(** No line feed occurs in the string. *)
Fixpoint no_newline (s : string) : bool :=
  match s with
  | EmptyString => true
  | String c r => negb (Ascii.eqb c (Str.chr 10)) && no_newline r
  end.

(** A line with nothing but white space. *)
Definition blank (line : string) : bool := Str.all_whitespace line.

(** The text of the reply to a line that could not be handled. *)
Definition parse_error_line : string :=
  Str.dq "{'jsonrpc':'2.0','id':null,'error':{'code':-32700,'message':'Parse error'}}".

End Spec.

(* ================================================================== *)
(** * Sample data *)

Module Sample.
Import JS Eff Server.

#[local] Set Warnings "-inexact-float".

(** San Francisco, the coordinates of the specification's example. *)
Definition sf : WeatherToolInput := {| latitude := 37.7749; longitude := -122.4194 |}.

Definition sf_args : value :=
  VObj [("latitude", VNum 37.7749); ("longitude", VNum (-122.4194))].

(** The upstream payload of the specification's example. *)
Definition clear_sky : value :=
  VObj [("current",
         VObj [("temp", VNum 15.04); ("humidity", VNum 80); ("wind_speed", VNum 3.6);
               ("weather", VArr [VObj [("description", VStr "clear sky")]])])].

Definition clear_sky_text : string :=
  Str.dq "{'current':{'temp':15.04,'humidity':80,'wind_speed':3.6,'weather':[{'description':'clear sky'}]}}".

Definition clear_sky_rendering : string :=
  "Weather at coordinates 37.7749, -122.4194:" ++ nl
  ++ "• Conditions: clear sky" ++ nl
  ++ "• Temperature: 15°C" ++ nl
  ++ "• Humidity: 80%" ++ nl
  ++ "• Wind Speed: 3.6 m/s".




(** A host whose upstream always answers with the given status and body. *)
Definition upstream (st : N) (reason text : string) : Host :=
  {| fetch := fun _ _ => Resolved {| status := st; statusText := reason; body := text |};
     zod_message := fun issues => "validation failed";
     cannot_read := fun _ k => "Cannot read properties (reading '" ++ k ++ "')";
     cannot_convert := fun _ => "Cannot convert object to primitive value";
     bad_json := fun _ => "Unexpected token" |}.

Definition api_key : string := "test-key".

(** A [tools/call] request line for [get_weather]. *)
Definition call_line (id lat lon : string) : string :=
  Str.dq ("{'jsonrpc':'2.0','id':" ++ id
          ++ ",'method':'tools/call','params':{'name':'get_weather','arguments':{'latitude':"
          ++ lat ++ ",'longitude':" ++ lon ++ "}}}").

Definition sf_line : string := call_line "7" "37.7749" "-122.4194".

Definition sf_request : value :=
  VObj [("jsonrpc", VStr "2.0"); ("id", VNum 7); ("method", VStr "tools/call");
        ("params", VObj [("name", VStr "get_weather"); ("arguments", sf_args)])].

(** The same call with a latitude outside the range. *)
Definition north_line : string := call_line "8" "91" "0".

Definition north_request : value :=
  VObj [("jsonrpc", VStr "2.0"); ("id", VNum 8); ("method", VStr "tools/call");
        ("params", VObj [("name", VStr "get_weather");
                         ("arguments", VObj [("latitude", VNum 91); ("longitude", VNum 0)])])].

(** A line that is no JSON text. *)
Definition broken_line : string := "{not json".

(** A request for a method the endpoint does not know, and the reply the
    route gives it. *)
Definition unknown_line : string :=
  Str.dq "{'jsonrpc':'2.0','id':1,'method':'resources/list'}".

Definition unknown_reply : string :=
  Str.dq ("{'jsonrpc':'2.0','id':1,'result':"
          ++ "{'jsonrpc':'2.0','id':1,'error':{'code':-32601,'message':'Method not found'}}}").

(** A JSON-RPC error response for the same request. *)
Definition unknown_error_response : string :=
  Str.dq "{'jsonrpc':'2.0','id':1,'error':{'code':-32601,'message':'Method not found'}}".

End Sample.

(* ================================================================== *)
(** * Vocabulary and sample data for the rest of the code *)

Module Cover.
Import JS Eff Server Routes.

#[local] Set Warnings "-inexact-float".

(** The ways a reply with a success status can still be unusable for the
    tool, each with the exception it raises: a body that is no JSON text,
    the payload [null], a payload without [current], a [current] without
    [weather]. *)
Inductive unusable (host : Host) : string -> exn -> Prop :=
| not_json text :
    JSON.parse text = None ->
    unusable host text (SyntaxError (bad_json host text))
| no_payload text data :
    JSON.parse text = Some data -> nullish data = true ->
    unusable host text (TypeError (cannot_read host data "current"))
| no_current text data current :
    JSON.parse text = Some data -> get data "current" = Some current ->
    nullish current = true ->
    unusable host text (TypeError (cannot_read host current "weather"))
| no_weather text data current weather :
    JSON.parse text = Some data -> get data "current" = Some current ->
    get current "weather" = Some weather -> nullish weather = true ->
    unusable host text (TypeError (cannot_read host weather "0")).

(** The description the report shows for the first entry of the list of
    conditions. *)
Definition shown_description (first : value) : value :=
  let d := if nullish first then VUndefined
           else match get first "description" with Some v => v | None => VUndefined end in
  if truthy d then d else VStr "Unknown".

(** What the tool descriptor of [tools/list] advertises for the property
    [k] of the arguments: its [minimum] and [maximum]. *)
Definition advertised_range (k : string) : option (float * float) :=
  match get tool_list "tools" with
  | Some tools =>
    match get0 tools with
    | Some tool =>
      match get tool "inputSchema" with
      | Some schema =>
        match get schema "properties" with
        | Some props =>
          match get props k with
          | Some p =>
            match get p "minimum", get p "maximum" with
            | Some (VNum lo), Some (VNum hi) => Some (lo, hi)
            | _, _ => None
            end
          | None => None
          end
        | None => None
        end
      | None => None
      end
    | None => None
    end
  | None => None
  end.

(** The property names the descriptor lists as [required]. *)
Definition advertised_required : list string :=
  match get tool_list "tools" with
  | Some tools =>
    match get0 tools with
    | Some tool =>
      match get tool "inputSchema" with
      | Some schema =>
        match get schema "required" with
        | Some (VArr names) =>
          flat_map (fun v => match v with VStr s => [s] | _ => [] end) names
        | _ => []
        end
      | None => []
      end
    | None => []
    end
  | None => []
  end.

(** The arguments satisfy the advertised schema: every required property
    is a Number within its advertised range. *)
Definition meets_advertised (ps : list (string * value)) : Prop :=
  Forall (fun k => exists x lo hi,
                     advertised_range k = Some (lo, hi)
                     /\ prop ps k = VNum x
                     /\ Spec.within lo hi x)
         advertised_required.

(** A host whose upstream cannot be reached. *)
Definition offline : Host :=
  {| fetch := fun _ _ => Rejected (TypeError "fetch failed");
     zod_message := fun issues => "validation failed";
     cannot_read := fun _ k => "Cannot read properties (reading '" ++ k ++ "')";
     cannot_convert := fun _ => "Cannot convert object to primitive value";
     bad_json := fun _ => "Unexpected token" |}.

(** A [tools/call] request for a tool the server does not have. *)
Definition other_tool_request : value :=
  VObj [("method", VStr "tools/call");
        ("params", VObj [("name", VStr "get_forecast"); ("arguments", Sample.sf_args)])].

(** A [tools/list] request line. *)
Definition list_line : string := Str.dq "{'jsonrpc':'2.0','id':3,'method':'tools/list'}".

Definition list_line_request : value :=
  VObj [("jsonrpc", VStr "2.0"); ("id", VNum 3); ("method", VStr "tools/list")].

(** A payload in the shape of the older upstream endpoint. *)
Definition mist_text : string :=
  Str.dq "{'weather':[{'description':'mist'}],'main':{'temp':11.3,'humidity':93},'wind':{'speed':4.1}}".

Definition mist : value :=
  VObj [("weather", VArr [VObj [("description", VStr "mist")]]);
        ("main", VObj [("temp", VNum 11.3); ("humidity", VNum 93)]);
        ("wind", VObj [("speed", VNum 4.1)])].

(** A payload whose first condition has an empty description. *)
Definition untitled_text : string :=
  Str.dq "{'current':{'temp':-3.25,'humidity':55,'wind_speed':7.45,'weather':[{'description':''}]}}".

Definition untitled_current : value :=
  VObj [("temp", VNum (-3.25)); ("humidity", VNum 55); ("wind_speed", VNum 7.45);
        ("weather", VArr [VObj [("description", VStr "")]])].

Definition untitled : value := VObj [("current", untitled_current)].

(** A payload whose humidity is an object with a member [toString]. *)
Definition odd_humidity_text : string :=
  Str.dq "{'current':{'temp':1,'humidity':{'toString':0},'wind_speed':2,'weather':[]}}".

Definition odd_humidity : value := VObj [("toString", VNum 0)].

Definition odd_humidity_current : value :=
  VObj [("temp", VNum 1); ("humidity", odd_humidity); ("wind_speed", VNum 2);
        ("weather", VArr [])].

End Cover.

(* ================================================================== *)
(** * Induction on values *)

Section ValueInduction.
Import JS.

Variable P : value -> Prop.
Hypothesis P_undefined : P VUndefined.
Hypothesis P_null : P VNull.
Hypothesis P_bool : forall b, P (VBool b).
Hypothesis P_num : forall x, P (VNum x).
Hypothesis P_str : forall s, P (VStr s).
Hypothesis P_arr : forall l, Forall P l -> P (VArr l).
Hypothesis P_obj : forall ps, Forall (fun kv => P (snd kv)) ps -> P (VObj ps).

Fixpoint value_ind' (v : value) : P v :=
  match v with
  | VUndefined => P_undefined
  | VNull => P_null
  | VBool b => P_bool b
  | VNum x => P_num x
  | VStr s => P_str s
  | VArr l =>
    P_arr l ((fix all (l : list value) : Forall P l :=
                match l with
                | [] => Forall_nil P
                | x :: r => Forall_cons x (value_ind' x) (all r)
                end) l)
  | VObj ps =>
    P_obj ps ((fix all (ps : list (string * value)) : Forall (fun kv => P (snd kv)) ps :=
                 match ps with
                 | [] => Forall_nil _
                 | kv :: r => Forall_cons kv (value_ind' (snd kv)) (all r)
                 end) ps)
  end.

End ValueInduction.


(* ================================================================== *)
(** * Facts about strings and lines *)

Module StrFacts.
Import JS Spec Server.

Lemma trim_end_eq (s : string) :
  Str.trim_end s =
  if Str.all_whitespace s then EmptyString
  else match s with
       | EmptyString => EmptyString
       | String c r => String c (Str.trim_end r)
       end.
Proof. destruct s; reflexivity. Qed.

Lemma trim_end_empty (s : string) :
  Str.trim_end s = EmptyString <-> Str.all_whitespace s = true.
Proof.
  rewrite trim_end_eq. destruct (Str.all_whitespace s) eqn:E.
  - tauto.
  - destruct s; [discriminate E|]. split; discriminate.
Qed.

(** Skipping leading white space does not change whether a string is
    all white space; by induction on a bound of the length, since a white
    space character takes up to three bytes. *)
Lemma all_whitespace_trim_start_bounded (n : nat) :
  forall s, (String.length s <= n)%nat ->
    Str.all_whitespace (Str.trim_start s) = Str.all_whitespace s.
Proof.
  induction n as [|n IH]; intros s Hlen.
  - destruct s; [reflexivity | simpl in Hlen; lia].
  - destruct s as [|c1 r1]; [reflexivity|].
    simpl in Hlen. cbn [Str.trim_start Str.all_whitespace].
    destruct (Str.is_ws1 c1) eqn:E1; [apply IH; lia|].
    destruct r1 as [|c2 r2].
    + cbn [Str.all_whitespace]. now rewrite E1.
    + simpl in Hlen. destruct (Str.is_ws2 c1 c2) eqn:E2; [apply IH; lia|].
      destruct r2 as [|c3 r3].
      * cbn [Str.all_whitespace]. now rewrite E1, E2.
      * simpl in Hlen. destruct (Str.is_ws3 c1 c2 c3) eqn:E3; [apply IH; lia|].
        cbn [Str.all_whitespace]. now rewrite E1, E2, E3.
Qed.

Lemma all_whitespace_trim_start (s : string) :
  Str.all_whitespace (Str.trim_start s) = Str.all_whitespace s.
Proof. exact (all_whitespace_trim_start_bounded (String.length s) s (le_n _)). Qed.

Lemma trim_empty (s : string) : Str.trim s = EmptyString <-> blank s = true.
Proof.
  unfold Str.trim, blank. now rewrite trim_end_empty, all_whitespace_trim_start.
Qed.

(** The filter of the endpoint keeps exactly the lines that are not blank. *)
Lemma keeps_nonblank (line : string) :
  truthy (VStr (Str.trim line)) = negb (blank line).
Proof.
  cbn [truthy]. destruct (blank line) eqn:E.
  - apply trim_empty in E. now rewrite E.
  - destruct (String.eqb (Str.trim line) "") eqn:E'; [|reflexivity].
    apply String.eqb_eq, trim_empty in E'. congruence.
Qed.

Lemma split_nonempty (c : ascii) (s : string) : Str.split c s <> [].
Proof.
  destruct s as [|a r]; cbn [Str.split]; [discriminate|].
  destruct (Ascii.eqb a c); [discriminate|].
  destruct (Str.split c r); discriminate.
Qed.

Lemma split_one_line (s : string) :
  no_newline s = true -> Str.split (Str.chr 10) s = [s].
Proof.
  induction s as [|a r IH]; [reflexivity|].
  cbn [no_newline Str.split]. intros H. apply andb_true_iff in H as [Ha Hr].
  apply negb_true_iff in Ha. rewrite Ha, (IH Hr). reflexivity.
Qed.

Lemma split_first_line (a b : string) :
  no_newline a = true ->
  Str.split (Str.chr 10) (a ++ String (Str.chr 10) b) = a :: Str.split (Str.chr 10) b.
Proof.
  induction a as [|c r IH]; intros H.
  - cbn [append Str.split]. now rewrite Ascii.eqb_refl.
  - cbn [no_newline] in H. apply andb_true_iff in H as [Hc Hr].
    apply negb_true_iff in Hc.
    cbn [append Str.split]. rewrite Hc, (IH Hr). reflexivity.
Qed.

Lemma no_newline_app (a b : string) :
  no_newline (a ++ b) = no_newline a && no_newline b.
Proof.
  induction a as [|c r IH]; [reflexivity|].
  cbn [append no_newline]. now rewrite IH, andb_assoc.
Qed.

(** Lines without a line feed, joined by line feeds, split back into
    themselves. *)
Lemma split_join (r : string) (rs : list string) :
  Forall (fun x => no_newline x = true) (r :: rs) ->
  Str.split (Str.chr 10) (Str.join nl (r :: rs)) = r :: rs.
Proof.
  revert r. induction rs as [|r' rs IH]; intros r H.
  - cbn [Str.join concat]. apply split_one_line. now inversion H.
  - inversion H as [|? ? Hr Hrest]; subst.
    change (Str.join nl (r :: r' :: rs)) with (r ++ String (Str.chr 10) (Str.join nl (r' :: rs))).
    rewrite (split_first_line _ _ Hr). f_equal. now apply IH.
Qed.

Lemma prefix_app (s b : string) : String.prefix s (s ++ b) = true.
Proof.
  induction s as [|c r IH]; [now destruct b|].
  cbn [append prefix]. destruct (ascii_dec c c); [exact IH | congruence].
Qed.

Lemma contains_middle (a s b : string) : Str.contains s (a ++ s ++ b) = true.
Proof.
  induction a as [|c r IH].
  - cbn [append]. destruct (s ++ b) eqn:E; cbn [Str.contains]; rewrite <- E, prefix_app; reflexivity.
  - cbn [append Str.contains]. rewrite IH. apply orb_true_r.
Qed.

End StrFacts.

(* ================================================================== *)
(** * The text of [JSON.stringify] holds no line feed *)

Module LineFacts.
Import JS Spec Server StrFacts.

Lemma no_newline_append (a b : string) :
  no_newline a = true -> no_newline b = true -> no_newline (a ++ b) = true.
Proof. intros Ha Hb. now rewrite no_newline_app, Ha, Hb. Qed.

Create HintDb nonl.

Lemma no_newline_cons (c : ascii) (r : string) :
  Ascii.eqb c (Str.chr 10) = false -> no_newline r = true -> no_newline (String c r) = true.
Proof. intros Hc Hr. cbn [no_newline]. now rewrite Hc, Hr. Qed.

Ltac nonl :=
  first
    [ reflexivity
    | solve [auto with nonl]
    | match goal with
      | |- no_newline (_ ++ _) = true => apply no_newline_append; nonl
      | |- no_newline (if ?b then _ else _) = true => destruct b; nonl
      | |- no_newline (String _ _) = true => apply no_newline_cons; [reflexivity | nonl]
      end
    | idtac ].

Lemma no_newline_uint (u : Decimal.uint) : no_newline (NilEmpty.string_of_uint u) = true.
Proof. induction u; cbn [NilEmpty.string_of_uint no_newline]; auto. Qed.

Lemma no_newline_of_N (n : N) : no_newline (Str.of_N n) = true.
Proof. apply no_newline_uint. Qed.

Lemma no_newline_of_nonneg (n : Z) : no_newline (Str.of_nonneg n) = true.
Proof. apply no_newline_uint. Qed.

Lemma no_newline_zeros (n : Z) : no_newline (Str.zeros n) = true.
Proof. unfold Str.zeros. induction (Z.to_nat n); cbn [Str.repeat0 no_newline]; auto. Qed.

Lemma no_newline_take (n : nat) (s : string) :
  no_newline s = true -> no_newline (Str.take n s) = true.
Proof.
  revert s. induction n as [|n IH]; intros [|c r] H; try reflexivity.
  cbn [no_newline Str.take] in *. apply andb_true_iff in H as [-> Hr]. now rewrite IH.
Qed.

Lemma no_newline_drop (n : nat) (s : string) :
  no_newline s = true -> no_newline (Str.drop n s) = true.
Proof.
  revert s. induction n as [|n IH]; intros [|c r] H; try reflexivity; try exact H.
  cbn [no_newline Str.drop] in *. apply andb_true_iff in H as [_ Hr]. now apply IH.
Qed.

#[local] Hint Resolve no_newline_of_N no_newline_of_nonneg no_newline_zeros
  no_newline_take no_newline_drop : nonl.

Lemma no_newline_layout (s n k : Z) : no_newline (Num.layout s n k) = true.
Proof. unfold Num.layout. nonl. Qed.

Lemma no_newline_number (x : float) : no_newline (Num.Number_toString x) = true.
Proof.
  unfold Num.Number_toString. destruct (Prim2SF x) as [s|s| |sg m e]; try reflexivity.
  - now destruct s.
  - cbv zeta. destruct (Num.shortest _ _ _ _ _ _) as [[s n] k].
    apply no_newline_append; [now destruct sg | apply no_newline_layout].
Qed.

Lemma no_newline_get (s : string) :
  no_newline s = true ->
  forall (n : nat) (c : ascii), String.get n s = Some c -> Ascii.eqb c (Str.chr 10) = false.
Proof.
  induction s as [|a r IH]; intros H n c Hget; [discriminate Hget|].
  cbn [no_newline] in H. apply andb_true_iff in H as [Ha Hr].
  destruct n as [|n]; cbn [String.get] in Hget.
  - injection Hget as <-. now apply negb_true_iff.
  - exact (IH Hr n c Hget).
Qed.

Lemma no_newline_hex_digit (n : Z) : no_newline (JSON.hex_digit n) = true.
Proof.
  unfold JSON.hex_digit.
  destruct (String.get (Z.to_nat n) "0123456789abcdef") as [c|] eqn:E; [|reflexivity].
  apply no_newline_cons; [|reflexivity].
  exact (no_newline_get "0123456789abcdef" eq_refl _ _ E).
Qed.

Lemma no_newline_unicode_escape (n : Z) : no_newline (JSON.unicode_escape n) = true.
Proof.
  unfold JSON.unicode_escape, JSON.hex4.
  repeat apply no_newline_append; try reflexivity; apply no_newline_hex_digit.
Qed.

Lemma code_chr_10 (c : ascii) : (Str.code c =? 10) = false -> Ascii.eqb c (Str.chr 10) = false.
Proof.
  intros H. apply Ascii.eqb_neq. intros ->. discriminate H.
Qed.

Lemma no_newline_quote_body_bounded (n : nat) :
  forall s, (String.length s <= n)%nat -> no_newline (JSON.quote_body s) = true.
Proof.
  induction n as [|n IH]; intros s Hlen.
  - destruct s; [reflexivity | simpl in Hlen; lia].
  - destruct s as [|c r]; [reflexivity|]. simpl in Hlen.
    assert (Hr : no_newline (JSON.quote_body r) = true) by (apply IH; lia).
    cbn [JSON.quote_body]. cbv zeta.
    destruct (Str.code c =? 8); [nonl|].
    destruct (Str.code c =? 9); [nonl|].
    destruct (Str.code c =? 10) eqn:E10; [nonl|].
    destruct (Str.code c =? 12); [nonl|].
    destruct (Str.code c =? 13); [nonl|].
    destruct (Str.code c =? 34); [nonl|].
    destruct (Str.code c =? 92); [nonl|].
    destruct (Str.code c <? 32);
      [apply no_newline_append; [apply no_newline_unicode_escape | exact Hr]|].
    assert (Hcopy : no_newline (String c (JSON.quote_body r)) = true).
    { cbn [no_newline]. now rewrite (code_chr_10 c E10), Hr. }
    destruct r as [|c2 [|c3 r3]]; try exact Hcopy.
    destruct ((Str.code c =? 237) && (160 <=? Str.code c2)); [|exact Hcopy].
    apply no_newline_append; [apply no_newline_unicode_escape|].
    apply IH. simpl in Hlen. lia.
Qed.

Lemma no_newline_quote_body (s : string) : no_newline (JSON.quote_body s) = true.
Proof. exact (no_newline_quote_body_bounded (String.length s) s (le_n _)). Qed.

#[local] Hint Resolve no_newline_quote_body : nonl.

Lemma no_newline_quote (s : string) : no_newline (JSON.quote s) = true.
Proof. unfold JSON.quote. nonl. Qed.

Lemma no_newline_join (sep : string) (l : list string) :
  no_newline sep = true -> Forall (fun x => no_newline x = true) l ->
  no_newline (Str.join sep l) = true.
Proof.
  intros Hsep H. induction H as [|x l Hx Hl IH]; [reflexivity|].
  destruct l as [|y l]; [exact Hx|].
  change (Str.join sep (x :: y :: l)) with (x ++ sep ++ Str.join sep (y :: l)).
  nonl.
Qed.

#[local] Hint Resolve no_newline_number no_newline_quote : nonl.

(** [JSON.stringify] never emits a line feed: it escapes the ones inside
    strings. *)
Lemma no_newline_serialize (v : value) :
  forall s, JSON.serialize v = Some s -> no_newline s = true.
Proof.
  induction v as [ | |b|x|t|l IH|ps IH] using value_ind'; intros s H;
    cbn [JSON.serialize] in H; try discriminate H; injection H as <-.
  - reflexivity.
  - now destruct b.
  - nonl.
  - nonl.
  - nonl. apply no_newline_join; [reflexivity|].
    induction IH as [|e l He Hl IHl]; constructor; [|exact IHl].
    destruct (JSON.serialize e) eqn:E; [now apply He | reflexivity].
  - nonl. apply no_newline_join; [reflexivity|].
    induction IH as [|[k e] r He Hr IHr]; [constructor|].
    cbn [snd] in He. destruct (JSON.serialize e) eqn:E; [|exact IHr].
    constructor; [|exact IHr]. nonl.
Qed.

Lemma no_newline_stringify (v : value) : no_newline (JSON.stringify v) = true.
Proof.
  unfold JSON.stringify. destruct (JSON.serialize v) eqn:E; [|reflexivity].
  exact (no_newline_serialize v s E).
Qed.

End LineFacts.

(* ================================================================== *)
(** * Facts about the comparison of Numbers *)

Module FloatFacts.

Lemma SFcompare_antisym (a b : spec_float) :
  SFcompare b a = option_map CompOpp (SFcompare a b).
Proof.
  destruct a as [sa|sa| |sa ma ea], b as [sb|sb| |sb mb eb]; simpl;
    try reflexivity; try (destruct sa; reflexivity); try (destruct sb; reflexivity);
    try (destruct sa, sb; reflexivity).
  change (Pos.compare_cont Eq mb ma) with (Pos.compare mb ma).
  change (Pos.compare_cont Eq ma mb) with (Pos.compare ma mb).
  rewrite (Z.compare_antisym ea eb), (Pos.compare_antisym ma mb).
  destruct sa, sb; simpl; try reflexivity;
    destruct (ea ?= eb)%Z; simpl; try reflexivity.
Qed.

Lemma SFcompare_refl (a : spec_float) : a <> S754_nan -> SFcompare a a = Some Eq.
Proof.
  destruct a as [s|s| |s m e]; simpl; intros H; try reflexivity.
  - now destruct s.
  - congruence.
  - rewrite Z.compare_refl.
    change (Pos.compare_cont Eq m m) with (Pos.compare m m).
    rewrite Pos.compare_refl. now destruct s.
Qed.

Lemma SFcompare_some_l a b c : SFcompare a b = Some c -> a <> S754_nan.
Proof. destruct a; simpl; congruence. Qed.
Lemma SFcompare_some_r a b c : SFcompare a b = Some c -> b <> S754_nan.
Proof. destruct a, b; simpl; congruence. Qed.

Lemma is_nan_false (x : float) : Prim2SF x <> S754_nan -> is_nan x = false.
Proof.
  intros H. unfold is_nan. rewrite eqb_spec. unfold SFeqb.
  now rewrite (SFcompare_refl _ H).
Qed.

Lemma leb_true_ltb_false (a b : float) : (a <=? b)%float = true -> (b <? a)%float = false.
Proof.
  rewrite leb_spec, ltb_spec. unfold SFleb, SFltb.
  rewrite (SFcompare_antisym (Prim2SF a) (Prim2SF b)).
  destruct (SFcompare (Prim2SF a) (Prim2SF b)) as [[ | | ]|]; simpl; congruence.
Qed.
Lemma leb_true_not_nan_r (a b : float) : (a <=? b)%float = true -> is_nan b = false.
Proof.
  rewrite leb_spec. unfold SFleb. intros H. apply is_nan_false.
  destruct (SFcompare (Prim2SF a) (Prim2SF b)) as [c|] eqn:E; [|discriminate].
  exact (SFcompare_some_r _ _ _ E).
Qed.

Lemma leb_true_not_nan_l (a b : float) : (a <=? b)%float = true -> is_nan a = false.
Proof.
  rewrite leb_spec. unfold SFleb. intros H. apply is_nan_false.
  destruct (SFcompare (Prim2SF a) (Prim2SF b)) as [c|] eqn:E; [|discriminate].
  exact (SFcompare_some_l _ _ _ E).
Qed.

Lemma ltb_true_not_nan_l (a b : float) : (a <? b)%float = true -> is_nan a = false.
Proof.
  rewrite ltb_spec. unfold SFltb. intros H. apply is_nan_false.
  destruct (SFcompare (Prim2SF a) (Prim2SF b)) as [c|] eqn:E; [|discriminate].
  exact (SFcompare_some_l _ _ _ E).
Qed.

Lemma ltb_true_not_nan_r (a b : float) : (a <? b)%float = true -> is_nan b = false.
Proof.
  rewrite ltb_spec. unfold SFltb. intros H. apply is_nan_false.
  destruct (SFcompare (Prim2SF a) (Prim2SF b)) as [c|] eqn:E; [|discriminate].
  exact (SFcompare_some_r _ _ _ E).
Qed.

End FloatFacts.

(* ================================================================== *)
(** * Facts about the schema of the tool's arguments *)

Module ZodFacts.
Import JS Spec Server FloatFacts.

Lemma parse_number_within (lo hi : float) (p : list string) (x : float) :
  within lo hi x ->
  Zod.parse_number (Zod.max hi (Zod.min lo Zod.z_number)) p (VNum x) = inr x.
Proof.
  intros [Hlo Hhi]. unfold Zod.parse_number, Zod.getParsedType.
  rewrite (leb_true_not_nan_r _ _ Hlo).
  cbn [Zod.max Zod.min Zod.z_number app flat_map Zod.run_check].
  now rewrite (leb_true_ltb_false _ _ Hlo), (leb_true_ltb_false _ _ Hhi).
Qed.

Lemma parse_number_too_small (lo hi : float) (p : list string) (x : float) :
  PrimFloat.ltb x lo = true ->
  exists issues,
    Zod.parse_number (Zod.max hi (Zod.min lo Zod.z_number)) p (VNum x) = inl issues
    /\ In {| Zod.code := Zod.too_small lo; Zod.path := p |} issues.
Proof.
  intros H. unfold Zod.parse_number, Zod.getParsedType.
  rewrite (ltb_true_not_nan_l _ _ H).
  cbn [Zod.max Zod.min Zod.z_number app flat_map Zod.run_check]. rewrite H.
  cbn [app]. eexists. split; [reflexivity | now left].
Qed.

Lemma parse_number_too_big (lo hi : float) (p : list string) (x : float) :
  PrimFloat.ltb hi x = true ->
  exists issues,
    Zod.parse_number (Zod.max hi (Zod.min lo Zod.z_number)) p (VNum x) = inl issues
    /\ In {| Zod.code := Zod.too_big hi; Zod.path := p |} issues.
Proof.
  intros H. unfold Zod.parse_number, Zod.getParsedType.
  rewrite (ltb_true_not_nan_r _ _ H).
  cbn [Zod.max Zod.min Zod.z_number app flat_map Zod.run_check]. rewrite H.
  destruct (PrimFloat.ltb x lo); cbn [app]; eexists; (split; [reflexivity|]); cbn [In]; auto.
Qed.

Lemma parse_number_not_a_number (s : Zod.ZodNumber) (p : list string) (v : value) :
  ~ is_number v ->
  Zod.parse_number s p v
  = inl [{| Zod.code := Zod.invalid_type Zod.ty_number (Zod.getParsedType v); Zod.path := p |}].
Proof.
  intros H. destruct v; try reflexivity. exfalso. apply H. now eexists.
Qed.

(** Whatever the other coordinate does, an issue of one coordinate is
    among those the object schema reports. *)
Lemma object_reports_latitude (ps : list (string * value)) (i : list Zod.ZodIssue) :
  Zod.parse_number latitude_schema ["latitude"] (prop ps "latitude") = inl i ->
  exists issues, weatherToolSchema_parse (VObj ps) = inl issues /\ incl i issues.
Proof.
  intros H. cbn [weatherToolSchema_parse]. rewrite H.
  destruct (Zod.parse_number longitude_schema _ _) as [j|lo].
  - exists (i ++ j)%list. split; [reflexivity | apply incl_appl, incl_refl].
  - exists i. split; [reflexivity | apply incl_refl].
Qed.

Lemma object_reports_longitude (ps : list (string * value)) (j : list Zod.ZodIssue) :
  Zod.parse_number longitude_schema ["longitude"] (prop ps "longitude") = inl j ->
  exists issues, weatherToolSchema_parse (VObj ps) = inl issues /\ incl j issues.
Proof.
  intros H. cbn [weatherToolSchema_parse]. rewrite H.
  destruct (Zod.parse_number latitude_schema _ _) as [i|la].
  - exists (i ++ j)%list. split; [reflexivity | apply incl_appr, incl_refl].
  - exists j. split; [reflexivity | apply incl_refl].
Qed.

(** Every violation of the contract is reported by the schema. *)
Lemma violation_reported (args : value) (issue : Zod.ZodIssue) :
  violation args issue ->
  exists issues, weatherToolSchema_parse args = inl issues /\ In issue issues.
Proof.
  intros V. destruct V as [ps x Hx Hlt|ps x Hx Hlt|ps x Hx Hlt|ps x Hx Hlt|ps k Hk Hn|args Hn].
  - destruct (parse_number_too_small (-90) 90 ["latitude"] x Hlt) as (i & Hi & Hin).
    rewrite <- Hx in Hi.
    destruct (object_reports_latitude ps i Hi) as (issues & -> & Hincl). eauto.
  - destruct (parse_number_too_big (-90) 90 ["latitude"] x Hlt) as (i & Hi & Hin).
    rewrite <- Hx in Hi.
    destruct (object_reports_latitude ps i Hi) as (issues & -> & Hincl). eauto.
  - destruct (parse_number_too_small (-180) 180 ["longitude"] x Hlt) as (i & Hi & Hin).
    rewrite <- Hx in Hi.
    destruct (object_reports_longitude ps i Hi) as (issues & -> & Hincl). eauto.
  - destruct (parse_number_too_big (-180) 180 ["longitude"] x Hlt) as (i & Hi & Hin).
    rewrite <- Hx in Hi.
    destruct (object_reports_longitude ps i Hi) as (issues & -> & Hincl). eauto.
  - destruct Hk as [-> | ->].
    + destruct (object_reports_latitude ps _ (parse_number_not_a_number latitude_schema ["latitude"] _ Hn))
        as (issues & -> & Hincl).
      eexists. split; [reflexivity | apply Hincl; now left].
    + destruct (object_reports_longitude ps _ (parse_number_not_a_number longitude_schema ["longitude"] _ Hn))
        as (issues & -> & Hincl).
      eexists. split; [reflexivity | apply Hincl; now left].
  - eexists. split.
    + destruct args as [ | | | | | |ps]; try reflexivity. contradiction (Hn ps eq_refl).
    + now left.
Qed.

End ZodFacts.

(* ================================================================== *)
(** * The handler of [tools/call], path by path *)

Module HandlerFacts.
Import JS Eff Spec Server.
Local Open Scope eff_scope.

Section Steps.

Variable host : Host.
Variable key : string.

Lemma read_some (base : value) (k : string) (v : value) :
  get base k = Some v -> read host base k = ret v.
Proof. intros H. unfold read. now rewrite H. Qed.

Lemma bind_ret {A B : Type} (a : A) (k : A -> M B) : bind (ret a) k = k a.
Proof. reflexivity. Qed.

(** The handler up to the [try] block: it reads the name and the
    arguments, and enters the block when the name is the tool's. *)
Lemma handler_enters_try (request args : value) :
  calls_get_weather request args ->
  call_tool_handler host key request = try_catch (get_weather host key args) (on_error host).
Proof.
  intros (params & Hp & Hn & Ha). unfold call_tool_handler.
  rewrite (read_some _ _ _ Hp), bind_ret.
  rewrite (read_some _ _ _ Hn), bind_ret.
  rewrite (read_some _ _ _ Ha), bind_ret.
  reflexivity.
Qed.

(** A failed validation leaves the [try] block before the request is sent. *)
Lemma rejected_arguments (request args : value) (issues : list Zod.ZodIssue) (t : list event) :
  calls_get_weather request args ->
  weatherToolSchema_parse args = inl issues ->
  call_tool_handler host key request t
  = (Throw (McpError InvalidParams ("Invalid parameters: " ++ zod_message host issues)), t).
Proof.
  intros Hcall Hparse. rewrite (handler_enters_try _ _ Hcall).
  unfold try_catch, get_weather, bind, parse_args. rewrite Hparse. reflexivity.
Qed.

(** The [try] block once the arguments are validated and the upstream
    has answered. *)
Lemma answered (args : value) (c : WeatherToolInput) (r : Response) (t : list event) :
  weatherToolSchema_parse args = inr c ->
  fetch host t (weather_url key c) = Resolved r ->
  get_weather host key args t
  = ((if negb (ok r)
      then throw (Error ("Weather API returned " ++ Str.of_N (status r) ++ ": "
                         ++ statusText r))
      else ret tt) ;;;
     data <- response_json host r ;;
     weather <- build_report host data c ;;
     text <- render host weather ;;
     ret (text_content text))%eff (t ++ [Fetch (weather_url key c)])%list.
Proof.
  intros Hparse Hfetch. unfold get_weather, parse_args. rewrite Hparse.
  unfold bind at 1. unfold ret at 1. unfold bind at 1. unfold do_fetch. rewrite Hfetch.
  reflexivity.
Qed.

Lemma upstream_failure (request args : value) (c : WeatherToolInput) (r : Response)
      (t : list event) :
  calls_get_weather request args ->
  weatherToolSchema_parse args = inr c ->
  fetch host t (weather_url key c) = Resolved r ->
  ok r = false ->
  let cause := Error ("Weather API returned " ++ Str.of_N (status r) ++ ": " ++ statusText r) in
  call_tool_handler host key request t
  = (Throw (McpError InternalError
              ("Error fetching weather data: Weather API returned "
               ++ Str.of_N (status r) ++ ": " ++ statusText r)),
     (t ++ [Fetch (weather_url key c); ConsoleError "Weather API Error:" cause])%list).
Proof.
  intros Hcall Hparse Hfetch Hok cause. rewrite (handler_enters_try _ _ Hcall).
  unfold try_catch. rewrite (answered _ _ _ _ Hparse Hfetch), Hok.
  cbn [negb bind throw on_error console_error emit instanceof_Error message_of cause].
  now rewrite <- app_assoc.
Qed.

Lemma to_string_some (v : value) (text : string) :
  ToString v = Some text -> to_string host v = ret text.
Proof. intros H. unfold to_string. now rewrite H. Qed.

Lemma to_number_some (v : value) (x : float) :
  ToNumber v = Some x -> to_number host v = ret x.
Proof. intros H. unfold to_number. now rewrite H. Qed.

(** The template, once the description and the humidity have a string. *)
Lemma render_some (w : WeatherReport) (d h : string) (t : list event) :
  ToString (description w) = Some d ->
  ToString (humidity w) = Some h ->
  render host w t
  = (Return ("Weather at coordinates " ++ location w ++ ":" ++ nl
             ++ "• Conditions: " ++ d ++ nl
             ++ "• Temperature: " ++ Num.Number_toString (temperature w) ++ "°C" ++ nl
             ++ "• Humidity: " ++ h ++ "%" ++ nl
             ++ "• Wind Speed: " ++ Num.Number_toString (windSpeed w) ++ " m/s"), t).
Proof.
  intros Hd Hh. unfold render.
  now rewrite (to_string_some _ _ Hd), bind_ret, (to_string_some _ _ Hh), bind_ret.
Qed.

Lemma success (request args : value) (c : WeatherToolInput) (r : Response)
      (data : value) (w : WeatherReport) (text : string) (t : list event) :
  calls_get_weather request args ->
  weatherToolSchema_parse args = inr c ->
  fetch host t (weather_url key c) = Resolved r ->
  ok r = true ->
  JSON.parse (body r) = Some data ->
  (forall t', build_report host data c t' = (Return w, t')) ->
  (forall t', render host w t' = (Return text, t')) ->
  call_tool_handler host key request t
  = (Return (text_content text), (t ++ [Fetch (weather_url key c)])%list).
Proof.
  intros Hcall Hparse Hfetch Hok Hjson Hreport Hrender.
  rewrite (handler_enters_try _ _ Hcall).
  unfold try_catch. rewrite (answered _ _ _ _ Hparse Hfetch), Hok.
  unfold response_json. rewrite Hjson.
  cbn [negb bind ret]. unfold bind. rewrite Hreport, Hrender. reflexivity.
Qed.

End Steps.

End HandlerFacts.

(* ================================================================== *)
(** * The endpoint, line by line *)

Module EndpointFacts.
Import JS Eff Spec Server StrFacts LineFacts HandlerFacts.
Local Open Scope eff_scope.

Lemma errorResponse_text : JSON.stringify errorResponse = parse_error_line.
Proof. vm_compute. reflexivity. Qed.

(** A blank line is no JSON text: the lexer either stops at a white space
    character JSON does not allow, or reaches the end with no token. *)
Lemma idle_step_ws1 (c : ascii) :
  Str.is_ws1 c = true ->
  JSON.idle_step c = Some (JSON.LIdle, []) \/ JSON.idle_step c = None.
Proof.
  destruct c as [[] [] [] [] [] [] [] []]; intros H;
    solve [discriminate H | left; reflexivity | right; reflexivity].
Qed.

Lemma idle_step_ws2 (c1 c2 : ascii) :
  Str.is_ws2 c1 c2 = true -> JSON.idle_step c1 = None.
Proof.
  destruct c1 as [[] [] [] [] [] [] [] []]; intros H;
    solve [discriminate H | reflexivity].
Qed.

Lemma idle_step_ws3 (c1 c2 c3 : ascii) :
  Str.is_ws3 c1 c2 c3 = true -> JSON.idle_step c1 = None.
Proof.
  destruct c1 as [[] [] [] [] [] [] [] []]; intros H;
    solve [discriminate H | reflexivity].
Qed.

Lemma blank_lexes_to_nothing (n : nat) :
  forall s, (String.length s <= n)%nat -> blank s = true ->
    JSON.lex JSON.LIdle [] s = Some [] \/ JSON.lex JSON.LIdle [] s = None.
Proof.
  unfold blank. induction n as [|n IH]; intros s Hlen Hb.
  - destruct s; [now left | simpl in Hlen; lia].
  - destruct s as [|c1 r1]; [now left|]. simpl in Hlen.
    cbn [Str.all_whitespace] in Hb. cbn [JSON.lex].
    destruct (Str.is_ws1 c1) eqn:E1.
    { destruct (idle_step_ws1 c1 E1) as [-> | ->]; [apply IH; [lia | exact Hb] | now right]. }
    destruct r1 as [|c2 r2]; [discriminate Hb|].
    destruct (Str.is_ws2 c1 c2) eqn:E2.
    { rewrite (idle_step_ws2 c1 c2 E2). now right. }
    destruct r2 as [|c3 r3]; [discriminate Hb|].
    destruct (Str.is_ws3 c1 c2 c3) eqn:E3; [|discriminate Hb].
    rewrite (idle_step_ws3 c1 c2 c3 E3). now right.
Qed.

Lemma blank_not_json (s : string) : blank s = true -> JSON.parse s = None.
Proof.
  intros Hb. unfold JSON.parse.
  destruct (blank_lexes_to_nothing (String.length s) s (le_n _) Hb) as [-> | ->];
    reflexivity.
Qed.

Lemma json_not_blank (s : string) (v : value) : JSON.parse s = Some v -> blank s = false.
Proof.
  intros H. destruct (blank s) eqn:E; [|reflexivity].
  rewrite (blank_not_json s E) in H. discriminate H.
Qed.

Section Lines.

Variable host : Host.
Variable server_request : value -> Schema -> M value.

#[local] Abbreviation process_line := (process_line host server_request).
#[local] Abbreviation dispatch_line := (dispatch_line host server_request).
#[local] Abbreviation process_lines := (process_lines host server_request).
#[local] Abbreviation post_mcp := (post_mcp host server_request).

Lemma line_unparsable (line : string) (t : list event) :
  JSON.parse line = None ->
  process_line line t
  = (Return parse_error_line,
     (t ++ [ConsoleError "Parse error:" (SyntaxError (bad_json host line))])%list).
Proof.
  intros H. unfold Server.process_line, try_catch, Server.dispatch_line, bind, JSON_parse.
  rewrite H. cbn [throw console_error emit ret]. now rewrite errorResponse_text.
Qed.

Lemma routed_defined (request sent : value) (s : Schema) :
  routed request = Some (sent, s) -> exists id, get request "id" = Some id.
Proof.
  unfold routed, get. destruct request; try discriminate; eauto.
Qed.

Lemma line_answered (line : string) (request sent : value) (s : Schema)
      (result id : value) (t t' : list event) :
  JSON.parse line = Some request ->
  routed request = Some (sent, s) ->
  server_request sent s t = (Return result, t') ->
  get request "id" = Some id ->
  process_line line t = (Return (JSON.stringify (responseData id result)), t').
Proof.
  intros Hparse Hroute Hreq Hid.
  unfold Server.process_line, try_catch, Server.dispatch_line, JSON_parse.
  rewrite Hparse, bind_ret. unfold routed in Hroute.
  destruct (get request "method") as [m|] eqn:Hm; [|discriminate Hroute].
  rewrite (read_some _ _ _ _ Hm), bind_ret, (read_some _ _ _ _ Hid).
  destruct (is_string m "tools/list").
  - injection Hroute as <- <-. unfold bind at 1. rewrite Hreq. reflexivity.
  - destruct (is_string m "tools/call"); [|discriminate Hroute].
    injection Hroute as <- <-. unfold bind at 1. rewrite Hreq. reflexivity.
Qed.

Lemma line_failed (line : string) (request sent : value) (s : Schema)
      (e : exn) (t t' : list event) :
  JSON.parse line = Some request ->
  routed request = Some (sent, s) ->
  server_request sent s t = (Throw e, t') ->
  process_line line t
  = (Return parse_error_line, (t' ++ [ConsoleError "Parse error:" e])%list).
Proof.
  intros Hparse Hroute Hreq.
  unfold Server.process_line, try_catch, Server.dispatch_line, JSON_parse.
  rewrite Hparse, bind_ret. unfold routed in Hroute.
  destruct (get request "method") as [m|] eqn:Hm; [|discriminate Hroute].
  rewrite (read_some _ _ _ _ Hm), bind_ret.
  destruct (is_string m "tools/list").
  - injection Hroute as <- <-. unfold bind at 1. rewrite Hreq.
    cbn [console_error emit bind ret]. now rewrite errorResponse_text.
  - destruct (is_string m "tools/call"); [|discriminate Hroute].
    injection Hroute as <- <-. unfold bind at 1. rewrite Hreq.
    cbn [console_error emit bind ret]. now rewrite errorResponse_text.
Qed.

Lemma line_unknown_method (line : string) (request m id : value) (t : list event) :
  JSON.parse line = Some request ->
  get request "method" = Some m ->
  is_string m "tools/list" = false ->
  is_string m "tools/call" = false ->
  get request "id" = Some id ->
  process_line line t
  = (Return (JSON.stringify (responseData id (method_not_found id))), t).
Proof.
  intros Hparse Hm Hlist Hcall Hid.
  unfold Server.process_line, try_catch, Server.dispatch_line, JSON_parse.
  rewrite Hparse, bind_ret, (read_some _ _ _ _ Hm), bind_ret, Hlist, Hcall.
  rewrite (read_some _ _ _ _ Hid). reflexivity.
Qed.

(** Every line gets exactly one reply, and the reply is one line. *)
Lemma line_always_answered (line : string) (t : list event) :
  exists r t', process_line line t = (Return r, t') /\ no_newline r = true.
Proof.
  assert (Herr : no_newline parse_error_line = true) by reflexivity.
  destruct (JSON.parse line) as [request|] eqn:Hparse;
    [|rewrite (line_unparsable _ _ Hparse); eauto].
  destruct (get request "method") as [m|] eqn:Hm.
  - assert (Hid : exists id, get request "id" = Some id)
      by (unfold get in *; destruct request; try discriminate; eauto).
    destruct Hid as [id Hid].
    destruct (routed request) as [[sent s]|] eqn:Hroute.
    + destruct (server_request sent s t) as [[result|e] t'] eqn:Hreq.
      * rewrite (line_answered _ _ _ _ _ _ _ _ Hparse Hroute Hreq Hid).
        do 2 eexists. split; [reflexivity | apply no_newline_stringify].
      * rewrite (line_failed _ _ _ _ _ _ _ Hparse Hroute Hreq). eauto.
    + unfold routed in Hroute. rewrite Hm in Hroute.
      destruct (is_string m "tools/list") eqn:Hlist; [discriminate Hroute|].
      destruct (is_string m "tools/call") eqn:Hcall; [discriminate Hroute|].
      rewrite (line_unknown_method _ _ _ _ _ Hparse Hm Hlist Hcall Hid).
      do 2 eexists. split; [reflexivity | apply no_newline_stringify].
  - unfold Server.process_line, try_catch, Server.dispatch_line, JSON_parse.
    rewrite Hparse, bind_ret. unfold read. rewrite Hm.
    cbn [bind throw console_error emit ret]. rewrite errorResponse_text.
    unfold ret. eauto.
Qed.

Lemma lines_all_answered (lines : list string) :
  forall (acc : list string) (t : list event),
  exists rs t',
    process_lines lines acc t = (Return (acc ++ rs)%list, t')
    /\ List.length rs = List.length lines
    /\ Forall (fun r => no_newline r = true) rs.
Proof.
  induction lines as [|line rest IH]; intros acc t.
  - exists [], t. cbn [Server.process_lines]. unfold ret. rewrite app_nil_r. auto.
  - destruct (line_always_answered line t) as (r & t1 & Hr & Hnl).
    destruct (IH (acc ++ [r])%list t1) as (rs & t2 & Hrs & Hlen & Hall).
    exists (r :: rs), t2. cbn [Server.process_lines]. unfold bind. rewrite Hr, Hrs.
    rewrite <- app_assoc. cbn [app List.length]. auto.
Qed.

Lemma request_lines_nonblank (body : string) :
  request_lines body = filter (fun line => negb (blank line)) (Str.split (Str.chr 10) body).
Proof. unfold request_lines. apply filter_ext. intros line. apply keeps_nonblank. Qed.

Lemma stringify_object_nonempty (ps : list (string * value)) : JSON.stringify (VObj ps) <> "".
Proof. unfold JSON.stringify. cbn [JSON.serialize append]. discriminate. Qed.

(** The reply to a line is never the empty string: it is the text of an
    object. *)
Lemma line_reply_nonempty (line : string) (t : list event) (r : string) (t' : list event) :
  process_line line t = (Return r, t') -> r <> "".
Proof.
  assert (Herr : parse_error_line <> "") by discriminate.
  destruct (JSON.parse line) as [request|] eqn:Hparse.
  2:{ rewrite (line_unparsable _ _ Hparse). intros H. now injection H as <- _. }
  destruct (get request "method") as [m|] eqn:Hm.
  - assert (Hid : exists id, get request "id" = Some id)
      by (unfold get in *; destruct request; try discriminate; eauto).
    destruct Hid as [id Hid].
    destruct (routed request) as [[sent s]|] eqn:Hroute.
    + destruct (server_request sent s t) as [[result|e] t0] eqn:Hreq.
      * rewrite (line_answered _ _ _ _ _ _ _ _ Hparse Hroute Hreq Hid).
        intros H. injection H as <- _. apply stringify_object_nonempty.
      * rewrite (line_failed _ _ _ _ _ _ _ Hparse Hroute Hreq).
        intros H. now injection H as <- _.
    + unfold routed in Hroute. rewrite Hm in Hroute.
      destruct (is_string m "tools/list") eqn:Hlist; [discriminate Hroute|].
      destruct (is_string m "tools/call") eqn:Hcall; [discriminate Hroute|].
      rewrite (line_unknown_method _ _ _ _ _ Hparse Hm Hlist Hcall Hid).
      intros H. injection H as <- _. apply stringify_object_nonempty.
  - unfold Server.process_line, try_catch, Server.dispatch_line, JSON_parse.
    rewrite Hparse, bind_ret. unfold read. rewrite Hm.
    cbn [bind throw console_error emit ret]. rewrite errorResponse_text.
    unfold ret. intros H. now injection H as <- _.
Qed.

(** The replies of the loop, line by line: each is the reply of
    [process_line] to its line, one line of text and not empty. *)
Lemma lines_answered_each (lines : list string) :
  forall (acc : list string) (t : list event),
  exists rs t',
    process_lines lines acc t = (Return (acc ++ rs)%list, t')
    /\ Forall2 (fun line r =>
                  no_newline r = true /\ r <> ""
                  /\ exists t0, fst (process_line line t0) = Return r)
               lines rs.
Proof.
  induction lines as [|line rest IH]; intros acc t.
  - exists [], t. cbn [Server.process_lines]. unfold ret. rewrite app_nil_r. auto.
  - destruct (line_always_answered line t) as (r & t1 & Hr & Hnl).
    destruct (IH (acc ++ [r])%list t1) as (rs & t2 & Hrs & Hall).
    exists (r :: rs), t2. cbn [Server.process_lines]. unfold bind. rewrite Hr, Hrs.
    rewrite <- app_assoc. cbn [app]. split; [reflexivity|].
    constructor; [|exact Hall].
    split; [exact Hnl|]. split; [exact (line_reply_nonempty _ _ _ _ Hr)|].
    exists t. now rewrite Hr.
Qed.

End Lines.

End EndpointFacts.

(* ================================================================== *)
(** * The endpoint, batch by batch *)

Module BatchFacts.
Import JS Eff Spec Server StrFacts LineFacts HandlerFacts EndpointFacts.

Lemma append_not_empty (a b : string) : String.eqb (a ++ String (Str.chr 10) b) "" = false.
Proof. now destruct a. Qed.

Lemma routed_call (request : value) :
  get request "method" = Some (VStr "tools/call") ->
  routed request = Some (request, CallToolRequestSchema).
Proof. intros H. unfold routed. now rewrite H. Qed.

Lemma routed_list (request : value) :
  get request "method" = Some (VStr "tools/list") ->
  routed request = Some (list_request, ListToolsRequestSchema).
Proof. intros H. unfold routed. now rewrite H. Qed.

Section Batch.

Variable host : Host.
Variable server_request : value -> Schema -> M value.

(** The body of the route once the lines are known. *)
Lemma post_mcp_lines (body : string) (t : list event) :
  String.eqb body "" = false ->
  post_mcp host server_request body t
  = match process_lines host server_request (request_lines body) [] t with
    | (Return replies, t') => (Return (ndjson_response (Str.join nl replies)), t')
    | (Throw e, t') =>
      (Return (json_response (VObj [("error", VStr "Internal server error")]) 500),
       (t' ++ [ConsoleError "Request processing error:" e])%list)
    end.
Proof.
  intros H. unfold post_mcp, try_catch, bind. cbn [truthy]. rewrite H. cbn [negb].
  destruct (process_lines host server_request (request_lines body) [] t) as [[rs|e] t'];
    reflexivity.
Qed.

Lemma two_lines (a b : string) :
  no_newline a = true -> no_newline b = true -> blank a = false -> blank b = false ->
  request_lines (a ++ nl ++ b) = [a; b].
Proof.
  intros Ha Hb Ba Bb. rewrite request_lines_nonblank.
  change (a ++ nl ++ b) with (a ++ String (Str.chr 10) b).
  rewrite (split_first_line _ _ Ha), (split_one_line _ Hb).
  cbn [filter]. now rewrite Ba, Bb.
Qed.

End Batch.

End BatchFacts.

(* ================================================================== *)
(** * The properties of the specification *)

Import JS Eff Server Spec.

#[local] Set Warnings "-inexact-float".

Lemma sf_args_valid : weatherToolSchema_parse Sample.sf_args = inr Sample.sf.
Proof. vm_compute. reflexivity. Qed.

Lemma sf_request_calls : calls_get_weather Sample.sf_request Sample.sf_args.
Proof. eexists. repeat split; reflexivity. Qed.

Lemma clear_sky_report_built (host : Host) (t : list event) :
  build_report host Sample.clear_sky Sample.sf t
  = (Return {| description := VStr "clear sky";
               temperature := 15;
               humidity := VNum 80;
               windSpeed := 3.6;
               location := "37.7749, -122.4194" |}, t).
Proof. vm_compute. reflexivity. Qed.

(** C1.  When [get_weather] is called for (37.7749, -122.4194) and the
    upstream answers with the payload [{current: {temp: 15.04, humidity:
    80, wind_speed: 3.6, weather: [{description: "clear sky"}]}}], the
    report the handler builds has description "clear sky", temperature
    15.0, humidity 80, windSpeed 3.6 and location "37.7749, -122.4194"
    (15.04 * 10 is 150.39999999999998, which rounds to 150); the text it
    returns is the five-line rendering of that report, in which the Number
    15.0 prints as [15]; and exactly one request went out. *)
Theorem clear_sky_report_rendered
        (host : Host) (key : string) (request : value) (t : list event) :
  calls_get_weather request Sample.sf_args ->
  upstream_replies host key t Sample.sf Sample.clear_sky ->
  let report := {| description := VStr "clear sky";
                   temperature := 15;
                   humidity := VNum 80;
                   windSpeed := 3.6;
                   location := "37.7749, -122.4194" |} in
  (forall t', build_report host Sample.clear_sky Sample.sf t' = (Return report, t'))
  /\ (forall t', render host report t' = (Return Sample.clear_sky_rendering, t'))
  /\ call_tool_handler host key request t
     = (Return (text_content Sample.clear_sky_rendering),
        (t ++ [Fetch (weather_url key Sample.sf)])%list).
Proof.
  intros Hcall (r & Hfetch & Hok & Hjson) report.
  assert (Hrender : forall t', render host report t' = (Return Sample.clear_sky_rendering, t'))
    by (intros t'; vm_compute; reflexivity).
  split; [exact (clear_sky_report_built host)|]. split; [exact Hrender|].
  exact (HandlerFacts.success host key request _ _ r _ report _ t Hcall sf_args_valid
           Hfetch Hok Hjson (clear_sky_report_built host) Hrender).
Qed.

Lemma clear_sky_report_rendered_witness :
  let host := Sample.upstream 200 "OK" Sample.clear_sky_text in
  calls_get_weather Sample.sf_request Sample.sf_args
  /\ upstream_replies host Sample.api_key [] Sample.sf Sample.clear_sky
  /\ call_tool_handler host Sample.api_key Sample.sf_request []
     = (Return (text_content Sample.clear_sky_rendering),
        [Fetch (weather_url Sample.api_key Sample.sf)]).
Proof.
  assert (Hup : upstream_replies (Sample.upstream 200 "OK" Sample.clear_sky_text)
                                 Sample.api_key [] Sample.sf Sample.clear_sky).
  { eexists. repeat split; vm_compute; reflexivity. }
  split; [exact sf_request_calls|]. split; [exact Hup|].
  exact (proj2 (proj2 (clear_sky_report_rendered _ _ _ _ sf_request_calls Hup))).
Defined.

(** C2.  Arguments whose [latitude] is a Number in [[-90, 90]] and whose
    [longitude] is a Number in [[-180, 180]] pass the schema, and the
    validated input holds exactly these two Numbers. *)
Theorem valid_coordinates_pass (ps : list (string * value)) (lat lon : float) :
  prop ps "latitude" = VNum lat ->
  prop ps "longitude" = VNum lon ->
  within (-90) 90 lat ->
  within (-180) 180 lon ->
  weatherToolSchema_parse (VObj ps) = inr {| latitude := lat; longitude := lon |}.
Proof.
  intros Hlat Hlon Wlat Wlon. cbn [weatherToolSchema_parse]. rewrite Hlat, Hlon.
  unfold latitude_schema, longitude_schema.
  now rewrite (ZodFacts.parse_number_within _ _ _ _ Wlat),
              (ZodFacts.parse_number_within _ _ _ _ Wlon).
Qed.

Lemma valid_coordinates_pass_witness :
  let ps := [("latitude", VNum 37.7749); ("longitude", VNum (-122.4194))] in
  prop ps "latitude" = VNum 37.7749
  /\ prop ps "longitude" = VNum (-122.4194)
  /\ within (-90) 90 37.7749
  /\ within (-180) 180 (-122.4194)
  /\ weatherToolSchema_parse (VObj ps)
     = inr {| latitude := 37.7749; longitude := -122.4194 |}.
Proof.
  intros ps.
  assert (H1 : within (-90) 90 37.7749) by (split; reflexivity).
  assert (H2 : within (-180) 180 (-122.4194)) by (split; reflexivity).
  split; [reflexivity|]. split; [reflexivity|]. split; [exact H1|]. split; [exact H2|].
  exact (valid_coordinates_pass ps 37.7749 (-122.4194) eq_refl eq_refl H1 H2).
Defined.

(** C3.  When the arguments of a [get_weather] call break the contract (a
    latitude below -90 or above 90, a longitude below -180 or above 180, a
    coordinate that is missing or is no Number, arguments that are no
    object), the handler throws an [McpError] with code [InvalidParams]
    whose message is "Invalid parameters: " followed by the validation
    library's message for a list of issues that includes the one
    describing the broken constraint; the trace of events is left as it
    was, so no request goes out. *)
Theorem invalid_arguments_rejected
        (host : Host) (key : string) (request args : value) (issue : Zod.ZodIssue)
        (t : list event) :
  calls_get_weather request args ->
  violation args issue ->
  exists issues,
    In issue issues
    /\ call_tool_handler host key request t
       = (Throw (McpError InvalidParams ("Invalid parameters: " ++ zod_message host issues)), t)
    /\ fetches (snd (call_tool_handler host key request t)) = fetches t.
Proof.
  intros Hcall V.
  destruct (ZodFacts.violation_reported args issue V) as (issues & Hparse & Hin).
  exists issues. split; [exact Hin|].
  rewrite (HandlerFacts.rejected_arguments host key request args issues t Hcall Hparse).
  split; reflexivity.
Qed.

Lemma invalid_arguments_rejected_witness :
  let host := Sample.upstream 200 "OK" Sample.clear_sky_text in
  let args := VObj [("latitude", VNum 91); ("longitude", VNum 0)] in
  let issue := {| Zod.code := Zod.too_big 90; Zod.path := ["latitude"] |} in
  calls_get_weather Sample.north_request args
  /\ violation args issue
  /\ exists issues,
       In issue issues
       /\ call_tool_handler host Sample.api_key Sample.north_request []
          = (Throw (McpError InvalidParams
                      ("Invalid parameters: " ++ zod_message host issues)), [])
       /\ fetches (snd (call_tool_handler host Sample.api_key Sample.north_request []))
          = fetches [].
Proof.
  intros host args issue.
  assert (Hcall : calls_get_weather Sample.north_request args).
  { eexists. repeat split; reflexivity. }
  assert (V : violation args issue).
  { apply (latitude_too_big _ 91); reflexivity. }
  split; [exact Hcall|]. split; [exact V|].
  exact (invalid_arguments_rejected host Sample.api_key _ _ _ [] Hcall V).
Defined.

(** C4.  When the upstream answers a valid call with a status outside
    200-299, the handler throws an [McpError] with code [InternalError]
    whose message is "Error fetching weather data: Weather API returned "
    followed by the status code, ": " and the status text; so the message
    contains the status code, and for status 500 it contains "500". *)
Theorem upstream_status_reported
        (host : Host) (key : string) (request args : value) (c : WeatherToolInput)
        (r : Response) (t : list event) :
  calls_get_weather request args ->
  weatherToolSchema_parse args = inr c ->
  fetch host t (weather_url key c) = Resolved r ->
  ok r = false ->
  exists message,
    fst (call_tool_handler host key request t) = Throw (McpError InternalError message)
    /\ message = "Error fetching weather data: Weather API returned "
                 ++ Str.of_N (status r) ++ ": " ++ statusText r
    /\ Str.contains (Str.of_N (status r)) message = true
    /\ (status r = 500%N -> Str.contains "500" message = true).
Proof.
  intros Hcall Hparse Hfetch Hok. eexists. split; [|split; [reflexivity|]].
  - now rewrite (HandlerFacts.upstream_failure host key request args c r t
                   Hcall Hparse Hfetch Hok).
  - assert (H : Str.contains (Str.of_N (status r))
                  ("Error fetching weather data: Weather API returned "
                   ++ Str.of_N (status r) ++ ": " ++ statusText r) = true)
      by apply StrFacts.contains_middle.
    split; [exact H|]. intros E. rewrite E in *. exact H.
Qed.

Lemma upstream_status_reported_witness :
  let host := Sample.upstream 500 "Internal Server Error" "" in
  let r := {| status := 500; statusText := "Internal Server Error"; body := "" |} in
  calls_get_weather Sample.sf_request Sample.sf_args
  /\ weatherToolSchema_parse Sample.sf_args = inr Sample.sf
  /\ fetch host [] (weather_url Sample.api_key Sample.sf) = Resolved r
  /\ ok r = false
  /\ fst (call_tool_handler host Sample.api_key Sample.sf_request [])
     = Throw (McpError InternalError
                "Error fetching weather data: Weather API returned 500: Internal Server Error").
Proof.
  intros host r.
  split; [exact sf_request_calls|]. split; [exact sf_args_valid|].
  split; [reflexivity|]. split; [reflexivity|].
  destruct (upstream_status_reported host Sample.api_key _ _ Sample.sf r []
              sf_request_calls sf_args_valid eq_refl eq_refl) as (message & -> & -> & _).
  reflexivity.
Defined.



(** C6.  The route answers the line [{"jsonrpc":"2.0","id":1,"method":
    "resources/list"}], whose method is unknown, with a line whose
    top-level member is [result]: the response
    [{jsonrpc, id, error: {code: -32601, message: "Method not found"}}] is
    built and then wrapped once more as the [result] of a second
    [{jsonrpc, id, result}].  The line is therefore not the error response
    [{jsonrpc, id, error}]. *)
Theorem unknown_method_reply
        (host : Host) (server_request : value -> Schema -> M value) (t : list event) :
  process_line host server_request Sample.unknown_line t = (Return Sample.unknown_reply, t)
  /\ Sample.unknown_reply
     = JSON.stringify (responseData (VNum 1) (method_not_found (VNum 1)))
  /\ Sample.unknown_reply <> Sample.unknown_error_response.
Proof.
  split; [vm_compute; reflexivity|].
  split; [vm_compute; reflexivity | vm_compute; discriminate].
Qed.

(** C7, as amended.  A body of two lines, one a [tools/call] request and
    the other a line that is not blank and is no JSON text, gets a reply of
    exactly two lines in the order of the request lines: the line the loop
    emits for the [tools/call] request, and the parse-error line for the
    other, whichever of the two comes first; the invalid line does not stop
    the batch.  What the line for the [tools/call] request holds is what
    [server.request] makes of it. *)
Theorem batch_keeps_order
        (host : Host) (server_request : value -> Schema -> M value)
        (good bad : string) (request : value) (t : list event) :
  no_newline good = true ->
  no_newline bad = true ->
  blank bad = false ->
  JSON.parse good = Some request ->
  get request "method" = Some (VStr "tools/call") ->
  JSON.parse bad = None ->
  let seen := (t ++ [ConsoleError "Parse error:" (SyntaxError (bad_json host bad))])%list in
  exists first second,
    fst (process_line host server_request good t) = Return first
    /\ fst (process_line host server_request good seen) = Return second
    /\ fst (post_mcp host server_request (good ++ nl ++ bad) t)
       = Return (ndjson_response (first ++ nl ++ parse_error_line))
    /\ fst (post_mcp host server_request (bad ++ nl ++ good) t)
       = Return (ndjson_response (parse_error_line ++ nl ++ second))
    /\ Str.split (Str.chr 10) (first ++ nl ++ parse_error_line) = [first; parse_error_line]
    /\ Str.split (Str.chr 10) (parse_error_line ++ nl ++ second) = [parse_error_line; second].
Proof.
  intros Ngood Nbad Bbad Pgood Hmethod Pbad seen.
  pose proof (EndpointFacts.json_not_blank _ _ Pgood) as Bgood.
  assert (Nerror : no_newline parse_error_line = true) by reflexivity.
  destruct (EndpointFacts.line_always_answered host server_request good t)
    as (first & t1 & Hfirst & Nfirst).
  destruct (EndpointFacts.line_always_answered host server_request good seen)
    as (second & t2 & Hsecond & Nsecond).
  exists first, second.
  split; [now rewrite Hfirst|]. split; [now rewrite Hsecond|].
  split; [|split; [|split]].
  - rewrite BatchFacts.post_mcp_lines by apply BatchFacts.append_not_empty.
    rewrite (BatchFacts.two_lines _ _ Ngood Nbad Bgood Bbad).
    cbn [process_lines]. unfold bind. rewrite Hfirst.
    rewrite (EndpointFacts.line_unparsable host server_request _ _ Pbad).
    reflexivity.
  - rewrite BatchFacts.post_mcp_lines by apply BatchFacts.append_not_empty.
    rewrite (BatchFacts.two_lines _ _ Nbad Ngood Bbad Bgood).
    cbn [process_lines]. unfold bind.
    rewrite (EndpointFacts.line_unparsable host server_request _ _ Pbad).
    fold seen. rewrite Hsecond. reflexivity.
  - apply (StrFacts.split_join first [parse_error_line]). auto.
  - apply (StrFacts.split_join parse_error_line [second]). auto.
Qed.

Lemma batch_keeps_order_witness :
  let host := Sample.upstream 200 "OK" Sample.clear_sky_text in
  no_newline Sample.sf_line = true
  /\ no_newline Sample.broken_line = true
  /\ blank Sample.broken_line = false
  /\ JSON.parse Sample.sf_line = Some Sample.sf_request
  /\ get Sample.sf_request "method" = Some (VStr "tools/call")
  /\ JSON.parse Sample.broken_line = None
  /\ fst (post_mcp host server_request (Sample.sf_line ++ nl ++ Sample.broken_line) [])
     = Return (ndjson_response (parse_error_line ++ nl ++ parse_error_line))
  /\ fst (post_mcp host server_request (Sample.broken_line ++ nl ++ Sample.sf_line) [])
     = Return (ndjson_response (parse_error_line ++ nl ++ parse_error_line)).
Proof.
  intros host.
  assert (Hparse : JSON.parse Sample.sf_line = Some Sample.sf_request)
    by (vm_compute; reflexivity).
  assert (Hbad : JSON.parse Sample.broken_line = None) by (vm_compute; reflexivity).
  assert (Hsf : forall t, fst (process_line host server_request Sample.sf_line t)
                          = Return parse_error_line).
  { intros t.
    now rewrite (EndpointFacts.line_failed host server_request _ _ _ _
                   (Error "Not connected") t t Hparse
                   (BatchFacts.routed_call Sample.sf_request eq_refl) eq_refl). }
  split; [reflexivity|]. split; [reflexivity|]. split; [reflexivity|].
  split; [exact Hparse|]. split; [reflexivity|]. split; [exact Hbad|].
  destruct (batch_keeps_order host server_request Sample.sf_line Sample.broken_line
              Sample.sf_request [] eq_refl eq_refl eq_refl Hparse eq_refl Hbad)
    as (first & second & Hfirst & Hsecond & H1 & H2 & _).
  rewrite Hsf in Hfirst, Hsecond.
  injection Hfirst as <-. injection Hsecond as <-.
  split; [exact H1 | exact H2].
Defined.

(** C7 as it was stated fails on a body whose invalid line is blank: a
    line holding one space is no JSON text, yet it is dropped before the
    loop, and the reply to the [tools/call] line and it is a single line,
    whatever [server.request] does. *)
Lemma batch_keeps_order_counterexample :
  JSON.parse Sample.sf_line = Some Sample.sf_request
  /\ get Sample.sf_request "method" = Some (VStr "tools/call")
  /\ JSON.parse " " = None
  /\ forall (host : Host) (library : value -> Schema -> M value) (t : list event),
       exists reply,
         fst (post_mcp host library (Sample.sf_line ++ nl ++ " ") t)
         = Return (ndjson_response reply)
         /\ List.length (Str.split (Str.chr 10) reply) = 1%nat.
Proof.
  split; [vm_compute; reflexivity|]. split; [reflexivity|]. split; [vm_compute; reflexivity|].
  intros host library t.
  rewrite BatchFacts.post_mcp_lines by apply BatchFacts.append_not_empty.
  assert (Hlines : request_lines (Sample.sf_line ++ nl ++ " ") = [Sample.sf_line])
    by (vm_compute; reflexivity).
  rewrite Hlines. cbn [process_lines]. unfold bind.
  destruct (EndpointFacts.line_always_answered host library Sample.sf_line t)
    as (reply & t1 & -> & Hnl).
  exists reply. split; [reflexivity|].
  now rewrite (StrFacts.split_one_line _ Hnl).
Qed.

(** C9.  When a line is JSON text for a [tools/list] or [tools/call]
    request and [server.request] throws for it, whatever it throws, the
    reply to the line is the parse-error line
    [{"jsonrpc":"2.0","id":null,"error":{"code":-32700,"message":"Parse
    error"}}], the text of [errorResponse] and the same reply a line that
    is no JSON text gets; the exception is only written to the console. *)
Theorem handler_failure_reported_as_parse_error
        (host : Host) (server_request : value -> Schema -> M value)
        (line : string) (request : value) (e : exn) (t t' : list event) :
  JSON.parse line = Some request ->
  (get request "method" = Some (VStr "tools/call")
   /\ server_request request CallToolRequestSchema t = (Throw e, t'))
  \/ (get request "method" = Some (VStr "tools/list")
      /\ server_request list_request ListToolsRequestSchema t = (Throw e, t')) ->
  process_line host server_request line t
  = (Return parse_error_line, (t' ++ [ConsoleError "Parse error:" e])%list)
  /\ JSON.stringify errorResponse = parse_error_line
  /\ forall bad t0,
       JSON.parse bad = None ->
       fst (process_line host server_request bad t0) = Return parse_error_line.
Proof.
  intros Hparse Hthrow. split; [|split].
  - destruct Hthrow as [[Hm Hreq] | [Hm Hreq]].
    + exact (EndpointFacts.line_failed host server_request _ _ _ _ _ _ _ Hparse
               (BatchFacts.routed_call _ Hm) Hreq).
    + exact (EndpointFacts.line_failed host server_request _ _ _ _ _ _ _ Hparse
               (BatchFacts.routed_list _ Hm) Hreq).
  - exact EndpointFacts.errorResponse_text.
  - intros bad t0 Hbad.
    now rewrite (EndpointFacts.line_unparsable host server_request _ _ Hbad).
Qed.

Lemma handler_failure_reported_as_parse_error_witness :
  let host := Sample.upstream 200 "OK" Sample.clear_sky_text in
  let e := Error "Not connected" in
  JSON.parse Sample.north_line = Some Sample.north_request
  /\ get Sample.north_request "method" = Some (VStr "tools/call")
  /\ server_request Sample.north_request CallToolRequestSchema [] = (Throw e, [])
  /\ process_line host server_request Sample.north_line []
     = (Return parse_error_line, [ConsoleError "Parse error:" e]).
Proof.
  intros host e.
  assert (Hparse : JSON.parse Sample.north_line = Some Sample.north_request)
    by (vm_compute; reflexivity).
  assert (Hthrow : server_request Sample.north_request CallToolRequestSchema []
                   = (Throw e, []))
    by reflexivity.
  split; [exact Hparse|]. split; [reflexivity|]. split; [exact Hthrow|].
  exact (proj1 (handler_failure_reported_as_parse_error host server_request
                  Sample.north_line Sample.north_request e [] [] Hparse
                  (or_introl (conj eq_refl Hthrow)))).
Defined.

(** C10.  An empty body is answered with status 400 and
    [{error: "No request body"}].  For any other body, the lines the loop
    processes are the lines of the body that are not blank (not empty and
    not made of white space only), and the reply holds one line for each
    of them, in order: each is the reply of the loop to its line, is not
    empty and contains no line feed, so that the text of the reply splits
    at its line feeds into exactly as many lines as the body has lines
    that are not blank; when the body has none, the text is empty. *)
Theorem blank_lines_skipped
        (host : Host) (server_request : value -> Schema -> M value) (t : list event) :
  post_mcp host server_request "" t
  = (Return (json_response (VObj [("error", VStr "No request body")]) 400), t)
  /\ forall body,
       body <> "" ->
       request_lines body
       = filter (fun line => negb (blank line)) (Str.split (Str.chr 10) body)
       /\ exists replies t',
            post_mcp host server_request body t
            = (Return (ndjson_response (Str.join nl replies)), t')
            /\ List.length replies = List.length (request_lines body)
            /\ Forall (fun r => no_newline r = true) replies
            /\ Forall2 (fun line r =>
                          r <> ""
                          /\ exists t0,
                               fst (process_line host server_request line t0) = Return r)
                       (request_lines body) replies
            /\ (request_lines body <> [] ->
                Str.split (Str.chr 10) (Str.join nl replies) = replies)
            /\ (request_lines body = [] -> Str.join nl replies = "").
Proof.
  split; [reflexivity|]. intros body Hbody.
  split; [apply EndpointFacts.request_lines_nonblank|].
  assert (E : String.eqb body "" = false) by now apply String.eqb_neq.
  rewrite (BatchFacts.post_mcp_lines _ _ _ _ E).
  destruct (EndpointFacts.lines_answered_each host server_request (request_lines body) [] t)
    as (rs & t' & -> & Heach).
  cbn [app]. exists rs, t'.
  assert (Hlen : List.length rs = List.length (request_lines body))
    by (symmetry; exact (Forall2_length Heach)).
  assert (Hall : Forall (fun r => no_newline r = true) rs).
  { clear Hlen. induction Heach as [|line r ls rs' (Hnl & _) _ IH]; constructor; auto. }
  split; [reflexivity|]. split; [exact Hlen|]. split; [exact Hall|].
  split; [|split].
  - eapply Forall2_impl; [|exact Heach]. cbn beta. intros line r (_ & Hne & Hr). auto.
  - intros Hsome. destruct rs as [|r rs']; [|exact (StrFacts.split_join r rs' Hall)].
    destruct (request_lines body); [contradiction | discriminate Hlen].
  - intros Hnone. rewrite Hnone in Hlen. now destruct rs.
Qed.

Lemma blank_lines_skipped_witness :
  let host := Sample.upstream 200 "OK" Sample.clear_sky_text in
  let body := "   " ++ nl ++ Sample.broken_line ++ nl ++ nl ++ Sample.unknown_line ++ nl in
  body <> ""
  /\ request_lines body = [Sample.broken_line; Sample.unknown_line]
  /\ exists replies t',
       post_mcp host server_request body []
       = (Return (ndjson_response (Str.join nl replies)), t')
       /\ List.length replies = 2%nat
       /\ Str.split (Str.chr 10) (Str.join nl replies) = replies.
Proof.
  intros host body.
  assert (Hbody : body <> "") by discriminate.
  assert (Hlines : request_lines body = [Sample.broken_line; Sample.unknown_line])
    by (vm_compute; reflexivity).
  split; [exact Hbody|]. split; [exact Hlines|].
  destruct (proj2 (blank_lines_skipped host server_request []) body Hbody)
    as (_ & replies & t' & Hpost & Hlen & _ & _ & Hsplit & _).
  exists replies, t'. split; [exact Hpost|]. split.
  - rewrite Hlen, Hlines. reflexivity.
  - apply Hsplit. rewrite Hlines. discriminate.
Defined.

(* ================================================================== *)
(** * Further properties of the code *)

Import Cover Routes.

Module QuietFacts.
Import HandlerFacts.
Local Open Scope eff_scope.

(** A computation is quiet when it leaves the trace as it found it. *)
Lemma get_defined (base : value) (k k' : string) (v : value) :
  get base k = Some v -> exists v', get base k' = Some v'.
Proof. destruct base; cbn [get]; intros H; try discriminate H; eauto. Qed.

Lemma get_not_nullish (base : value) (k : string) (v : value) :
  get base k = Some v -> nullish base = false.
Proof. destruct base; cbn [get]; intros H; try discriminate H; reflexivity. Qed.

Lemma nullish_no_get (base : value) (k : string) :
  nullish base = true -> get base k = None.
Proof. destruct base; cbn [nullish]; intros H; try discriminate H; reflexivity. Qed.

Lemma nullish_no_get0 (base : value) : nullish base = true -> get0 base = None.
Proof. destruct base; cbn [nullish]; intros H; try discriminate H; reflexivity. Qed.

Lemma read_trace (host : Host) (base : value) (k : string) (t : list event) :
  snd (read host base k t) = t.
Proof. unfold read. now destruct (get base k). Qed.

Lemma read0_trace (host : Host) (base : value) (t : list event) :
  snd (read0 host base t) = t.
Proof. unfold read0. now destruct (get0 base). Qed.

Lemma to_string_trace (host : Host) (v : value) (t : list event) :
  snd (to_string host v t) = t.
Proof. unfold to_string. now destruct (ToString v). Qed.

Lemma to_number_trace (host : Host) (v : value) (t : list event) :
  snd (to_number host v t) = t.
Proof. unfold to_number. now destruct (ToNumber v). Qed.

Lemma bind_trace {A B : Type} (m : M A) (k : A -> M B) :
  (forall t, snd (m t) = t) -> (forall a t, snd (k a t) = t) ->
  forall t, snd (bind m k t) = t.
Proof.
  intros Hm Hk t. unfold bind. specialize (Hm t).
  destruct (m t) as [[a|e] t']; cbn [snd] in *; subst t'; [apply Hk | reflexivity].
Qed.

(** Building the report reads the payload and nothing else. *)
Lemma build_report_trace (host : Host) (data : value) (c : WeatherToolInput) (t : list event) :
  snd (build_report host data c t) = t.
Proof.
  revert t. unfold build_report.
  repeat (apply bind_trace;
          [intros t; try apply read_trace; try apply read0_trace; try apply to_number_trace
          | intros ? ]).
  - destruct (nullish _); [reflexivity | apply read_trace].
  - reflexivity.
Qed.

(** Filling in the template reads the report and nothing else. *)
Lemma render_trace (host : Host) (w : WeatherReport) (t : list event) :
  snd (render host w t) = t.
Proof.
  revert t. unfold render.
  apply bind_trace; [intros t; apply to_string_trace|]. intros d.
  apply bind_trace; [intros t; apply to_string_trace|]. reflexivity.
Qed.

End QuietFacts.

Module HandlerCover.
Import HandlerFacts QuietFacts Cover.
Local Open Scope eff_scope.

Section Paths.

Variable host : Host.
Variable key : string.

(** The [try] block once the upstream has answered with a success status. *)
Lemma answered_ok (args : value) (c : WeatherToolInput) (r : Response) (t : list event) :
  weatherToolSchema_parse args = inr c ->
  fetch host t (weather_url key c) = Resolved r ->
  ok r = true ->
  get_weather host key args t
  = (data <- response_json host r ;;
     weather <- build_report host data c ;;
     text <- render host weather ;;
     ret (text_content text))%eff (t ++ [Fetch (weather_url key c)])%list.
Proof.
  intros Hparse Hfetch Hok. rewrite (answered host key args c r t Hparse Hfetch), Hok.
  reflexivity.
Qed.

Lemma rejected_fetch (args : value) (c : WeatherToolInput) (e : exn) (t : list event) :
  weatherToolSchema_parse args = inr c ->
  fetch host t (weather_url key c) = Rejected e ->
  get_weather host key args t = (Throw e, (t ++ [Fetch (weather_url key c)])%list).
Proof.
  intros Hparse Hfetch. unfold get_weather, parse_args. rewrite Hparse.
  unfold bind at 1. unfold ret at 1. unfold bind at 1. unfold do_fetch. now rewrite Hfetch.
Qed.

(** What the [catch] block does with an exception that is no ZodError. *)
Lemma on_error_internal (e : exn) (t : list event) :
  (forall issues, e <> ZodError issues) ->
  on_error host e t
  = (Throw (McpError InternalError
              ("Error fetching weather data: "
               ++ (if instanceof_Error e then message_of host e
                   else "Unknown error occurred"))),
     (t ++ [ConsoleError "Weather API Error:" e])%list).
Proof.
  intros H. destruct e; try reflexivity. contradiction (H issues eq_refl).
Qed.

(** An unusable body makes the rest of the [try] block throw. *)
Lemma unusable_throws (r : Response) (c : WeatherToolInput) (cause : exn) (t : list event) :
  unusable host (body r) cause ->
  (data <- response_json host r ;;
   weather <- build_report host data c ;;
   text <- render host weather ;;
   ret (text_content text))%eff t = (Throw cause, t).
Proof.
  intros U. unfold response_json.
  destruct U as [text Hp|text data Hp Hn|text data current Hp Hc Hn
                 |text data current weather Hp Hc Hw Hn]; rewrite Hp.
  - reflexivity.
  - rewrite bind_ret. unfold build_report, read.
    rewrite (nullish_no_get _ "current" Hn). reflexivity.
  - rewrite bind_ret. unfold build_report.
    rewrite (read_some _ _ _ _ Hc), bind_ret. unfold read.
    rewrite (nullish_no_get _ "weather" Hn). reflexivity.
  - rewrite bind_ret. unfold build_report.
    rewrite (read_some _ _ _ _ Hc), bind_ret, (read_some _ _ _ _ Hw), bind_ret.
    unfold read0. rewrite (nullish_no_get0 _ Hn). reflexivity.
Qed.

End Paths.

End HandlerCover.

Module TraceFacts.
Import HandlerFacts QuietFacts HandlerCover Cover.
Local Open Scope eff_scope.

Lemma fetches_app (a b : list event) : fetches (a ++ b) = (fetches a ++ fetches b)%list.
Proof. unfold fetches. apply flat_map_app. Qed.

Lemma on_error_fetches (host : Host) (e : exn) (t : list event) :
  fetches (snd (on_error host e t)) = fetches t.
Proof.
  destruct e; cbn [on_error]; try reflexivity;
    unfold bind, console_error, emit, throw; cbn [snd];
    rewrite fetches_app; cbn [fetches flat_map]; apply app_nil_r.
Qed.

(** After the request went out, the rest of the [try] block is quiet. *)
Lemma after_fetch_trace (host : Host) (r : Response) (c : WeatherToolInput) (t : list event) :
  snd ((data <- response_json host r ;;
        weather <- build_report host data c ;;
        text <- render host weather ;;
        ret (text_content text))%eff t) = t.
Proof.
  revert t. apply bind_trace.
  - intros t. unfold response_json. now destruct (JSON.parse (body r)).
  - intros data. apply bind_trace; [apply build_report_trace|]. intros w.
    apply bind_trace; [apply render_trace | reflexivity].
Qed.

Lemma valid_call_fetches_once (host : Host) (key : string) (request args : value)
      (c : WeatherToolInput) (t : list event) :
  calls_get_weather request args ->
  weatherToolSchema_parse args = inr c ->
  fetches (snd (call_tool_handler host key request t))
  = (fetches t ++ [weather_url key c])%list.
Proof.
  intros Hcall Hparse. rewrite (handler_enters_try host key _ _ Hcall). unfold try_catch.
  assert (Hsent : fetches (t ++ [Fetch (weather_url key c)])
                  = (fetches t ++ [weather_url key c])%list)
    by (rewrite fetches_app; reflexivity).
  destruct (fetch host t (weather_url key c)) as [e|r] eqn:Hfetch.
  - rewrite (rejected_fetch host key _ _ _ _ Hparse Hfetch).
    now rewrite on_error_fetches.
  - rewrite (answered host key _ _ _ _ Hparse Hfetch).
    destruct (ok r); cbn [negb].
    + change ((ret tt ;;; ?k)%eff) with k.
      pose proof (after_fetch_trace host r c (t ++ [Fetch (weather_url key c)])%list) as Hq.
      change (bind (ret tt) (fun _ : unit =>
                (data <- response_json host r ;;
                 weather <- build_report host data c ;;
                 text <- render host weather ;;
                 ret (text_content text))%eff))
        with ((data <- response_json host r ;;
               weather <- build_report host data c ;;
               text <- render host weather ;;
               ret (text_content text))%eff).
      destruct ((data <- response_json host r ;;
                 weather <- build_report host data c ;;
                 text <- render host weather ;;
                 ret (text_content text))%eff
                  (t ++ [Fetch (weather_url key c)])%list) as [[v|e] t'];
        cbn [snd] in Hq; subst t'; [exact Hsent | now rewrite on_error_fetches].
    + cbn [bind throw]. now rewrite on_error_fetches.
Qed.

End TraceFacts.

(** X1.  When the [name] of a [tools/call] request is anything but the
    string [get_weather], the handler throws before the [try] block, with
    nothing validated, requested or written to the console.  It throws the
    McpError [MethodNotFound] with the message [Unknown tool: <name>] when
    the name has a string, as every string has; and the TypeError of the
    conversion when it has none, as an object with a member [toString] of
    its own. *)
Theorem unknown_tool_rejected
        (host : Host) (key : string) (request params name : value) (t : list event) :
  get request "params" = Some params ->
  get params "name" = Some name ->
  is_string name "get_weather" = false ->
  call_tool_handler host key request t
  = (Throw (match ToString name with
            | Some shown => McpError MethodNotFound ("Unknown tool: " ++ shown)
            | None => TypeError (cannot_convert host name)
            end), t)
  /\ (forall s, name = VStr s -> ToString name = Some s)
  /\ (forall ps v, name = VObj ps -> lookup "toString" ps = Some v -> ToString name = None).
Proof.
  intros Hp Hn Hname. split; [|split].
  - unfold call_tool_handler.
    destruct (QuietFacts.get_defined _ _ "arguments" _ Hn) as [args Ha].
    rewrite (HandlerFacts.read_some _ _ _ _ Hp), HandlerFacts.bind_ret.
    rewrite (HandlerFacts.read_some _ _ _ _ Hn), HandlerFacts.bind_ret.
    rewrite (HandlerFacts.read_some _ _ _ _ Ha), HandlerFacts.bind_ret.
    rewrite Hname. cbn [negb]. unfold to_string.
    now destruct (ToString name).
  - now intros s ->.
  - intros ps v -> Hown. cbn [ToString]. now rewrite Hown.
Qed.

Lemma unknown_tool_rejected_witness :
  let host := Sample.upstream 200 "OK" Sample.clear_sky_text in
  let params := VObj [("name", VStr "get_forecast"); ("arguments", Sample.sf_args)] in
  let odd := VObj [("toString", VNum 0)] in
  let odd_request := VObj [("params", VObj [("name", odd)])] in
  get other_tool_request "params" = Some params
  /\ get params "name" = Some (VStr "get_forecast")
  /\ is_string (VStr "get_forecast") "get_weather" = false
  /\ call_tool_handler host Sample.api_key other_tool_request []
     = (Throw (McpError MethodNotFound "Unknown tool: get_forecast"), [])
  /\ call_tool_handler host Sample.api_key odd_request []
     = (Throw (TypeError "Cannot convert object to primitive value"), []).
Proof.
  intros host params odd odd_request.
  split; [reflexivity|]. split; [reflexivity|]. split; [reflexivity|]. split.
  - exact (proj1 (unknown_tool_rejected host Sample.api_key other_tool_request params
                    (VStr "get_forecast") [] eq_refl eq_refl eq_refl)).
  - exact (proj1 (unknown_tool_rejected host Sample.api_key odd_request
                    (VObj [("name", odd)]) odd [] eq_refl eq_refl eq_refl)).
Defined.

(** X2.  When [request.params] is [undefined] or [null], reading [name] from
    it throws a TypeError that leaves the handler as it is: it is raised
    before the [try] block, so it is neither logged nor turned into an
    McpError. *)
Theorem call_without_params_throws
        (host : Host) (key : string) (request params : value) (t : list event) :
  get request "params" = Some params ->
  nullish params = true ->
  call_tool_handler host key request t
  = (Throw (TypeError (cannot_read host params "name")), t).
Proof.
  intros Hp Hn. unfold call_tool_handler.
  rewrite (HandlerFacts.read_some _ _ _ _ Hp), HandlerFacts.bind_ret.
  unfold read. now rewrite (QuietFacts.nullish_no_get _ "name" Hn).
Qed.

Lemma call_without_params_throws_witness :
  let host := Sample.upstream 200 "OK" Sample.clear_sky_text in
  let request := VObj [("method", VStr "tools/call")] in
  get request "params" = Some VUndefined
  /\ nullish VUndefined = true
  /\ call_tool_handler host Sample.api_key request []
     = (Throw (TypeError "Cannot read properties (reading 'name')"), []).
Proof.
  intros host request. split; [reflexivity|]. split; [reflexivity|].
  exact (call_without_params_throws host Sample.api_key request VUndefined [] eq_refl eq_refl).
Defined.

(** X3.  When the arguments are valid and the outbound request itself fails
    (the promise of [fetch] is rejected with something that is no
    ZodError), the handler sends the one request, writes the exception to
    the console under [Weather API Error:], and throws the McpError
    [InternalError] whose message is [Error fetching weather data: ]
    followed by the exception's message, or by [Unknown error occurred]
    when what was thrown is no Error. *)
Theorem network_failure_reported
        (host : Host) (key : string) (request args : value) (c : WeatherToolInput)
        (e : exn) (t : list event) :
  calls_get_weather request args ->
  weatherToolSchema_parse args = inr c ->
  fetch host t (weather_url key c) = Rejected e ->
  (forall issues, e <> ZodError issues) ->
  call_tool_handler host key request t
  = (Throw (McpError InternalError
              ("Error fetching weather data: "
               ++ (if instanceof_Error e then message_of host e
                   else "Unknown error occurred"))),
     (t ++ [Fetch (weather_url key c); ConsoleError "Weather API Error:" e])%list).
Proof.
  intros Hcall Hparse Hfetch Hzod.
  rewrite (HandlerFacts.handler_enters_try host key _ _ Hcall). unfold try_catch.
  rewrite (HandlerCover.rejected_fetch host key _ _ _ _ Hparse Hfetch).
  rewrite (HandlerCover.on_error_internal host e _ Hzod). now rewrite <- app_assoc.
Qed.

Lemma network_failure_reported_witness :
  let e := TypeError "fetch failed" in
  calls_get_weather Sample.sf_request Sample.sf_args
  /\ weatherToolSchema_parse Sample.sf_args = inr Sample.sf
  /\ fetch offline [] (weather_url Sample.api_key Sample.sf) = Rejected e
  /\ (forall issues, e <> ZodError issues)
  /\ call_tool_handler offline Sample.api_key Sample.sf_request []
     = (Throw (McpError InternalError "Error fetching weather data: fetch failed"),
        [Fetch (weather_url Sample.api_key Sample.sf); ConsoleError "Weather API Error:" e]).
Proof.
  intros e.
  assert (Hzod : forall issues, e <> ZodError issues) by (intros issues; discriminate).
  split; [exact sf_request_calls|]. split; [exact sf_args_valid|].
  split; [reflexivity|]. split; [exact Hzod|].
  exact (network_failure_reported offline Sample.api_key _ _ Sample.sf e []
           sf_request_calls sf_args_valid eq_refl Hzod).
Defined.

(** X4.  When the upstream answers with a success status but a body the tool
    cannot use (no JSON text, the payload [null], a payload without
    [current], a [current] without [weather]), the exception raised while
    reading it is logged and reported as the McpError [InternalError] with
    that exception's message; no report is returned. *)
Theorem unusable_payload_reported
        (host : Host) (key : string) (request args : value) (c : WeatherToolInput)
        (r : Response) (cause : exn) (t : list event) :
  calls_get_weather request args ->
  weatherToolSchema_parse args = inr c ->
  fetch host t (weather_url key c) = Resolved r ->
  ok r = true ->
  unusable host (body r) cause ->
  call_tool_handler host key request t
  = (Throw (McpError InternalError
              ("Error fetching weather data: " ++ message_of host cause)),
     (t ++ [Fetch (weather_url key c); ConsoleError "Weather API Error:" cause])%list).
Proof.
  intros Hcall Hparse Hfetch Hok U.
  rewrite (HandlerFacts.handler_enters_try host key _ _ Hcall). unfold try_catch.
  rewrite (HandlerCover.answered_ok host key _ _ _ _ Hparse Hfetch Hok).
  rewrite (HandlerCover.unusable_throws host r c cause _ U).
  assert (Hzod : forall issues, cause <> ZodError issues)
    by (intros issues; destruct U; discriminate).
  rewrite (HandlerCover.on_error_internal host cause _ Hzod).
  assert (Herr : instanceof_Error cause = true) by (destruct U; reflexivity).
  now rewrite Herr, <- app_assoc.
Qed.

Lemma unusable_payload_reported_witness :
  let host := Sample.upstream 200 "OK" "{}" in
  let r := {| status := 200; statusText := "OK"; body := "{}" |} in
  let cause := TypeError "Cannot read properties (reading 'weather')" in
  calls_get_weather Sample.sf_request Sample.sf_args
  /\ weatherToolSchema_parse Sample.sf_args = inr Sample.sf
  /\ fetch host [] (weather_url Sample.api_key Sample.sf) = Resolved r
  /\ ok r = true
  /\ unusable host (body r) cause
  /\ call_tool_handler host Sample.api_key Sample.sf_request []
     = (Throw (McpError InternalError
                 "Error fetching weather data: Cannot read properties (reading 'weather')"),
        [Fetch (weather_url Sample.api_key Sample.sf);
         ConsoleError "Weather API Error:" cause]).
Proof.
  intros host r cause.
  assert (U : unusable host (body r) cause).
  { apply (no_current host "{}" (VObj []) VUndefined); reflexivity. }
  split; [exact sf_request_calls|]. split; [exact sf_args_valid|].
  split; [reflexivity|]. split; [reflexivity|]. split; [exact U|].
  exact (unusable_payload_reported host Sample.api_key _ _ Sample.sf r cause []
           sf_request_calls sf_args_valid eq_refl eq_refl U).
Defined.

(** X5.  A call of the handler sends at most one outbound request.  For
    arguments that pass validation it sends exactly one, to the URL built
    from the validated coordinates and the key, whatever the upstream then
    does. *)
Theorem at_most_one_request
        (host : Host) (key : string) (request : value) (t : list event) :
  let after := fetches (snd (call_tool_handler host key request t)) in
  (forall args c,
     calls_get_weather request args ->
     weatherToolSchema_parse args = inr c ->
     after = (fetches t ++ [weather_url key c])%list)
  /\ (after = fetches t \/ exists url, after = (fetches t ++ [url])%list).
Proof.
  intros after. split; [intros args c; apply TraceFacts.valid_call_fetches_once|].
  subst after. unfold call_tool_handler, read.
  destruct (get request "params") as [params|] eqn:Hp; [|now left].
  rewrite HandlerFacts.bind_ret.
  destruct (get params "name") as [name|] eqn:Hn; [|now left].
  rewrite HandlerFacts.bind_ret.
  destruct (QuietFacts.get_defined _ _ "arguments" _ Hn) as [args Ha]. rewrite Ha.
  rewrite HandlerFacts.bind_ret.
  destruct (is_string name "get_weather") eqn:Hname; cbn [negb].
  2:{ left. unfold bind, to_string. now destruct (ToString name). }
  assert (Hcall : calls_get_weather request args).
  { exists params. repeat split; try assumption.
    destruct name; try discriminate Hname. cbn [is_string] in Hname.
    apply String.eqb_eq in Hname. now subst. }
  destruct (weatherToolSchema_parse args) as [issues|c] eqn:Hparse.
  - left. unfold try_catch, get_weather, parse_args, bind. rewrite Hparse. reflexivity.
  - right. exists (weather_url key c).
    pose proof (TraceFacts.valid_call_fetches_once host key request args c t Hcall Hparse) as H.
    rewrite (HandlerFacts.handler_enters_try host key _ _ Hcall) in H. exact H.
Qed.

(** X6.  A call of [get_weather] has three possible outcomes whatever the
    arguments and the upstream: a result holding one text content, the
    McpError [InvalidParams], or the McpError [InternalError].  No other
    exception leaves the [try]/[catch] of the handler. *)
Theorem handler_outcomes
        (host : Host) (key : string) (request args : value) (t : list event) :
  calls_get_weather request args ->
  (exists text, fst (call_tool_handler host key request t) = Return (text_content text))
  \/ (exists message,
        fst (call_tool_handler host key request t) = Throw (McpError InvalidParams message))
  \/ (exists message,
        fst (call_tool_handler host key request t) = Throw (McpError InternalError message)).
Proof.
  intros Hcall. rewrite (HandlerFacts.handler_enters_try host key _ _ Hcall).
  unfold try_catch.
  assert (Hcatch : forall e t',
             (exists m, fst (on_error host e t') = Throw (McpError InvalidParams m))
             \/ (exists m, fst (on_error host e t') = Throw (McpError InternalError m))).
  { intros e t'. destruct e; cbn [on_error]; [left | right ..]; eexists; reflexivity. }
  destruct (get_weather host key args t) as [[v|e] t'] eqn:Hrun.
  - left. unfold get_weather in Hrun.
    unfold bind in Hrun.
    destruct (parse_args args t) as [[c|e0] t0]; [|discriminate Hrun].
    destruct (do_fetch host (weather_url key c) t0) as [[r|e1] t1]; [|discriminate Hrun].
    destruct ((if negb (ok r) then _ else ret tt) t1) as [[u|e2] t2]; [|discriminate Hrun].
    destruct (response_json host r t2) as [[data|e3] t3]; [|discriminate Hrun].
    destruct (build_report host data c t3) as [[w|e4] t4]; [|discriminate Hrun].
    destruct (render host w t4) as [[text|e5] t5]; [|discriminate Hrun].
    injection Hrun as <- _. eexists. reflexivity.
  - right. destruct (Hcatch e t') as [H|H]; [left | right]; exact H.
Qed.

Lemma handler_outcomes_witness :
  calls_get_weather Sample.north_request
                    (VObj [("latitude", VNum 91); ("longitude", VNum 0)])
  /\ ((exists text,
         fst (call_tool_handler offline Sample.api_key Sample.north_request [])
         = Return (text_content text))
      \/ (exists message,
            fst (call_tool_handler offline Sample.api_key Sample.north_request [])
            = Throw (McpError InvalidParams message))
      \/ (exists message,
            fst (call_tool_handler offline Sample.api_key Sample.north_request [])
            = Throw (McpError InternalError message))).
Proof.
  assert (Hcall : calls_get_weather Sample.north_request
                    (VObj [("latitude", VNum 91); ("longitude", VNum 0)])).
  { eexists. repeat split; reflexivity. }
  split; [exact Hcall|].
  exact (handler_outcomes offline Sample.api_key _ _ [] Hcall).
Defined.

(** X7.  For any payload with [current.weather], whose temperature and
    wind speed convert to a Number and whose shown description and humidity
    convert to a string, the handler returns the template filled in with
    the description shown for the first condition, the rounded Numbers and
    the humidity.  The description shown is always truthy: a non-empty
    string is kept as it is, while an empty string and a missing first
    condition both give [Unknown]. *)
Theorem description_shown
        (host : Host) (key : string) (request args : value) (c : WeatherToolInput)
        (data current weather first temp hum wind : value) (x y : float) (d h : string)
        (t : list event) :
  calls_get_weather request args ->
  weatherToolSchema_parse args = inr c ->
  upstream_replies host key t c data ->
  get data "current" = Some current ->
  get current "weather" = Some weather ->
  get0 weather = Some first ->
  get current "temp" = Some temp ->
  get current "humidity" = Some hum ->
  get current "wind_speed" = Some wind ->
  ToString (shown_description first) = Some d ->
  ToNumber temp = Some x ->
  ToString hum = Some h ->
  ToNumber wind = Some y ->
  let place := Num.Number_toString (latitude c) ++ ", " ++ Num.Number_toString (longitude c) in
  let text := "Weather at coordinates " ++ place ++ ":" ++ nl
              ++ "• Conditions: " ++ d ++ nl
              ++ "• Temperature: " ++ Num.Number_toString (round1 x) ++ "°C" ++ nl
              ++ "• Humidity: " ++ h ++ "%" ++ nl
              ++ "• Wind Speed: " ++ Num.Number_toString (round1 y) ++ " m/s" in
  call_tool_handler host key request t
  = (Return (text_content text), (t ++ [Fetch (weather_url key c)])%list)
  /\ (truthy (shown_description first) = true)
  /\ (forall s, get first "description" = Some (VStr s) -> s <> "" ->
                shown_description first = VStr s)
  /\ (get first "description" = Some (VStr "") -> shown_description first = VStr "Unknown")
  /\ (nullish first = true -> shown_description first = VStr "Unknown").
Proof.
  intros Hcall Hparse (r & Hfetch & Hok & Hjson) Hcur Hw Hfirst Htemp Hhum Hwind
         Hd Hx Hh Hy place text.
  pose (report := {| description := shown_description first;
                     temperature := round1 x;
                     humidity := hum;
                     windSpeed := round1 y;
                     location := place |}).
  assert (Hbuild : forall t', build_report host data c t' = (Return report, t')).
  { intros t'. unfold build_report.
    rewrite (HandlerFacts.read_some _ _ _ _ Hcur), HandlerFacts.bind_ret.
    rewrite (HandlerFacts.read_some _ _ _ _ Hw), HandlerFacts.bind_ret.
    unfold read0. rewrite Hfirst, HandlerFacts.bind_ret.
    subst report. unfold shown_description.
    destruct (nullish first) eqn:Hnull.
    - rewrite HandlerFacts.bind_ret.
      rewrite (HandlerFacts.read_some _ _ _ _ Htemp), HandlerFacts.bind_ret.
      rewrite (HandlerFacts.to_number_some _ _ _ Hx), HandlerFacts.bind_ret.
      rewrite (HandlerFacts.read_some _ _ _ _ Hhum), HandlerFacts.bind_ret.
      rewrite (HandlerFacts.read_some _ _ _ _ Hwind), HandlerFacts.bind_ret.
      rewrite (HandlerFacts.to_number_some _ _ _ Hy), HandlerFacts.bind_ret.
      reflexivity.
    - assert (Hdesc : exists v, get first "description" = Some v)
        by (destruct first; try discriminate Hnull; cbn [get]; eauto).
      destruct Hdesc as [v Hv]. rewrite Hv.
      rewrite (HandlerFacts.read_some _ _ _ _ Hv), HandlerFacts.bind_ret.
      rewrite (HandlerFacts.read_some _ _ _ _ Htemp), HandlerFacts.bind_ret.
      rewrite (HandlerFacts.to_number_some _ _ _ Hx), HandlerFacts.bind_ret.
      rewrite (HandlerFacts.read_some _ _ _ _ Hhum), HandlerFacts.bind_ret.
      rewrite (HandlerFacts.read_some _ _ _ _ Hwind), HandlerFacts.bind_ret.
      rewrite (HandlerFacts.to_number_some _ _ _ Hy), HandlerFacts.bind_ret.
      reflexivity. }
  assert (Hrender : forall t', render host report t' = (Return text, t')).
  { intros t'. exact (HandlerFacts.render_some host report d h t' Hd Hh). }
  split; [|split; [|split; [|split]]].
  - exact (HandlerFacts.success host key request args c r data report text t Hcall Hparse
             Hfetch Hok Hjson Hbuild Hrender).
  - unfold shown_description.
    destruct (truthy (if nullish first then VUndefined else _)) eqn:E; [exact E | reflexivity].
  - intros s Hs Hne. unfold shown_description.
    rewrite (QuietFacts.get_not_nullish _ _ _ Hs), Hs. cbn [truthy].
    destruct (String.eqb s "") eqn:E; [apply String.eqb_eq in E; contradiction | reflexivity].
  - intros Hs. unfold shown_description.
    now rewrite (QuietFacts.get_not_nullish _ _ _ Hs), Hs.
  - intros Hn. unfold shown_description. now rewrite Hn.
Qed.

Lemma description_shown_witness :
  let host := Sample.upstream 200 "OK" untitled_text in
  let first := VObj [("description", VStr "")] in
  calls_get_weather Sample.sf_request Sample.sf_args
  /\ weatherToolSchema_parse Sample.sf_args = inr Sample.sf
  /\ upstream_replies host Sample.api_key [] Sample.sf untitled
  /\ ToString (shown_description first) = Some "Unknown"
  /\ ToNumber (VNum (-3.25)) = Some (-3.25)%float
  /\ ToString (VNum 55) = Some "55"
  /\ ToNumber (VNum 7.45) = Some 7.45%float
  /\ call_tool_handler host Sample.api_key Sample.sf_request []
     = (Return (text_content
                  ("Weather at coordinates 37.7749, -122.4194:" ++ nl
                   ++ "• Conditions: Unknown" ++ nl
                   ++ "• Temperature: -3.2°C" ++ nl
                   ++ "• Humidity: 55%" ++ nl
                   ++ "• Wind Speed: 7.5 m/s")),
        [Fetch (weather_url Sample.api_key Sample.sf)]).
Proof.
  intros host first.
  assert (Hup : upstream_replies host Sample.api_key [] Sample.sf untitled).
  { eexists. split; [reflexivity|]. split; [reflexivity|]. vm_compute. reflexivity. }
  assert (Hh : ToString (VNum 55) = Some "55") by (vm_compute; reflexivity).
  split; [exact sf_request_calls|]. split; [exact sf_args_valid|]. split; [exact Hup|].
  split; [reflexivity|]. split; [reflexivity|]. split; [exact Hh|]. split; [reflexivity|].
  destruct (description_shown host Sample.api_key Sample.sf_request Sample.sf_args
              Sample.sf untitled untitled_current
              (VArr [first]) first (VNum (-3.25)) (VNum 55) (VNum 7.45)
              (-3.25)%float 7.45%float "Unknown" "55" []
              sf_request_calls sf_args_valid Hup
              eq_refl eq_refl eq_refl eq_refl eq_refl eq_refl eq_refl eq_refl Hh eq_refl)
    as (-> & _).
  vm_compute. reflexivity.
Defined.

Module OrderFacts.
Import FloatFacts.

Lemma not_nan_spec (x : float) : is_nan x = false -> Prim2SF x <> S754_nan.
Proof.
  unfold is_nan. rewrite eqb_spec. unfold SFeqb. intros H E. rewrite E in H. discriminate H.
Qed.

Lemma SFcompare_defined (a b : spec_float) :
  a <> S754_nan -> b <> S754_nan -> exists c, SFcompare a b = Some c.
Proof.
  destruct a, b; cbn [SFcompare]; intros Ha Hb; try congruence; eauto.
Qed.

(** Between two Numbers that are not NaN, "not less than" is "at least". *)
Lemma not_ltb_leb (a b : float) :
  is_nan a = false -> is_nan b = false ->
  PrimFloat.ltb b a = false -> PrimFloat.leb a b = true.
Proof.
  intros Ha Hb. rewrite ltb_spec, leb_spec. unfold SFltb, SFleb.
  rewrite (SFcompare_antisym (Prim2SF a) (Prim2SF b)).
  destruct (SFcompare_defined _ _ (not_nan_spec a Ha) (not_nan_spec b Hb)) as [c ->].
  destruct c; cbn [option_map CompOpp]; congruence.
Qed.

Lemma parse_number_accepts (lo hi : float) (p : list string) (v : value) (x : float) :
  is_nan lo = false -> is_nan hi = false ->
  Zod.parse_number (Zod.max hi (Zod.min lo Zod.z_number)) p v = inr x ->
  v = VNum x /\ within lo hi x.
Proof.
  intros Hlo Hhi. unfold Zod.parse_number.
  destruct v as [ | | |y| | | ]; cbn [Zod.getParsedType]; try discriminate.
  destruct (is_nan y) eqn:Hnan; [discriminate|].
  cbn [Zod.max Zod.min Zod.z_number app flat_map Zod.run_check].
  destruct (PrimFloat.ltb y lo) eqn:E1; [discriminate|].
  destruct (PrimFloat.ltb hi y) eqn:E2; [discriminate|].
  cbn [app]. intros H. injection H as <-. split; [reflexivity|].
  split; apply not_ltb_leb; assumption.
Qed.

Lemma object_accepts (ps : list (string * value)) (la lo : float) :
  prop ps "latitude" = VNum la -> prop ps "longitude" = VNum lo ->
  within (-90) 90 la -> within (-180) 180 lo ->
  weatherToolSchema_parse (VObj ps) = inr {| latitude := la; longitude := lo |}.
Proof.
  intros Hla Hlo Wla Wlo. cbn [weatherToolSchema_parse]. rewrite Hla, Hlo.
  unfold latitude_schema, longitude_schema.
  rewrite (ZodFacts.parse_number_within _ _ _ _ Wla).
  now rewrite (ZodFacts.parse_number_within _ _ _ _ Wlo).
Qed.

End OrderFacts.

Lemma validation_exact_lemma (args : value) (c : WeatherToolInput) :
  weatherToolSchema_parse args = inr c ->
  exists ps,
    args = VObj ps
    /\ prop ps "latitude" = VNum (latitude c)
    /\ prop ps "longitude" = VNum (longitude c)
    /\ within (-90) 90 (latitude c)
    /\ within (-180) 180 (longitude c).
Proof.
  destruct args as [ | | | | | |ps]; try discriminate. cbn [weatherToolSchema_parse].
  destruct (Zod.parse_number latitude_schema _ _) as [i|la] eqn:Hla;
    destruct (Zod.parse_number longitude_schema _ _) as [j|lo] eqn:Hlo;
    try discriminate.
  intros H. injection H as <-. cbn [latitude longitude].
  apply (OrderFacts.parse_number_accepts (-90) 90) in Hla; try reflexivity.
  apply (OrderFacts.parse_number_accepts (-180) 180) in Hlo; try reflexivity.
  destruct Hla as [Hla Wla], Hlo as [Hlo Wlo]. exists ps. auto.
Qed.

(** X8.  [weatherToolSchema.parse] accepts exactly the objects whose
    [latitude] is a Number in [-90, 90] and whose [longitude] is a Number
    in [-180, 180], and what it returns are those two Numbers; other
    properties of the object are ignored, and NaN is refused. *)
Theorem validation_exact (args : value) (c : WeatherToolInput) :
  weatherToolSchema_parse args = inr c
  <-> exists ps,
        args = VObj ps
        /\ prop ps "latitude" = VNum (latitude c)
        /\ prop ps "longitude" = VNum (longitude c)
        /\ within (-90) 90 (latitude c)
        /\ within (-180) 180 (longitude c).
Proof.
  split.
  - apply validation_exact_lemma.
  - intros (ps & -> & Hla & Hlo & Wla & Wlo). destruct c as [la lo].
    exact (OrderFacts.object_accepts ps la lo Hla Hlo Wla Wlo).
Qed.

(** X9.  The schema that [tools/list] advertises for [get_weather] and the
    schema the handler enforces agree: an object passes
    [weatherToolSchema.parse] exactly when every property the descriptor
    lists as [required] is a Number between the [minimum] and [maximum] the
    descriptor gives for it. *)
Theorem descriptor_is_enforced (ps : list (string * value)) :
  (exists c, weatherToolSchema_parse (VObj ps) = inr c) <-> meets_advertised ps.
Proof.
  unfold meets_advertised.
  change advertised_required with ["latitude"; "longitude"].
  split.
  - intros [c Hc]. apply validation_exact_lemma in Hc.
    destruct Hc as (qs & E & Hla & Hlo & Wla & Wlo). injection E as <-.
    repeat constructor.
    + exists (latitude c), (-90)%float, 90%float. auto.
    + exists (longitude c), (-180)%float, 180%float. auto.
  - intros H. inversion H as [|? ? Hla H']; subst. inversion H' as [|? ? Hlo _]; subst.
    destruct Hla as (x & lo & hi & Hr & Hx & Wx).
    destruct Hlo as (y & lo' & hi' & Hr' & Hy & Wy).
    injection Hr as <- <-. injection Hr' as <- <-.
    eexists. exact (OrderFacts.object_accepts ps x y Hx Hy Wx Wy).
Qed.

Module SplitFacts.
Import StrFacts.

Lemma split_app (c : ascii) (a b : string) :
  Str.split c (a ++ String c b) = (Str.split c a ++ Str.split c b)%list.
Proof.
  induction a as [|x r IH].
  - cbn [append Str.split app]. now rewrite Ascii.eqb_refl.
  - cbn [append Str.split]. rewrite IH. destruct (Ascii.eqb x c); [reflexivity|].
    destruct (Str.split c r) as [|w ws] eqn:E; [now apply split_nonempty in E|].
    reflexivity.
Qed.

(** No piece of a split holds the separator. *)
Lemma split_pieces (s : string) :
  Forall (fun line => no_newline line = true) (Str.split (Str.chr 10) s).
Proof.
  induction s as [|x r IH]; [repeat constructor|].
  cbn [Str.split]. destruct (Ascii.eqb x (Str.chr 10)) eqn:E.
  - constructor; [reflexivity | exact IH].
  - destruct (Str.split (Str.chr 10) r) as [|w ws] eqn:E'; [now apply split_nonempty in E'|].
    inversion IH as [|? ? Hw Hws]; subst. constructor; [|exact Hws].
    cbn [no_newline]. now rewrite E, Hw.
Qed.

Lemma request_lines_app (a b : string) :
  request_lines (a ++ nl ++ b) = (request_lines a ++ request_lines b)%list.
Proof.
  unfold request_lines. change (a ++ nl ++ b) with (a ++ String (Str.chr 10) b).
  now rewrite split_app, filter_app.
Qed.

Lemma request_lines_clean (body : string) :
  Forall (fun line => no_newline line = true /\ blank line = false) (request_lines body).
Proof.
  rewrite EndpointFacts.request_lines_nonblank. apply Forall_forall. intros line Hin.
  apply filter_In in Hin as [Hin Hb]. split.
  - exact (proj1 (Forall_forall _ _) (split_pieces body) line Hin).
  - now apply negb_true_iff.
Qed.

Lemma append_assoc (a b c : string) : (a ++ b) ++ c = a ++ b ++ c.
Proof. induction a as [|x r IH]; [reflexivity|]. cbn [append]. now rewrite IH. Qed.

Lemma join_app (r1 r2 : list string) :
  r1 <> [] -> r2 <> [] ->
  Str.join nl (r1 ++ r2) = Str.join nl r1 ++ nl ++ Str.join nl r2.
Proof.
  intros H1 H2. induction r1 as [|x r1 IH]; [contradiction|].
  destruct r1 as [|y r1].
  - destruct r2 as [|z r2]; [contradiction | reflexivity].
  - change (Str.join nl ((x :: y :: r1) ++ r2)) with (x ++ nl ++ Str.join nl ((y :: r1) ++ r2)).
    rewrite IH by discriminate.
    change (Str.join nl (x :: y :: r1)) with (x ++ nl ++ Str.join nl (y :: r1)).
    now rewrite !append_assoc.
Qed.

End SplitFacts.

Module LoopFacts.
Import StrFacts LineFacts HandlerFacts EndpointFacts BatchFacts SplitFacts.

Section Loop.

Variable host : Host.
Variable server_request : value -> Schema -> M value.

#[local] Abbreviation process_lines := (process_lines host server_request).
#[local] Abbreviation post_mcp := (post_mcp host server_request).

Lemma process_lines_from (lines : list string) :
  forall (acc rs : list string) (t t' : list event),
    process_lines lines [] t = (Return rs, t') ->
    process_lines lines acc t = (Return (acc ++ rs)%list, t').
Proof.
  induction lines as [|line rest IH]; intros acc rs t t' H.
  - cbn [Server.process_lines] in *. unfold ret in *. injection H as <- <-.
    now rewrite app_nil_r.
  - cbn [Server.process_lines] in *. unfold bind in *.
    destruct (line_always_answered host server_request line t) as (r & t1 & Hr & _).
    rewrite Hr in *. cbn [app] in H.
    destruct (lines_all_answered host server_request rest [] t1) as (rs0 & t0 & H0 & _).
    cbn [app] in H0.
    rewrite (IH [r] rs0 t1 t0 H0) in H. injection H as <- <-.
    rewrite (IH (acc ++ [r])%list rs0 t1 t0 H0). now rewrite <- app_assoc.
Qed.

Lemma process_lines_app (l1 l2 : list string) :
  forall (acc r1 : list string) (t t1 : list event),
    process_lines l1 acc t = (Return r1, t1) ->
    process_lines (l1 ++ l2) acc t = process_lines l2 r1 t1.
Proof.
  induction l1 as [|line rest IH]; intros acc r1 t t1 H.
  - cbn [Server.process_lines app] in *. unfold ret in H. now injection H as <- <-.
  - cbn [Server.process_lines app] in *. unfold bind in *.
    destruct (process_line host server_request line t) as [[r|e] t0]; [|discriminate H].
    exact (IH _ _ _ _ H).
Qed.

(** What the route returns is decided by the lines it processes. *)
Lemma post_mcp_replies (body : string) (text : string) (t t' : list event) :
  request_lines body <> [] ->
  post_mcp body t = (Return (ndjson_response text), t') ->
  exists replies,
    process_lines (request_lines body) [] t = (Return replies, t')
    /\ text = Str.join nl replies
    /\ List.length replies = List.length (request_lines body)
    /\ Forall (fun r => no_newline r = true) replies.
Proof.
  intros Hne H.
  assert (E : String.eqb body "" = false).
  { destruct body; [contradiction Hne; reflexivity | reflexivity]. }
  rewrite (post_mcp_lines _ _ _ _ E) in H.
  destruct (lines_all_answered host server_request (request_lines body) [] t)
    as (rs & t0 & Hrs & Hlen & Hall).
  cbn [app] in Hrs. rewrite Hrs in H. injection H as <- <-. exists rs. auto.
Qed.

End Loop.

End LoopFacts.

Module LibraryFacts.
Import HandlerFacts EndpointFacts BatchFacts TraceFacts.

(** A line for the library is answered with the parse-error line. *)
Lemma library_line (host : Host) (line : string) (request method : value) (t : list event) :
  JSON.parse line = Some request ->
  get request "method" = Some method ->
  is_string method "tools/list" = true \/ is_string method "tools/call" = true ->
  process_line host server_request line t
  = (Return parse_error_line,
     (t ++ [ConsoleError "Parse error:" (Error "Not connected")])%list).
Proof.
  intros Hparse Hm Hkind.
  assert (Hroute : exists sent s, routed request = Some (sent, s)).
  { unfold routed. rewrite Hm. destruct (is_string method "tools/list"); [eauto|].
    destruct Hkind as [H|H]; [discriminate H|]. rewrite H. eauto. }
  destruct Hroute as (sent & s & Hroute).
  exact (line_failed host server_request line request sent s (Error "Not connected") t t
           Hparse Hroute eq_refl).
Qed.

(** A line adds no outbound request to the trace. *)
Lemma line_fetches (host : Host) (line : string) (t : list event) :
  fetches (snd (process_line host server_request line t)) = fetches t.
Proof.
  assert (Hlog : forall e, fetches (t ++ [ConsoleError "Parse error:" e]) = fetches t).
  { intros e. rewrite fetches_app. cbn [fetches flat_map]. apply app_nil_r. }
  destruct (JSON.parse line) as [request|] eqn:Hparse.
  2:{ rewrite (line_unparsable host server_request _ _ Hparse). apply Hlog. }
  destruct (get request "method") as [m|] eqn:Hm.
  - assert (Hid : exists id, get request "id" = Some id)
      by (unfold get in *; destruct request; try discriminate; eauto).
    destruct Hid as [id Hid].
    destruct (is_string m "tools/list") eqn:Hlist.
    { rewrite (library_line host line request m t Hparse Hm (or_introl Hlist)). apply Hlog. }
    destruct (is_string m "tools/call") eqn:Hcall.
    { rewrite (library_line host line request m t Hparse Hm (or_intror Hcall)). apply Hlog. }
    now rewrite (line_unknown_method host server_request _ _ _ _ _ Hparse Hm Hlist Hcall Hid).
  - unfold process_line, try_catch, dispatch_line, JSON_parse.
    rewrite Hparse, bind_ret. unfold read. rewrite Hm.
    cbn [bind throw console_error emit ret snd]. apply Hlog.
Qed.

Lemma lines_fetches (host : Host) (lines : list string) :
  forall (acc : list string) (t : list event),
    fetches (snd (process_lines host server_request lines acc t)) = fetches t.
Proof.
  induction lines as [|line rest IH]; intros acc t; [reflexivity|].
  cbn [process_lines]. unfold bind.
  pose proof (line_fetches host line t) as Hline.
  destruct (process_line host server_request line t) as [[r|e] t1]; cbn [snd] in Hline.
  - now rewrite IH.
  - exact Hline.
Qed.

End LibraryFacts.

(** X10.  The route hands every line whose [method] is [tools/list] or
    [tools/call] to [server.request], and the server was never connected to
    a transport: the library rejects with the Error [Not connected], which
    the loop writes to the console under [Parse error:] and answers with
    the parse-error line.  Neither the tool list nor a weather report is
    returned for such a line. *)
Theorem library_lines_rejected
        (host : Host) (line : string) (request method : value) (t : list event) :
  JSON.parse line = Some request ->
  get request "method" = Some method ->
  is_string method "tools/list" = true \/ is_string method "tools/call" = true ->
  process_line host server_request line t
  = (Return parse_error_line,
     (t ++ [ConsoleError "Parse error:" (Error "Not connected")])%list).
Proof. exact (LibraryFacts.library_line host line request method t). Qed.

Lemma library_lines_rejected_witness :
  JSON.parse list_line = Some list_line_request
  /\ get list_line_request "method" = Some (VStr "tools/list")
  /\ is_string (VStr "tools/list") "tools/list" = true
  /\ process_line offline server_request list_line []
     = (Return parse_error_line, [ConsoleError "Parse error:" (Error "Not connected")]).
Proof.
  assert (Hparse : JSON.parse list_line = Some list_line_request) by (vm_compute; reflexivity).
  split; [exact Hparse|]. split; [reflexivity|]. split; [reflexivity|].
  exact (library_lines_rejected offline list_line list_line_request (VStr "tools/list") []
           Hparse eq_refl (or_introl eq_refl)).
Defined.

(** X11.  A body that is not empty but holds only blank lines is not refused
    with status 400: the loop has nothing to process and the reply is the
    line-delimited response with an empty text, with nothing requested or
    logged. *)
Theorem blank_body_empty_reply
        (host : Host) (server_request : value -> Schema -> M value)
        (body : string) (t : list event) :
  body <> "" ->
  Forall (fun line => blank line = true) (Str.split (Str.chr 10) body) ->
  post_mcp host server_request body t = (Return (ndjson_response ""), t).
Proof.
  intros Hne Hblank.
  assert (E : String.eqb body "" = false) by now apply String.eqb_neq.
  rewrite (BatchFacts.post_mcp_lines _ _ _ _ E), EndpointFacts.request_lines_nonblank.
  assert (Hnone : filter (fun line => negb (blank line)) (Str.split (Str.chr 10) body) = []).
  { induction Hblank as [|x l Hx Hl IH]; [reflexivity|]. cbn [filter]. now rewrite Hx. }
  now rewrite Hnone.
Qed.

Lemma blank_body_empty_reply_witness :
  let body := "  " ++ nl ++ Str.str1 9 ++ nl in
  body <> ""
  /\ Forall (fun line => blank line = true) (Str.split (Str.chr 10) body)
  /\ post_mcp offline server_request body []
     = (Return (ndjson_response ""), []).
Proof.
  intros body.
  assert (Hne : body <> "") by discriminate.
  assert (Hb : Forall (fun line => blank line = true) (Str.split (Str.chr 10) body))
    by (repeat constructor).
  split; [exact Hne|]. split; [exact Hb|].
  exact (blank_body_empty_reply offline _ body [] Hne Hb).
Defined.

(** X12.  Processing is line by line: when two bodies each hold a line that
    is not blank, the reply to the first, a line feed, the second is the
    reply to the first, a line feed, the reply to the second, the second
    processed after the first. *)
Theorem batch_concatenation
        (host : Host) (server_request : value -> Schema -> M value)
        (a b ra rb : string) (t t1 t2 : list event) :
  request_lines a <> [] ->
  request_lines b <> [] ->
  post_mcp host server_request a t = (Return (ndjson_response ra), t1) ->
  post_mcp host server_request b t1 = (Return (ndjson_response rb), t2) ->
  post_mcp host server_request (a ++ nl ++ b) t
  = (Return (ndjson_response (ra ++ nl ++ rb)), t2).
Proof.
  intros Ha Hb Pa Pb.
  destruct (LoopFacts.post_mcp_replies host server_request a ra t t1 Ha Pa)
    as (rsa & Hrsa & -> & Hla & _).
  destruct (LoopFacts.post_mcp_replies host server_request b rb t1 t2 Hb Pb)
    as (rsb & Hrsb & -> & Hlb & _).
  rewrite BatchFacts.post_mcp_lines by apply BatchFacts.append_not_empty.
  rewrite SplitFacts.request_lines_app.
  rewrite (LoopFacts.process_lines_app host server_request _ _ _ _ _ _ Hrsa).
  rewrite (LoopFacts.process_lines_from host server_request _ rsa rsb t1 t2 Hrsb).
  rewrite SplitFacts.join_app; [reflexivity | |].
  - intros ->. destruct (request_lines a); [contradiction | discriminate Hla].
  - intros ->. destruct (request_lines b); [contradiction | discriminate Hlb].
Qed.

Lemma batch_concatenation_witness :
  let host := Sample.upstream 200 "OK" Sample.clear_sky_text in
  let library := server_request in
  let t1 := [ConsoleError "Parse error:" (SyntaxError "Unexpected token")] in
  request_lines Sample.broken_line <> []
  /\ request_lines Sample.unknown_line <> []
  /\ post_mcp host library Sample.broken_line [] = (Return (ndjson_response parse_error_line), t1)
  /\ post_mcp host library Sample.unknown_line t1
     = (Return (ndjson_response Sample.unknown_reply), t1)
  /\ post_mcp host library (Sample.broken_line ++ nl ++ Sample.unknown_line) []
     = (Return (ndjson_response (parse_error_line ++ nl ++ Sample.unknown_reply)), t1).
Proof.
  intros host library t1.
  assert (Ha : request_lines Sample.broken_line <> []) by (vm_compute; discriminate).
  assert (Hb : request_lines Sample.unknown_line <> []) by (vm_compute; discriminate).
  assert (Pa : post_mcp host library Sample.broken_line []
               = (Return (ndjson_response parse_error_line), t1)) by (vm_compute; reflexivity).
  assert (Pb : post_mcp host library Sample.unknown_line t1
               = (Return (ndjson_response Sample.unknown_reply), t1))
    by (vm_compute; reflexivity).
  split; [exact Ha|]. split; [exact Hb|]. split; [exact Pa|]. split; [exact Pb|].
  exact (batch_concatenation host library _ _ _ _ [] t1 t1 Ha Hb Pa Pb).
Defined.

(** X13.  The reply to a body with at least one line that is not blank can be
    taken apart again: splitting its text at the line feeds gives back the
    replies, one for each processed line of the request. *)
Theorem reply_splits_into_lines
        (host : Host) (server_request : value -> Schema -> M value)
        (body : string) (t : list event) :
  request_lines body <> [] ->
  exists replies t',
    post_mcp host server_request body t = (Return (ndjson_response (Str.join nl replies)), t')
    /\ Str.split (Str.chr 10) (Str.join nl replies) = replies
    /\ List.length replies = List.length (request_lines body).
Proof.
  intros Hne.
  assert (E : String.eqb body "" = false).
  { destruct body; [contradiction Hne; reflexivity | reflexivity]. }
  rewrite (BatchFacts.post_mcp_lines _ _ _ _ E).
  destruct (EndpointFacts.lines_all_answered host server_request (request_lines body) [] t)
    as (rs & t' & -> & Hlen & Hall).
  cbn [app]. exists rs, t'. split; [reflexivity|]. split; [|exact Hlen].
  destruct rs as [|r rs]; [|exact (StrFacts.split_join r rs Hall)].
  destruct (request_lines body); [contradiction | discriminate Hlen].
Qed.

Lemma reply_splits_into_lines_witness :
  let host := Sample.upstream 200 "OK" Sample.clear_sky_text in
  let body := Sample.sf_line ++ nl ++ Sample.broken_line in
  request_lines body <> []
  /\ exists replies t',
       post_mcp host server_request body []
       = (Return (ndjson_response (Str.join nl replies)), t')
       /\ Str.split (Str.chr 10) (Str.join nl replies) = replies
       /\ List.length replies = 2%nat.
Proof.
  intros host body.
  assert (Hlines : request_lines body = [Sample.sf_line; Sample.broken_line])
    by (vm_compute; reflexivity).
  assert (Hne : request_lines body <> []) by (rewrite Hlines; discriminate).
  split; [exact Hne|].
  destruct (reply_splits_into_lines host server_request body [] Hne)
    as (replies & t' & Hpost & Hsplit & Hlen).
  exists replies, t'. rewrite Hlines in Hlen. auto.
Defined.

(** X14.  Blank lines carry no information: rewriting a body as its lines
    that are not blank, joined by line feeds, keeps the lines the loop
    processes and, when there are any, the whole response and trace. *)
Theorem blank_lines_do_not_matter
        (host : Host) (server_request : value -> Schema -> M value)
        (body : string) (t : list event) :
  request_lines (Str.join nl (request_lines body)) = request_lines body
  /\ (request_lines body <> [] ->
      post_mcp host server_request (Str.join nl (request_lines body)) t
      = post_mcp host server_request body t).
Proof.
  pose proof (SplitFacts.request_lines_clean body) as Hclean.
  assert (Hsame : request_lines (Str.join nl (request_lines body)) = request_lines body).
  { destruct (request_lines body) as [|x xs] eqn:E; [reflexivity|].
    rewrite EndpointFacts.request_lines_nonblank.
    rewrite (StrFacts.split_join x xs)
      by (eapply Forall_impl; [|exact Hclean]; cbn beta; tauto).
    apply forallb_filter_id. apply forallb_forall. intros l Hin.
    apply negb_true_iff. exact (proj2 (proj1 (Forall_forall _ _) Hclean l Hin)). }
  split; [exact Hsame|]. intros Hne.
  assert (E : String.eqb body "" = false).
  { destruct body; [contradiction Hne; reflexivity | reflexivity]. }
  assert (E' : String.eqb (Str.join nl (request_lines body)) "" = false).
  { destruct (Str.join nl (request_lines body)) eqn:J; [|reflexivity].
    cbn in Hsame. congruence. }
  now rewrite (BatchFacts.post_mcp_lines _ _ _ _ E), (BatchFacts.post_mcp_lines _ _ _ _ E'), Hsame.
Qed.

(** X15.  A line of JSON text whose [method] is neither [tools/list] nor
    [tools/call] (or is missing, as for a number or an array) is answered
    with the method-not-found response wrapped as the [result] of
    [{jsonrpc, id, result}], and nothing is requested or logged.  When the
    line has no [id] both objects lose the member: the reply is
    [{jsonrpc, result: {jsonrpc, error}}]. *)
Theorem unknown_method_answered
        (host : Host) (server_request : value -> Schema -> M value)
        (line : string) (request method id : value) (t : list event) :
  JSON.parse line = Some request ->
  get request "method" = Some method ->
  is_string method "tools/list" = false ->
  is_string method "tools/call" = false ->
  get request "id" = Some id ->
  process_line host server_request line t
  = (Return (JSON.stringify (responseData id (method_not_found id))), t)
  /\ JSON.stringify (responseData VUndefined (method_not_found VUndefined))
     = Str.dq ("{'jsonrpc':'2.0','result':"
               ++ "{'jsonrpc':'2.0','error':{'code':-32601,'message':'Method not found'}}}").
Proof.
  intros Hparse Hm Hlist Hcall Hid. split; [|vm_compute; reflexivity].
  exact (EndpointFacts.line_unknown_method host server_request line request method id t
           Hparse Hm Hlist Hcall Hid).
Qed.

Lemma unknown_method_answered_witness :
  JSON.parse "5" = Some (VNum 5)
  /\ get (VNum 5) "method" = Some VUndefined
  /\ is_string VUndefined "tools/list" = false
  /\ is_string VUndefined "tools/call" = false
  /\ get (VNum 5) "id" = Some VUndefined
  /\ process_line offline server_request "5" []
     = (Return (JSON.stringify (responseData VUndefined (method_not_found VUndefined))), []).
Proof.
  assert (Hparse : JSON.parse "5" = Some (VNum 5)) by (vm_compute; reflexivity).
  split; [exact Hparse|]. split; [reflexivity|]. split; [reflexivity|].
  split; [reflexivity|]. split; [reflexivity|].
  exact (proj1 (unknown_method_answered offline server_request
                  "5" (VNum 5) VUndefined VUndefined [] Hparse eq_refl eq_refl eq_refl eq_refl)).
Defined.

(** X16.  The line [null] is JSON text, yet it is answered like a line that
    is not: reading [method] from [null] throws a TypeError inside the
    [try] block of the loop, which is logged under [Parse error:] and
    answered with the parse-error line. *)
Theorem null_line_is_parse_error
        (host : Host) (server_request : value -> Schema -> M value)
        (line : string) (request : value) (t : list event) :
  JSON.parse line = Some request ->
  nullish request = true ->
  process_line host server_request line t
  = (Return parse_error_line,
     (t ++ [ConsoleError "Parse error:" (TypeError (cannot_read host request "method"))])%list).
Proof.
  intros Hparse Hn.
  unfold process_line, try_catch, dispatch_line, JSON_parse.
  rewrite Hparse, HandlerFacts.bind_ret. unfold read.
  rewrite (QuietFacts.nullish_no_get _ "method" Hn).
  cbn [bind throw console_error emit ret]. now rewrite EndpointFacts.errorResponse_text.
Qed.

Lemma null_line_is_parse_error_witness :
  JSON.parse "null" = Some VNull
  /\ nullish VNull = true
  /\ process_line offline server_request "null" []
     = (Return parse_error_line,
        [ConsoleError "Parse error:"
           (TypeError "Cannot read properties (reading 'method')")]).
Proof.
  assert (Hparse : JSON.parse "null" = Some VNull) by (vm_compute; reflexivity).
  split; [exact Hparse|]. split; [reflexivity|].
  exact (null_line_is_parse_error offline server_request
           "null" VNull [] Hparse eq_refl).
Defined.

Module RouteFacts.
Import HandlerFacts QuietFacts.
Local Open Scope eff_scope.

Lemma truthy_string (s : string) : truthy (VStr s) = true <-> s <> "".
Proof.
  destruct s; cbn; split; intros H; try reflexivity; try discriminate; congruence.
Qed.

Lemma response_json_trace (host : Host) (r : Response) (t : list event) :
  snd (response_json host r t) = t.
Proof. unfold response_json. now destruct (JSON.parse (body r)). Qed.

Lemma test_summary_trace (host : Host) (data : value) (lat lon : string) (t : list event) :
  snd (test_summary host data lat lon t) = t.
Proof.
  revert t. unfold test_summary.
  repeat (apply bind_trace; [intros t; try apply read_trace; try apply read0_trace | intros ? ]).
  - destruct (nullish _); [reflexivity | apply read_trace].
  - reflexivity.
Qed.

(** After an upstream success status, the rest of the [try] block of
    [/test-weather] adds nothing to the trace. *)
Lemma test_rest_trace (host : Host) (r : Response) (lat lon : string) (t : list event) :
  snd ((data <- response_json host r ;;
        summary <- test_summary host data lat lon ;;
        ret (json_response summary 200)) t) = t.
Proof.
  revert t. apply bind_trace; [apply response_json_trace|]. intros data.
  apply bind_trace; [apply test_summary_trace|]. reflexivity.
Qed.

Lemma test_try_resolved (host : Host) (key lat lon : string) (r : Response) (t : list event) :
  fetch host t (test_url key lat lon) = Resolved r ->
  test_weather_try host key lat lon t
  = ((if negb (ok r)
      then throw (Error ("Weather API returned " ++ Str.of_N (status r)))
      else ret tt) ;;;
     data <- response_json host r ;;
     summary <- test_summary host data lat lon ;;
     ret (json_response summary 200)) (t ++ [Fetch (test_url key lat lon)])%list.
Proof.
  intros Hfetch. unfold test_weather_try. unfold bind at 1. unfold do_fetch.
  now rewrite Hfetch.
Qed.

Lemma test_try_rejected (host : Host) (key lat lon : string) (e : exn) (t : list event) :
  fetch host t (test_url key lat lon) = Rejected e ->
  test_weather_try host key lat lon t = (Throw e, (t ++ [Fetch (test_url key lat lon)])%list).
Proof.
  intros Hfetch. unfold test_weather_try. unfold bind at 1. unfold do_fetch.
  now rewrite Hfetch.
Qed.

(** The [try] block sends one request and records nothing else. *)
Lemma test_try_trace (host : Host) (key lat lon : string) (t : list event) :
  snd (test_weather_try host key lat lon t) = (t ++ [Fetch (test_url key lat lon)])%list.
Proof.
  destruct (fetch host t (test_url key lat lon)) as [e|r] eqn:Hfetch.
  - now rewrite (test_try_rejected _ _ _ _ _ _ Hfetch).
  - rewrite (test_try_resolved _ _ _ _ _ _ Hfetch).
    destruct (negb (ok r)); [reflexivity|].
    exact (test_rest_trace host r lat lon _).
Qed.

(** A process serves exactly when the environment holds a non-empty key. *)
Lemma serving_key (env : string -> option string) (key : string) :
  start env = Serving key <-> (env "OPENWEATHER_API_KEY" = Some key /\ key <> "").
Proof.
  unfold start, load_module. split.
  - destruct (env "OPENWEATHER_API_KEY") as [k|]; [|discriminate].
    destruct (truthy (VStr k)) eqn:T; [|discriminate].
    intros H. injection H as <-. split; [reflexivity|]. now apply truthy_string.
  - intros [-> Hne]. apply truthy_string in Hne. now rewrite Hne.
Qed.

End RouteFacts.

(** C8.  When the environment has no [OPENWEATHER_API_KEY] (or an empty
    one), evaluating the module throws the Error [OPENWEATHER_API_KEY
    environment variable is required] and exports no [handler]: no route
    exists that could serve a request.  When the module does export its [handler], the environment
    held a key at that moment, and every request served afterwards,
    whenever it comes, is served with that key: the handler is the routes
    of [app] over it, [GET /test-weather] sends it upstream as [appid], and
    [GET /health] reports that there is one. *)
Theorem missing_key_is_fatal (host : Host) (env : string -> option string) :
  (env "OPENWEATHER_API_KEY" = None \/ env "OPENWEATHER_API_KEY" = Some "" ->
   load_module env = Throw (Error "OPENWEATHER_API_KEY environment variable is required")
   /\ Program.handler host env
      = Throw (Error "OPENWEATHER_API_KEY environment variable is required"))
  /\ (forall serve,
        Program.handler host env = Return serve ->
        exists key,
          env "OPENWEATHER_API_KEY" = Some key
          /\ load_module env = Return key
          /\ serve = Program.app host key
          /\ (forall lat lon t,
                snd (serve (Program.GET_test_weather lat lon) t)
                = (t ++ [Fetch ("https://api.openweathermap.org/data/2.5/weather?lat="
                                ++ query_or lat "37.7749" ++ "&lon="
                                ++ query_or lon "-122.4194"
                                ++ "&appid=" ++ key ++ "&units=metric")])%list)
          /\ (forall now t,
                exists reply,
                  serve (Program.GET_health now) t = (Return (json_response reply 200), t)
                  /\ get reply "hasApiKey" = Some (VBool true))).
Proof.
  split.
  - intros [Henv|Henv]; unfold Program.handler, load_module; rewrite Henv;
      split; reflexivity.
  - intros serve Hload. unfold Program.handler in Hload.
    destruct (load_module env) as [key|e] eqn:Hkey; [|discriminate Hload].
    injection Hload as <-. exists key.
    assert (Hserving : start env = Serving key) by (unfold start; now rewrite Hkey).
    apply RouteFacts.serving_key in Hserving. destruct Hserving as [Henv Hne].
    split; [exact Henv|]. split; [reflexivity|]. split; [reflexivity|]. split.
    + intros lat lon t. cbn [Program.app]. unfold get_test_weather, try_catch.
      pose proof (RouteFacts.test_try_trace host key (query_or lat "37.7749")
                    (query_or lon "-122.4194") t) as Htrace.
      destruct (test_weather_try host key _ _ t) as [[r|e] t'];
        cbn [snd] in Htrace; subst t'; reflexivity.
    + intros now t. cbn [Program.app]. unfold get_health, ret.
      apply RouteFacts.truthy_string in Hne. rewrite Hne.
      eexists. split; reflexivity.
Qed.

Lemma missing_key_is_fatal_witness :
  let host := Sample.upstream 200 "OK" mist_text in
  let empty := fun _ : string => @None string in
  let configured :=
    fun name => if String.eqb name "OPENWEATHER_API_KEY" then Some "test-key" else None in
  Program.handler host empty
  = Throw (Error "OPENWEATHER_API_KEY environment variable is required")
  /\ exists serve,
       Program.handler host configured = Return serve
       /\ snd (serve (Program.GET_test_weather None None) [])
          = [Fetch ("https://api.openweathermap.org/data/2.5/weather?lat=37.7749"
                    ++ "&lon=-122.4194&appid=test-key&units=metric")].
Proof.
  intros host empty configured. split.
  - exact (proj2 (proj1 (missing_key_is_fatal host empty) (or_introl eq_refl))).
  - exists (Program.app host "test-key").
    assert (Hload : Program.handler host configured = Return (Program.app host "test-key"))
      by reflexivity.
    split; [exact Hload|].
    destruct (proj2 (missing_key_is_fatal host configured) _ Hload)
      as (key & Henv & _ & _ & Hurl & _).
    injection Henv as <-.
    exact (Hurl None None []).
Defined.


(** X17.  The module loads exactly when the environment holds a non-empty
    [OPENWEATHER_API_KEY], and then serves with that key; it fails with
    the error [OPENWEATHER_API_KEY environment variable is required]
    exactly when the variable is missing or is the empty string. *)
Theorem startup_iff_key (env : string -> option string) (key : string) :
  (start env = Serving key <-> (env "OPENWEATHER_API_KEY" = Some key /\ key <> ""))
  /\ (start env = Failed (Error "OPENWEATHER_API_KEY environment variable is required")
      <-> (env "OPENWEATHER_API_KEY" = None \/ env "OPENWEATHER_API_KEY" = Some "")).
Proof.
  split; [apply RouteFacts.serving_key|].
  unfold start, load_module.
  destruct (env "OPENWEATHER_API_KEY") as [k|]; [|split; auto].
  destruct k; cbn; split; intros H; try discriminate H; auto.
  destruct H as [H|H]; discriminate H.
Qed.

(** X18.  In a process that loaded, [GET /health] answers with status 200 and
    [hasApiKey: true]: the route cannot report a missing key, since a
    process without one never gets to register it. *)
Theorem health_reports_key (env : string -> option string) (key now : string) :
  start env = Serving key ->
  get_health key now
  = json_response
      (VObj [("status", VStr "healthy");
             ("timestamp", VStr now);
             ("service", VStr "mcp-weather-server");
             ("version", VStr "1.0.0");
             ("hasApiKey", VBool true)])
      200.
Proof.
  intros H. apply RouteFacts.serving_key in H. destruct H as [_ Hne].
  apply RouteFacts.truthy_string in Hne. unfold get_health. now rewrite Hne.
Qed.

Lemma health_reports_key_witness :
  let env := fun name => if String.eqb name "OPENWEATHER_API_KEY" then Some Sample.api_key
                         else None in
  start env = Serving Sample.api_key
  /\ JSON.stringify (match get_health Sample.api_key "2026-01-01T00:00:00.000Z" with
                     | json_response v _ => v
                     | ndjson_response _ => VUndefined
                     end)
     = Str.dq ("{'status':'healthy','timestamp':'2026-01-01T00:00:00.000Z',"
               ++ "'service':'mcp-weather-server','version':'1.0.0','hasApiKey':true}").
Proof.
  intros env.
  assert (Hs : start env = Serving Sample.api_key) by reflexivity.
  split; [exact Hs|].
  rewrite (health_reports_key env Sample.api_key "2026-01-01T00:00:00.000Z" Hs).
  vm_compute. reflexivity.
Defined.

(** X19.  [GET /test-weather] never throws: it answers with status 200 or
    500, and sends exactly one outbound request, to the older upstream
    endpoint, with the query parameters [lat] and [lon] copied into the URL
    as they came (missing or empty ones replaced by the coordinates of San
    Francisco) and no validation. *)
Theorem test_weather_one_request
        (host : Host) (key : string) (qlat qlon : option string) (t : list event) :
  exists v code,
    get_test_weather host key qlat qlon t
    = (Return (json_response v code),
       (t ++ [Fetch (test_url key (query_or qlat "37.7749") (query_or qlon "-122.4194"))])%list)
    /\ (code = 200%N \/ code = 500%N).
Proof.
  unfold get_test_weather, try_catch.
  pose proof (RouteFacts.test_try_trace host key (query_or qlat "37.7749")
                (query_or qlon "-122.4194") t) as Htrace.
  destruct (test_weather_try host key _ _ t) as [[r|e] t'] eqn:E; cbn [snd] in Htrace; subst t'.
  - assert (exists v, r = json_response v 200) as [v ->].
    { revert E. destruct (fetch host t (test_url key (query_or qlat "37.7749")
                                          (query_or qlon "-122.4194"))) as [e|resp] eqn:Hf.
      - rewrite (RouteFacts.test_try_rejected _ _ _ _ _ _ Hf). discriminate.
      - rewrite (RouteFacts.test_try_resolved _ _ _ _ _ _ Hf).
        destruct (negb (ok resp)); [discriminate|].
        unfold bind, response_json, throw.
        destruct (JSON.parse (body resp)); [|discriminate].
        unfold ret. cbv beta iota.
        match goal with
        | |- context [test_summary ?h ?d ?a ?b ?u] =>
          destruct (test_summary h d a b u) as [[s|e] t']
        end; [|discriminate].
        intros H. injection H as <-. eauto. }
    do 2 eexists. split; [reflexivity|]. now left.
  - do 2 eexists. split; [reflexivity|]. now right.
Qed.

(** X20.  When the upstream answers [/test-weather]'s request with a status
    outside 200-299, the route answers with status 500 and
    [{success: false, error: 'Weather API returned <status>'}]; unlike the
    tool, it leaves the status text out and writes nothing to the
    console. *)
Theorem test_weather_upstream_status
        (host : Host) (key : string) (qlat qlon : option string) (r : Response)
        (t : list event) :
  let url := test_url key (query_or qlat "37.7749") (query_or qlon "-122.4194") in
  fetch host t url = Resolved r ->
  ok r = false ->
  get_test_weather host key qlat qlon t
  = (Return (json_response
               (VObj [("success", VBool false);
                      ("error", VStr ("Weather API returned " ++ Str.of_N (status r)))])
               500),
     (t ++ [Fetch url])%list).
Proof.
  intros url Hfetch Hok. unfold get_test_weather, try_catch.
  rewrite (RouteFacts.test_try_resolved _ _ _ _ _ _ Hfetch), Hok. reflexivity.
Qed.

Lemma test_weather_upstream_status_witness :
  let host := Sample.upstream 401 "Unauthorized" "{}" in
  let r := {| status := 401; statusText := "Unauthorized"; body := "{}" |} in
  fetch host [] (test_url Sample.api_key "37.7749" "-122.4194") = Resolved r
  /\ ok r = false
  /\ get_test_weather host Sample.api_key None None []
     = (Return (json_response
                  (VObj [("success", VBool false);
                         ("error", VStr "Weather API returned 401")])
                  500),
        [Fetch (test_url Sample.api_key "37.7749" "-122.4194")]).
Proof.
  intros host r.
  assert (Hf : fetch host [] (test_url Sample.api_key (query_or None "37.7749")
                                (query_or None "-122.4194")) = Resolved r) by reflexivity.
  split; [exact Hf|]. split; [reflexivity|].
  exact (test_weather_upstream_status host Sample.api_key None None r [] Hf eq_refl).
Defined.

(** X21.  When the outbound request of [/test-weather] fails, the route
    answers with status 500 and [{success: false, error}], where [error] is
    the exception's message, or [Unknown error] when what was thrown is no
    Error. *)
Theorem test_weather_network_failure
        (host : Host) (key : string) (qlat qlon : option string) (e : exn) (t : list event) :
  let url := test_url key (query_or qlat "37.7749") (query_or qlon "-122.4194") in
  fetch host t url = Rejected e ->
  get_test_weather host key qlat qlon t
  = (Return (json_response
               (VObj [("success", VBool false);
                      ("error", VStr (if instanceof_Error e then message_of host e
                                      else "Unknown error"))])
               500),
     (t ++ [Fetch url])%list).
Proof.
  intros url Hfetch. unfold get_test_weather, try_catch.
  now rewrite (RouteFacts.test_try_rejected _ _ _ _ _ _ Hfetch).
Qed.

Lemma test_weather_network_failure_witness :
  fetch offline [] (test_url Sample.api_key "10" "-122.4194") = Rejected (TypeError "fetch failed")
  /\ get_test_weather offline Sample.api_key (Some "10") (Some "") []
     = (Return (json_response
                  (VObj [("success", VBool false); ("error", VStr "fetch failed")])
                  500),
        [Fetch (test_url Sample.api_key "10" "-122.4194")]).
Proof.
  assert (Hf : fetch offline [] (test_url Sample.api_key (query_or (Some "10") "37.7749")
                                   (query_or (Some "") "-122.4194"))
               = Rejected (TypeError "fetch failed")) by reflexivity.
  split; [exact Hf|].
  exact (test_weather_network_failure offline Sample.api_key (Some "10") (Some "")
           (TypeError "fetch failed") [] Hf).
Defined.

(** X22.  When the upstream answers [/test-weather]'s request with a success
    status and a payload that has [weather], [main] and [wind], the route
    answers with status 200 and [{success: true, location, weather}]: the
    location is [parseFloat] of the query texts, and the description,
    temperature, humidity and wind speed are passed on as they came, with
    no rounding and no [Unknown] default. *)
Theorem test_weather_success
        (host : Host) (key : string) (qlat qlon : option string) (r : Response)
        (data weather first main wind temp hum speed d : value) (t : list event) :
  let lat := query_or qlat "37.7749" in
  let lon := query_or qlon "-122.4194" in
  fetch host t (test_url key lat lon) = Resolved r ->
  ok r = true ->
  JSON.parse (body r) = Some data ->
  get data "weather" = Some weather ->
  get0 weather = Some first ->
  (if nullish first then Some VUndefined else get first "description") = Some d ->
  get data "main" = Some main ->
  get main "temp" = Some temp ->
  get main "humidity" = Some hum ->
  get data "wind" = Some wind ->
  get wind "speed" = Some speed ->
  get_test_weather host key qlat qlon t
  = (Return (json_response
               (VObj [("success", VBool true);
                      ("location", VObj [("latitude", VNum (parseFloat lat));
                                         ("longitude", VNum (parseFloat lon))]);
                      ("weather", VObj [("description", d);
                                        ("temperature", temp);
                                        ("humidity", hum);
                                        ("windSpeed", speed)])])
               200),
     (t ++ [Fetch (test_url key lat lon)])%list).
Proof.
  intros lat lon Hfetch Hok Hparse Hw H0 Hd Hmain Htemp Hhum Hwind Hspeed.
  unfold get_test_weather, try_catch. fold lat lon.
  rewrite (RouteFacts.test_try_resolved _ _ _ _ _ _ Hfetch), Hok. cbn [negb].
  unfold response_json. rewrite Hparse.
  rewrite !HandlerFacts.bind_ret. unfold test_summary.
  rewrite (HandlerFacts.read_some _ _ _ _ Hw), HandlerFacts.bind_ret.
  unfold read0. rewrite H0, HandlerFacts.bind_ret.
  assert (Hread : (if nullish first then ret VUndefined else read host first "description")
                  = ret d).
  { destruct (nullish first); [now injection Hd as <-|].
    exact (HandlerFacts.read_some _ _ _ _ Hd). }
  rewrite Hread, HandlerFacts.bind_ret.
  rewrite (HandlerFacts.read_some _ _ _ _ Hmain), HandlerFacts.bind_ret.
  rewrite (HandlerFacts.read_some _ _ _ _ Htemp), HandlerFacts.bind_ret.
  rewrite (HandlerFacts.read_some _ _ _ _ Hhum), HandlerFacts.bind_ret.
  rewrite (HandlerFacts.read_some _ _ _ _ Hwind), HandlerFacts.bind_ret.
  rewrite (HandlerFacts.read_some _ _ _ _ Hspeed), HandlerFacts.bind_ret.
  reflexivity.
Qed.

Lemma test_weather_success_witness :
  let host := Sample.upstream 200 "OK" mist_text in
  let r := {| status := 200; statusText := "OK"; body := mist_text |} in
  fetch host [] (test_url Sample.api_key "95.5abc" "-122.4194") = Resolved r
  /\ ok r = true
  /\ JSON.parse (body r) = Some mist
  /\ get_test_weather host Sample.api_key (Some "95.5abc") None []
     = (Return (json_response
                  (VObj [("success", VBool true);
                         ("location", VObj [("latitude", VNum 95.5);
                                            ("longitude", VNum (-122.4194))]);
                         ("weather", VObj [("description", VStr "mist");
                                           ("temperature", VNum 11.3);
                                           ("humidity", VNum 93);
                                           ("windSpeed", VNum 4.1)])])
                  200),
        [Fetch (test_url Sample.api_key "95.5abc" "-122.4194")]).
Proof.
  intros host r.
  assert (Hf : fetch host [] (test_url Sample.api_key (query_or (Some "95.5abc") "37.7749")
                                (query_or None "-122.4194")) = Resolved r) by reflexivity.
  assert (Hp : JSON.parse (body r) = Some mist) by (vm_compute; reflexivity).
  split; [exact Hf|]. split; [reflexivity|]. split; [exact Hp|].
  assert (Hlat : parseFloat "95.5abc" = 95.5%float) by (vm_compute; reflexivity).
  assert (Hlon : parseFloat "-122.4194" = (-122.4194)%float) by (vm_compute; reflexivity).
  rewrite <- Hlat, <- Hlon.
  exact (test_weather_success host Sample.api_key (Some "95.5abc") None r mist
           (VArr [VObj [("description", VStr "mist")]])
           (VObj [("description", VStr "mist")])
           (VObj [("temp", VNum 11.3); ("humidity", VNum 93)])
           (VObj [("speed", VNum 4.1)])
           (VNum 11.3) (VNum 93) (VNum 4.1) (VStr "mist") []
           Hf eq_refl Hp eq_refl eq_refl eq_refl eq_refl eq_refl eq_refl eq_refl eq_refl).
Defined.

(** X26.  [POST /mcp] never reaches the upstream: whatever the body, the
    route sends no outbound request.  The only code of the module that
    fetches on behalf of a tool call is the handler registered for
    [tools/call], and the route, which goes through [server.request],
    never runs it. *)
Theorem route_never_fetches (host : Host) (body : string) (t : list event) :
  fetches (snd (post_mcp host server_request body t)) = fetches t.
Proof.
  destruct (String.eqb body "") eqn:E.
  - apply String.eqb_eq in E. now subst body.
  - rewrite (BatchFacts.post_mcp_lines _ _ _ _ E).
    pose proof (LibraryFacts.lines_fetches host (request_lines body) [] t) as H.
    destruct (process_lines host server_request (request_lines body) [] t) as [[rs|e] t'];
      cbn [snd] in *; [exact H|].
    rewrite TraceFacts.fetches_app. cbn [fetches flat_map]. now rewrite app_nil_r.
Qed.

(** X27.  A value of the payload that cannot be converted makes the call
    fail after the request went out.  A temperature with no Number stops
    the report at the multiplication; a humidity with no string stops the
    template, although the report was built.  Either way the TypeError of
    the conversion is written to the console under [Weather API Error:] and
    reported as the McpError [InternalError] with the TypeError's message;
    no text is returned. *)
Theorem unconvertible_value_reported
        (host : Host) (key : string) (request args : value) (c : WeatherToolInput)
        (data current weather first temp hum wind : value) (t : list event) :
  calls_get_weather request args ->
  weatherToolSchema_parse args = inr c ->
  upstream_replies host key t c data ->
  get data "current" = Some current ->
  get current "weather" = Some weather ->
  get0 weather = Some first ->
  get current "temp" = Some temp ->
  get current "humidity" = Some hum ->
  get current "wind_speed" = Some wind ->
  let failed (v : value) :=
    (Throw (McpError InternalError
              ("Error fetching weather data: " ++ cannot_convert host v)),
     (t ++ [Fetch (weather_url key c);
            ConsoleError "Weather API Error:" (TypeError (cannot_convert host v))])%list) in
  (ToNumber temp = None -> call_tool_handler host key request t = failed temp)
  /\ (forall x y d,
        ToNumber temp = Some x ->
        ToNumber wind = Some y ->
        ToString (shown_description first) = Some d ->
        ToString hum = None ->
        call_tool_handler host key request t = failed hum).
Proof.
  intros Hcall Hparse (r & Hfetch & Hok & Hjson) Hcur Hw Hfirst Htemp Hhum Hwind failed.
  assert (Hdesc : exists v, (if nullish first then ret VUndefined
                             else read host first "description") = ret v
                            /\ shown_description first = if truthy v then v else VStr "Unknown").
  { unfold shown_description. destruct (nullish first) eqn:Hnull; [eauto|].
    assert (Hv : exists v, get first "description" = Some v)
      by (destruct first; try discriminate Hnull; cbn [get]; eauto).
    destruct Hv as [v Hv]. exists v. rewrite Hv.
    split; [exact (HandlerFacts.read_some _ _ _ _ Hv) | reflexivity]. }
  destruct Hdesc as (v & Hv & Hshown).
  assert (Hrun : get_weather host key args t
                 = (data' <- response_json host r ;;
                    weather <- build_report host data' c ;;
                    text <- render host weather ;;
                    ret (text_content text))%eff (t ++ [Fetch (weather_url key c)])%list)
    by exact (HandlerCover.answered_ok host key _ _ _ _ Hparse Hfetch Hok).
  unfold response_json in Hrun. rewrite Hjson, HandlerFacts.bind_ret in Hrun.
  unfold build_report in Hrun.
  rewrite (HandlerFacts.read_some _ _ _ _ Hcur), HandlerFacts.bind_ret in Hrun.
  rewrite (HandlerFacts.read_some _ _ _ _ Hw), HandlerFacts.bind_ret in Hrun.
  unfold read0 in Hrun. rewrite Hfirst, HandlerFacts.bind_ret, Hv in Hrun.
  rewrite HandlerFacts.bind_ret in Hrun.
  rewrite (HandlerFacts.read_some _ _ _ _ Htemp), HandlerFacts.bind_ret in Hrun.
  assert (Hzod : forall u issues, TypeError u <> ZodError issues) by discriminate.
  rewrite (HandlerFacts.handler_enters_try host key _ _ Hcall).
  unfold try_catch. rewrite Hrun. clear Hrun.
  split.
  - intros Hx. unfold to_number. rewrite Hx. unfold bind, throw.
    rewrite (HandlerCover.on_error_internal host _ _ (Hzod _)).
    subst failed. cbn beta iota. cbn [instanceof_Error message_of]. now rewrite <- app_assoc.
  - intros x y d Hx Hy Hd Hh.
    rewrite (HandlerFacts.to_number_some _ _ _ Hx), HandlerFacts.bind_ret.
    rewrite (HandlerFacts.read_some _ _ _ _ Hhum), HandlerFacts.bind_ret.
    rewrite (HandlerFacts.read_some _ _ _ _ Hwind), HandlerFacts.bind_ret.
    rewrite (HandlerFacts.to_number_some _ _ _ Hy), !HandlerFacts.bind_ret.
    unfold render. cbn [description humidity]. rewrite <- Hshown.
    rewrite (HandlerFacts.to_string_some _ _ _ Hd), HandlerFacts.bind_ret.
    unfold to_string. rewrite Hh. unfold bind, throw.
    rewrite (HandlerCover.on_error_internal host _ _ (Hzod _)).
    subst failed. cbn beta iota. cbn [instanceof_Error message_of]. now rewrite <- app_assoc.
Qed.

Lemma unconvertible_value_reported_witness :
  let host := Sample.upstream 200 "OK" odd_humidity_text in
  let data := VObj [("current", odd_humidity_current)] in
  calls_get_weather Sample.sf_request Sample.sf_args
  /\ weatherToolSchema_parse Sample.sf_args = inr Sample.sf
  /\ upstream_replies host Sample.api_key [] Sample.sf data
  /\ ToNumber (VNum 1) = Some 1%float
  /\ ToNumber (VNum 2) = Some 2%float
  /\ ToString (shown_description VUndefined) = Some "Unknown"
  /\ ToString odd_humidity = None
  /\ call_tool_handler host Sample.api_key Sample.sf_request []
     = (Throw (McpError InternalError
                 "Error fetching weather data: Cannot convert object to primitive value"),
        [Fetch (weather_url Sample.api_key Sample.sf);
         ConsoleError "Weather API Error:"
                      (TypeError "Cannot convert object to primitive value")]).
Proof.
  intros host data.
  assert (Hup : upstream_replies host Sample.api_key [] Sample.sf data).
  { eexists. split; [reflexivity|]. split; [reflexivity|]. vm_compute. reflexivity. }
  split; [exact sf_request_calls|]. split; [exact sf_args_valid|]. split; [exact Hup|].
  split; [reflexivity|]. split; [reflexivity|]. split; [reflexivity|]. split; [reflexivity|].
  exact (proj2 (unconvertible_value_reported host Sample.api_key Sample.sf_request
                  Sample.sf_args Sample.sf data odd_humidity_current (VArr []) VUndefined
                  (VNum 1) odd_humidity (VNum 2) []
                  sf_request_calls sf_args_valid Hup
                  eq_refl eq_refl eq_refl eq_refl eq_refl eq_refl)
               1%float 2%float "Unknown" eq_refl eq_refl eq_refl eq_refl).
Defined.
